(** * FreeOSEK, SPARC V8 port: the context-aware trap handler and the
      interrupt mask controller.

    The development has two parts.

    - [TrapHandler] embeds [sparcTaskContextAwareTrapHandler] (the assembly
      routine of sparc/trapwindowoveflowhandler.s).  The machine is a record
      of the SPARC V8 state the routine touches: PSR, WIM, Y, the globals,
      the windowed locals and ins (the outs of a window are the ins of the
      window below it), a word-addressed store for everything reached
      through a pointer, and the three kernel variables the routine names by
      symbol.  Every basic block of the source is a list of instructions in
      source order, every label of the source is a definition of the same
      name, and the two instructions that can trap while traps are disabled
      (SAVE and RESTORE into the invalid window) are fallible.

    - [OsInternalArch] embeds sparc/Os_Internal_Arch.c: the two class masks,
      the current mask, the handler table and the operations on them.

    Conventions of the machine model: registers and store cells hold
    unsigned 32-bit values kept as [Z]; additions, subtractions and left
    shifts wrap modulo 2^32; the store is indexed by byte address and holds
    one word per address that is a multiple of four.

    Two things the processor does are not part of the machine.  A load or
    a store through a misaligned address traps: the machine takes the
    address as it is, and the statements that assert that a piece of code
    runs to its end name the alignment of the addresses it goes through as
    a hypothesis.  The instructions that set the integer condition codes
    write them to the icc field of the PSR: the machine keeps what the
    branch that follows reads, not the field, so between such an
    instruction and the next write of the PSR its [psr] component stands
    for the PSR outside that field ([psr_but_icc]); the routine rewrites
    the whole PSR from %l0 before it calls the collaborator, after the
    collaborator returns, and when it returns from the trap. *)

From Stdlib Require Import ZArith List Lia Bool.
Import ListNotations.
Local Open Scope Z_scope.

Module TrapHandler.

(** ** Constants of sparcassembly.h *)

(** Modelled from the spec: sparcassembly.h is not among the sources.  The
    three field masks are those of the SPARC V8 processor status register,
    which the routine itself relies on (it isolates the window pointer with
    the mask and uses it as a shift count, and it places the interrupt
    level with [sll 8] after [and 0x0f]). *)
Definition SPARC_PSR_CWP_MASK : Z := 0x1f.
Definition SPARC_PSR_ET_MASK : Z := 0x20.
Definition SPARC_PSR_PIL_MASK : Z := 0xf00.

Definition wrap32 (x : Z) : Z := x mod 2 ^ 32.

(** The processor interrupt level and the trap-enable bit of a PSR value. *)
Definition psr_pil (p : Z) : Z := Z.shiftr (Z.land p SPARC_PSR_PIL_MASK) 8.
Definition psr_et (p : Z) : bool := Z.testbit p 5.

(** The integer condition codes N, Z, V and C are bits 23 to 20 of the
    SPARC V8 PSR (the sources do not name the field); [psr_but_icc] is a
    PSR value without them. *)
Definition SPARC_PSR_ICC_MASK : Z := 0xf00000.
Definition psr_but_icc (p : Z) : Z :=
  Z.land p (Z.lxor SPARC_PSR_ICC_MASK 0xffffffff).

(** ** Machine state *)

Record State := mkState {
  pc : Z;
  npc : Z;
  psr : Z;
  wim : Z;
  yreg : Z;
  gregs : nat -> Z;          (* %g1 .. %g7; %g0 is hard-wired to zero *)
  lregs : Z -> nat -> Z;     (* window, index: %l0 .. %l7 of each window *)
  iregs : Z -> nat -> Z;     (* window, index: %i0 .. %i7 of each window *)
  mem : Z -> Z;              (* word at a byte address *)
  system_in_interrupt_context : Z;
  active_thread_context_stack_pointer : Z;
  detected_sparc_register_windows : Z
}.

Definition set_pc (v : Z) (s : State) : State :=
  mkState v (npc s) (psr s) (wim s) (yreg s) (gregs s) (lregs s) (iregs s) (mem s) (system_in_interrupt_context s) (active_thread_context_stack_pointer s) (detected_sparc_register_windows s).
Definition set_npc (v : Z) (s : State) : State :=
  mkState (pc s) v (psr s) (wim s) (yreg s) (gregs s) (lregs s) (iregs s) (mem s) (system_in_interrupt_context s) (active_thread_context_stack_pointer s) (detected_sparc_register_windows s).
Definition set_psr (v : Z) (s : State) : State :=
  mkState (pc s) (npc s) v (wim s) (yreg s) (gregs s) (lregs s) (iregs s) (mem s) (system_in_interrupt_context s) (active_thread_context_stack_pointer s) (detected_sparc_register_windows s).
Definition set_wim (v : Z) (s : State) : State :=
  mkState (pc s) (npc s) (psr s) v (yreg s) (gregs s) (lregs s) (iregs s) (mem s) (system_in_interrupt_context s) (active_thread_context_stack_pointer s) (detected_sparc_register_windows s).
Definition set_yreg (v : Z) (s : State) : State :=
  mkState (pc s) (npc s) (psr s) (wim s) v (gregs s) (lregs s) (iregs s) (mem s) (system_in_interrupt_context s) (active_thread_context_stack_pointer s) (detected_sparc_register_windows s).
Definition set_gregs (v : nat -> Z) (s : State) : State :=
  mkState (pc s) (npc s) (psr s) (wim s) (yreg s) v (lregs s) (iregs s) (mem s) (system_in_interrupt_context s) (active_thread_context_stack_pointer s) (detected_sparc_register_windows s).
Definition set_lregs (v : Z -> nat -> Z) (s : State) : State :=
  mkState (pc s) (npc s) (psr s) (wim s) (yreg s) (gregs s) v (iregs s) (mem s) (system_in_interrupt_context s) (active_thread_context_stack_pointer s) (detected_sparc_register_windows s).
Definition set_iregs (v : Z -> nat -> Z) (s : State) : State :=
  mkState (pc s) (npc s) (psr s) (wim s) (yreg s) (gregs s) (lregs s) v (mem s) (system_in_interrupt_context s) (active_thread_context_stack_pointer s) (detected_sparc_register_windows s).
Definition set_mem (v : Z -> Z) (s : State) : State :=
  mkState (pc s) (npc s) (psr s) (wim s) (yreg s) (gregs s) (lregs s) (iregs s) v (system_in_interrupt_context s) (active_thread_context_stack_pointer s) (detected_sparc_register_windows s).
Definition set_system_in_interrupt_context (v : Z) (s : State) : State :=
  mkState (pc s) (npc s) (psr s) (wim s) (yreg s) (gregs s) (lregs s) (iregs s) (mem s) v (active_thread_context_stack_pointer s) (detected_sparc_register_windows s).
Definition set_active_thread_context_stack_pointer (v : Z) (s : State) : State :=
  mkState (pc s) (npc s) (psr s) (wim s) (yreg s) (gregs s) (lregs s) (iregs s) (mem s) (system_in_interrupt_context s) v (detected_sparc_register_windows s).

Definition upd (f : Z -> Z) (k v : Z) : Z -> Z :=
  fun x => if x =? k then v else f x.
Definition updn (f : nat -> Z) (k : nat) (v : Z) : nat -> Z :=
  fun x => if Nat.eqb x k then v else f x.
Definition upd2 (f : Z -> nat -> Z) (w : Z) (k : nat) (v : Z) : Z -> nat -> Z :=
  fun a b => if Nat.eqb b k && (a =? w) then v else f a b.

(** Outcome of a piece of code that runs with traps disabled: a window trap
    taken there puts the processor in error mode. *)
Inductive outcome : Type :=
| Ok (s : State)
| ErrorMode
| OutOfFuel.

Definition bind (o : outcome) (k : State -> outcome) : outcome :=
  match o with
  | Ok s => k s
  | ErrorMode => ErrorMode
  | OutOfFuel => OutOfFuel
  end.

Notation "'do' s <- o ; k" := (bind o (fun s => k))
  (at level 10, s name, o at level 100, k at level 200).

Inductive reg : Type :=
| G (n : nat)
| O (n : nat)
| L (n : nat)
| I (n : nat).

Inductive operand : Type :=
| R (r : reg)
| Imm (v : Z).

Coercion R : reg >-> operand.

Definition sp : reg := O 6.
Definition fp : reg := I 6.

Section Machine.

(** Number of register windows the processor implements. *)
Variable NWINDOWS : Z.

(** Missing from the sources (sparcassembly.h): the PSR bits that a context
    restore must not take from the archived value, and the two stack
    reservation sizes. *)
Variable SPARC_NON_RESTORABLE_BITS_IN_PSR : Z.
Variable SPARC_STACK_BARE_MINIMUM_STACK_FRAME_RESERVATION_SIZE : Z.
Variable SPARC_STACK_BASE_CONTEXT_RESERVATION_SIZE : Z.

(** Link-time addresses of the symbols the routine names. *)
Variable system_in_interrupt_context_addr : Z.
Variable detected_sparc_register_windows_addr : Z.
Variable active_thread_context_stack_pointer_addr : Z.
Variable sparcNullTaskContextData : Z.

Definition cwp (s : State) : Z := Z.land (psr s) SPARC_PSR_CWP_MASK.

(** SAVE moves to the window below, RESTORE to the window above. *)
Definition win_below (w : Z) : Z := (w - 1) mod NWINDOWS.
Definition win_above (w : Z) : Z := (w + 1) mod NWINDOWS.

Definition get_reg (s : State) (r : reg) : Z :=
  match r with
  | G n => if Nat.eqb n 0 then 0 else gregs s n
  | L n => lregs s (cwp s) n
  | I n => iregs s (cwp s) n
  | O n => iregs s (win_below (cwp s)) n
  end.

Definition set_reg (r : reg) (v : Z) (s : State) : State :=
  match r with
  | G n => if Nat.eqb n 0 then s else set_gregs (updn (gregs s) n v) s
  | L n => set_lregs (upd2 (lregs s) (cwp s) n v) s
  | I n => set_iregs (upd2 (iregs s) (cwp s) n v) s
  | O n => set_iregs (upd2 (iregs s) (win_below (cwp s)) n v) s
  end.

Definition get_op (s : State) (o : operand) : Z :=
  match o with
  | R r => get_reg s r
  | Imm v => v
  end.

(** ** Instructions *)

Definition insn : Type := State -> State.

Definition run (b : list insn) (s : State) : State :=
  fold_left (fun st i => i st) b s.

Definition and_ (rs1 : reg) (o : operand) (rd : reg) : insn :=
  fun s => set_reg rd (Z.land (get_reg s rs1) (get_op s o)) s.
Definition andn_ (rs1 : reg) (o : operand) (rd : reg) : insn :=
  fun s => set_reg rd (Z.land (get_reg s rs1) (Z.lxor (get_op s o) 0xffffffff)) s.
Definition or_ (rs1 : reg) (o : operand) (rd : reg) : insn :=
  fun s => set_reg rd (Z.lor (get_reg s rs1) (get_op s o)) s.
Definition xor_ (rs1 : reg) (o : operand) (rd : reg) : insn :=
  fun s => set_reg rd (Z.lxor (get_reg s rs1) (get_op s o)) s.
Definition add_ (rs1 : reg) (o : operand) (rd : reg) : insn :=
  fun s => set_reg rd (wrap32 (get_reg s rs1 + get_op s o)) s.
Definition sub_ (rs1 : reg) (o : operand) (rd : reg) : insn :=
  fun s => set_reg rd (wrap32 (get_reg s rs1 - get_op s o)) s.
(** Shifts use the low five bits of the count. *)
Definition sll_ (rs1 : reg) (o : operand) (rd : reg) : insn :=
  fun s => set_reg rd (wrap32 (Z.shiftl (get_reg s rs1) (Z.land (get_op s o) 31))) s.
Definition srl_ (rs1 : reg) (o : operand) (rd : reg) : insn :=
  fun s => set_reg rd (Z.shiftr (get_reg s rs1) (Z.land (get_op s o) 31)) s.
Definition mov_ (o : operand) (rd : reg) : insn :=
  fun s => set_reg rd (get_op s o) s.

(** [sethi %hi(sym), rd]: the upper 22 bits of the symbol's address. *)
Definition hi (a : Z) : Z := Z.land a 0xfffffc00.
Definition sethi_hi (a : Z) (rd : reg) : insn :=
  fun s => set_reg rd (hi a) s.
(** [sethi %hi(sym), rd ; or rd, %lo(sym), rd]. *)
Definition set_address (a : Z) (rd : reg) : insn :=
  fun s => set_reg rd a s.

(** Loads and stores through a register plus a displacement.  The
    processor traps when the address of a word access is not a multiple of
    four, or that of a double-word access not a multiple of eight; the
    machine accesses the address as it is. *)
Definition ea (s : State) (base : reg) (d : Z) : Z := wrap32 (get_reg s base + d).
Definition ld_ (base : reg) (d : Z) (rd : reg) : insn :=
  fun s => set_reg rd (mem s (ea s base d)) s.
Definition st_ (rs : reg) (base : reg) (d : Z) : insn :=
  fun s => set_mem (upd (mem s) (ea s base d) (get_reg s rs)) s.

(** The register that follows [r] in a double-word pair. *)
Definition next_reg (r : reg) : reg :=
  match r with
  | G n => G (S n)
  | O n => O (S n)
  | L n => L (S n)
  | I n => I (S n)
  end.

Definition std_ (rs : reg) (base : reg) (d : Z) : insn :=
  fun s => set_mem (upd (upd (mem s) (ea s base d) (get_reg s rs))
                        (wrap32 (ea s base d + 4)) (get_reg s (next_reg rs))) s.
Definition ldd_ (base : reg) (d : Z) (rd : reg) : insn :=
  fun s => let a := ea s base d in
           let v0 := mem s a in
           let v1 := mem s (wrap32 (a + 4)) in
           set_reg (next_reg rd) v1 (set_reg rd v0 s).

(** Loads and stores of the kernel variables, [ld [%lo(sym) + r], rd] after
    [sethi %hi(sym), r]. *)
Definition ld_system_in_interrupt_context (rd : reg) : insn :=
  fun s => set_reg rd (system_in_interrupt_context s) s.
Definition st_system_in_interrupt_context (rs : reg) : insn :=
  fun s => set_system_in_interrupt_context (get_reg s rs) s.
Definition ld_detected_sparc_register_windows (rd : reg) : insn :=
  fun s => set_reg rd (detected_sparc_register_windows s) s.
Definition ld_active_thread_context_stack_pointer (rd : reg) : insn :=
  fun s => set_reg rd (active_thread_context_stack_pointer s) s.
Definition st_active_thread_context_stack_pointer (rs : reg) : insn :=
  fun s => set_active_thread_context_stack_pointer (get_reg s rs) s.

(** State registers.  WIM keeps only the bits of implemented windows. *)
Definition wim_bits (v : Z) : Z := Z.land v (Z.ones NWINDOWS).
Definition rd_wim (rd : reg) : insn :=
  fun s => set_reg rd (wim_bits (wim s)) s.
Definition wr_wim (o : operand) : insn :=
  fun s => set_wim (wim_bits (get_op s o)) s.
Definition rd_y (rd : reg) : insn :=
  fun s => set_reg rd (yreg s) s.
Definition wr_y (o : operand) : insn :=
  fun s => set_yreg (get_op s o) s.
Definition wr_psr (o : operand) : insn :=
  fun s => set_psr (get_op s o) s.

(** SAVE and RESTORE: the sum is computed from the old window and written
    in the new one; entering the invalid window traps. *)
Definition save_ (rs1 : reg) (o : operand) (rd : reg) (s : State) : outcome :=
  let w := win_below (cwp s) in
  if Z.testbit (wim_bits (wim s)) w then ErrorMode
  else
    let v := wrap32 (get_reg s rs1 + get_op s o) in
    let s1 := set_psr (Z.lor (Z.land (psr s) (Z.lxor SPARC_PSR_CWP_MASK 0xffffffff)) w) s in
    Ok (set_reg rd v s1).
Definition restore_ (rs1 : reg) (o : operand) (rd : reg) (s : State) : outcome :=
  let w := win_above (cwp s) in
  if Z.testbit (wim_bits (wim s)) w then ErrorMode
  else
    let v := wrap32 (get_reg s rs1 + get_op s o) in
    let s1 := set_psr (Z.lor (Z.land (psr s) (Z.lxor SPARC_PSR_CWP_MASK 0xffffffff)) w) s in
    Ok (set_reg rd v s1).

(** Condition codes, as far as the branches of the routine read them: each
    [andcc], [subcc] and [tst] of the routine is followed at once by the
    one branch that reads its Z flag.  The flags themselves, which the
    processor keeps in the icc field of the PSR until the PSR is written
    again, are not kept in the machine state. *)
Definition andcc_zero (a b : Z) : bool := Z.land a b =? 0.
Definition subcc_zero (a b : Z) : bool := wrap32 (a - b) =? 0.
Definition tst_zero (a : Z) : bool := a =? 0.

(** ** The routine, label by label *)

(** The collaborator a trap instance is about to call. *)
Inductive callee : Type :=
| InterruptHandlerCaller
| TaskContextReplacementHandlerCaller.

(** Entry: unify the return addresses.  For a software trap (bit 0x20 of
    %l3 set) the pair becomes (nPC, nPC + 4). *)
Definition sparcTaskContextAwareTrapHandler (s : State) : State :=
  if andcc_zero (get_reg s (L 3)) 0x20 then s
  else run [ mov_ (L 2) (L 1);
             add_ (L 1) (Imm 0x04) (L 2) ] s.

(** The store of the flag sits in the delay slot of the branch to the
    nested case, so it is executed on both paths. *)
Definition common_interrupting_trap : list insn :=
  [ sethi_hi system_in_interrupt_context_addr (L 4);
    ld_system_in_interrupt_context (L 5);
    mov_ (Imm 0x1) (L 6);
    st_system_in_interrupt_context (L 6) ].

(** The sixteen words of the current window, stored at its stack pointer. *)
Definition store_window : list insn :=
  [ std_ (L 0) sp 0;
    std_ (L 2) sp 8;
    std_ (L 4) sp 16;
    std_ (L 6) sp 24;
    std_ (I 0) sp 32;
    std_ (I 2) sp 40;
    std_ (I 4) sp 48;
    std_ (I 6) sp 56 ].

Definition load_window : list insn :=
  [ ldd_ sp 0 (L 0);
    ldd_ sp 8 (L 2);
    ldd_ sp 16 (L 4);
    ldd_ sp 24 (L 6);
    ldd_ sp 32 (I 0);
    ldd_ sp 40 (I 2);
    ldd_ sp 48 (I 4);
    ldd_ sp 56 (I 6) ].

Definition swap_g3_l0 : list insn :=
  [ xor_ (G 3) (L 0) (L 0);
    xor_ (G 3) (L 0) (G 3);
    xor_ (G 3) (L 0) (L 0) ].

Definition outermost_trap_handler : list insn :=
  [ mov_ (G 4) (L 4);
    mov_ (G 5) (L 5);
    mov_ (G 6) (L 6);
    mov_ (G 7) (L 7);
    sethi_hi detected_sparc_register_windows_addr (G 7);
    ld_detected_sparc_register_windows (G 7);
    sub_ (G 7) (Imm 0x1) (G 7);
    and_ (L 0) (Imm SPARC_PSR_CWP_MASK) (G 4);
    add_ (G 4) (Imm 0x1) (G 4);
    and_ (G 4) (G 7) (G 4);
    mov_ (Imm 0x1) (G 6);
    sll_ (G 6) (G 4) (G 6);
    rd_wim (G 5) ] ++ swap_g3_l0.

(** One turn of the dump loop after its RESTORE. *)
Definition outermost_dump_windows_loop_body : list insn :=
  store_window ++
  [ srl_ (G 5) (Imm 0x1) (G 4);
    sll_ (G 5) (G 7) (G 5);
    or_ (G 4) (G 5) (G 5);
    mov_ (Imm 0x02) (G 4);
    sll_ (G 4) (G 7) (G 4);
    sub_ (G 4) (Imm 0x01) (G 4);
    and_ (G 5) (G 4) (G 5) ].

Fixpoint outermost_dump_windows_loop (fuel : nat) (s : State) : outcome :=
  match fuel with
  | 0%nat => OutOfFuel
  | S n =>
      do s1 <- restore_ (G 0) (G 0) (G 0) s;
      let s2 := run outermost_dump_windows_loop_body s1 in
      if subcc_zero (get_reg s2 (G 5)) (get_reg s2 (G 6)) then Ok s2
      else outermost_dump_windows_loop n s2
  end.

Definition outermost_dump_done : list insn :=
  [ wr_wim (G 6);
    wr_psr (G 3) ] ++ swap_g3_l0.

Definition outermost_null_task_context : list insn :=
  [ set_address sparcNullTaskContextData (G 5);
    sethi_hi active_thread_context_stack_pointer_addr (G 4);
    st_active_thread_context_stack_pointer (G 5);
    mov_ (G 5) (G 4) ].

Definition outermost_regular_context : list insn :=
  [ st_ (L 0) (G 4) 0;
    st_ (G 1) (G 4) 4;
    std_ (G 2) (G 4) 8;
    std_ (L 4) (G 4) 16;
    std_ (L 6) (G 4) 24;
    std_ (I 0) (G 4) 32;
    std_ (I 2) (G 4) 40;
    std_ (I 4) (G 4) 48;
    std_ (I 6) (G 4) 56;
    rd_y (L 5);
    st_ (L 5) (G 4) 64;
    st_ (L 1) (G 4) 68;
    st_ (L 2) (G 4) 72 ].

Definition outermost_save_context (s : State) : State :=
  let s1 := run [ sethi_hi active_thread_context_stack_pointer_addr (G 4);
                  ld_active_thread_context_stack_pointer (G 4);
                  ld_ (G 4) 76 (G 5) ] s in
  if tst_zero (get_reg s1 (G 5)) then run outermost_regular_context s1
  else run (outermost_null_task_context ++ outermost_regular_context) s1.

(** The first instruction of this block is also the delay slot of the
    branch that selects the other block. *)
Definition outermost_set_interrupt_handler_caller_address : list insn :=
  [ andn_ (L 0) (Imm SPARC_PSR_PIL_MASK) (L 4);
    and_ (L 3) (Imm 0x0f) (L 5);
    sll_ (L 5) (Imm 0x08) (L 5);
    or_ (L 4) (L 5) (L 4);
    wr_psr (L 4);
    or_ (L 4) (Imm SPARC_PSR_ET_MASK) (L 4);
    wr_psr (L 4);
    and_ (L 3) (Imm 0x1f) (O 0) ].

Definition outermost_set_task_context_replacement_handler_address : list insn :=
  [ andn_ (L 0) (Imm SPARC_PSR_PIL_MASK) (L 4);   (* delay slot of the bnz *)
    or_ (L 0) (Imm SPARC_PSR_ET_MASK) (L 4);
    wr_psr (L 4);
    and_ (L 3) (Imm 0x1f) (O 0) ].

(** Bit 0x20 of %l3 selects the collaborator. *)
Definition selected_callee (s : State) : callee :=
  if andcc_zero (get_reg s (L 3)) 0x20 then InterruptHandlerCaller
  else TaskContextReplacementHandlerCaller.

(** Room for the stack frame of the collaborator, then everything up to
    the call and its delay slot: the result is the state the collaborator
    starts in. *)
Definition outermost_call (s : State) : State :=
  let s1 := run [ sub_ fp (Imm SPARC_STACK_BARE_MINIMUM_STACK_FRAME_RESERVATION_SIZE) sp ] s in
  match selected_callee s1 with
  | InterruptHandlerCaller =>
      run outermost_set_interrupt_handler_caller_address s1
  | TaskContextReplacementHandlerCaller =>
      run outermost_set_task_context_replacement_handler_address s1
  end.

Definition outermost_disable_traps : list insn :=
  [ wr_psr (L 0);
    add_ sp (Imm SPARC_STACK_BARE_MINIMUM_STACK_FRAME_RESERVATION_SIZE) sp;
    sethi_hi system_in_interrupt_context_addr (L 4);
    st_system_in_interrupt_context (G 0) ].

Definition outermost_restore_context : list insn :=
  [ sethi_hi active_thread_context_stack_pointer_addr (L 4);
    ld_active_thread_context_stack_pointer sp;
    ld_ sp 0 (L 4);
    set_address SPARC_NON_RESTORABLE_BITS_IN_PSR (L 5);
    and_ (L 0) (L 5) (L 0);
    andn_ (L 4) (L 5) (L 4);
    or_ (L 0) (L 4) (L 0);
    ld_ sp 4 (G 1);
    ldd_ sp 8 (G 2);
    ldd_ sp 16 (G 4);
    ldd_ sp 24 (G 6);
    ldd_ sp 32 (I 0);
    ldd_ sp 40 (I 2);
    ldd_ sp 48 (I 4);
    ldd_ sp 56 (I 6);
    ld_ sp 64 (L 5);
    wr_y (L 5);
    ld_ sp 68 (L 1);
    ld_ sp 72 (L 2) ].

(** Rotate WIM one bit to the left and write it back. *)
Definition rotate_wim_left : list insn :=
  [ sll_ (L 4) (Imm 1) (L 6);
    srl_ (L 4) (L 5) (L 4);
    or_ (L 4) (L 6) (L 4);
    wr_wim (L 4) ].

Definition outermost_force_window_underflow (s : State) : outcome :=
  let s1 := run ([ rd_wim (L 4);
                   sethi_hi detected_sparc_register_windows_addr (L 5);
                   ld_detected_sparc_register_windows (L 5);
                   sub_ (L 5) (Imm 1) (L 5) ] ++ rotate_wim_left) s in
  do s2 <- restore_ (G 0) (G 0) (G 0) s1;
  let s3 := run load_window s2 in
  save_ sp (Imm SPARC_STACK_BARE_MINIMUM_STACK_FRAME_RESERVATION_SIZE) sp s3.

(** [mov %l0, %psr ; jmp %l1 ; rett %l2].  RETT moves to the window above
    (a trap there, with traps still disabled, is error mode), enables
    traps, and puts the previous-supervisor bit back in the supervisor
    bit.  A RETT executed with traps enabled traps by itself; the machine
    has the return for a %l0 whose trap-enable bit is clear, as it is in the
    PSR of a trap entry. *)
Definition common_return_from_trap (s : State) : outcome :=
  let s1 := wr_psr (L 0) s in
  let w := win_above (cwp s1) in
  if Z.testbit (wim_bits (wim s1)) w then ErrorMode
  else
    let p := psr s1 in
    let p1 := Z.lor (Z.land p (Z.lxor SPARC_PSR_CWP_MASK 0xffffffff)) w in
    let p2 := Z.lor p1 SPARC_PSR_ET_MASK in
    let p3 := if Z.testbit p 6 then Z.lor p2 0x80
              else Z.land p2 (Z.lxor 0x80 0xffffffff) in
    Ok (set_psr p3 (set_npc (get_reg s1 (L 2)) (set_pc (get_reg s1 (L 1)) s1))).

(** *** Nested trap case *)

Definition nested_trap_handler : list insn :=
  [ sethi_hi detected_sparc_register_windows_addr (L 7);
    ld_detected_sparc_register_windows (L 7);
    sub_ (L 7) (Imm 0x1) (L 7);
    and_ (L 0) (Imm SPARC_PSR_CWP_MASK) (L 4);
    mov_ (Imm 0x1) (L 6);
    sll_ (L 6) (L 4) (L 6);
    rd_wim (L 5) ].

Definition nested_window_overflow (s : State) : outcome :=
  let s1 := run [ srl_ (L 5) (Imm 0x1) (L 4);
                  sll_ (L 5) (L 7) (L 5);
                  or_ (L 4) (L 5) (L 5);
                  mov_ (G 5) (L 7);
                  mov_ (L 5) (G 5) ] s in
  do s2 <- save_ (G 0) (G 0) (G 0) s1;
  let s3 := run (store_window ++ [ wr_wim (G 5) ]) s2 in
  do s4 <- restore_ (G 0) (G 0) (G 0) s3;
  Ok (run [ mov_ (L 7) (G 5) ] s4).

(** From [nested_trap_handler] to [nested_no_window_overflow]: the branch
    is taken, and nothing spilled, when WIM differs from the bit of the
    trap window. *)
Definition nested_free_one_window (s : State) : outcome :=
  let s1 := run nested_trap_handler s in
  if subcc_zero (get_reg s1 (L 5)) (get_reg s1 (L 6))
  then nested_window_overflow s1
  else Ok s1.

Definition nested_no_window_overflow : list insn :=
  [ sub_ fp (Imm SPARC_STACK_BASE_CONTEXT_RESERVATION_SIZE) sp;
    st_ (L 0) sp 0;
    st_ (G 1) sp 4;
    std_ (G 2) sp 8;
    std_ (G 4) sp 16;
    std_ (G 6) sp 24;
    std_ (I 0) sp 32;
    std_ (I 2) sp 40;
    std_ (I 4) sp 48;
    std_ (I 6) sp 56;
    rd_y (L 5);
    st_ (L 5) sp 64;
    st_ (L 1) sp 68;
    st_ (L 2) sp 72 ].

Definition nested_set_interrupt_handler_caller_address : list insn :=
  [ andn_ (L 0) (Imm SPARC_PSR_PIL_MASK) (L 4);
    and_ (L 3) (Imm 0x0f) (L 5);
    sll_ (L 5) (Imm 0x08) (L 5);
    or_ (L 4) (L 5) (L 4);
    wr_psr (L 4);
    or_ (L 4) (Imm SPARC_PSR_ET_MASK) (L 4);
    wr_psr (L 4);
    and_ (L 3) (Imm 0x1f) (O 0) ].

Definition nested_set_task_context_replacement_handler_address : list insn :=
  [ andn_ (L 0) (Imm SPARC_PSR_PIL_MASK) (L 4);   (* delay slot of the bnz *)
    or_ (L 0) (Imm SPARC_PSR_ET_MASK) (L 4);
    wr_psr (L 4);
    and_ (L 3) (Imm 0x1f) (O 0) ].

Definition nested_call (s : State) : State :=
  let s1 := run [ sub_ sp (Imm SPARC_STACK_BARE_MINIMUM_STACK_FRAME_RESERVATION_SIZE) sp ] s in
  match selected_callee s1 with
  | InterruptHandlerCaller =>
      run nested_set_interrupt_handler_caller_address s1
  | TaskContextReplacementHandlerCaller =>
      run nested_set_task_context_replacement_handler_address s1
  end.

Definition nested_disable_traps : list insn :=
  [ wr_psr (L 0);
    add_ sp (Imm SPARC_STACK_BARE_MINIMUM_STACK_FRAME_RESERVATION_SIZE) sp ].

Definition nested_restore_context : list insn :=
  [ ld_ sp 0 (L 0);
    ld_ sp 4 (G 1);
    ldd_ sp 8 (G 2);
    ldd_ sp 16 (G 4);
    ldd_ sp 24 (G 6);
    ldd_ sp 32 (I 0);
    ldd_ sp 40 (I 2);
    ldd_ sp 48 (I 4);
    ldd_ sp 56 (I 6);
    ld_ sp 64 (L 5);
    wr_y (L 5);
    ld_ sp 68 (L 1);
    ld_ sp 72 (L 2) ].

Definition nested_restore_invalid_window (s : State) : outcome :=
  let s1 := run rotate_wim_left s in
  do s2 <- restore_ (G 0) (G 0) (G 0) s1;
  let s3 := run load_window s2 in
  save_ (G 0) (G 0) (G 0) s3.

(** The test before [nested_restore_invalid_window]: is the window above
    the trap window the invalid one? *)
Definition nested_skip_restoring_invalid_window (s : State) : outcome :=
  let s1 := run [ sethi_hi detected_sparc_register_windows_addr (L 5);
                  ld_detected_sparc_register_windows (L 5);
                  sub_ (L 5) (Imm 1) (L 5);
                  and_ (L 0) (Imm SPARC_PSR_CWP_MASK) (L 7);
                  add_ (L 7) (Imm 1) (L 7);
                  and_ (L 7) (L 5) (L 7);
                  mov_ (Imm 0x1) (L 6);
                  sll_ (L 6) (L 7) (L 6);
                  rd_wim (L 4) ] s in
  if subcc_zero (get_reg s1 (L 4)) (get_reg s1 (L 6))
  then nested_restore_invalid_window s1
  else Ok s1.

(** *** The two halves of one trap instance *)

Inductive path : Type :=
| Outermost
| Nested.

(** The dump loop leaves by itself or by a window trap within [NWINDOWS]
    turns whenever some window is invalid. *)
Definition dump_fuel : nat := Z.to_nat NWINDOWS.

Definition outermost_entry (s : State) : outcome :=
  let s1 := run outermost_trap_handler s in
  do s2 <- outermost_dump_windows_loop dump_fuel s1;
  let s3 := run outermost_dump_done s2 in
  Ok (outermost_call (outermost_save_context s3)).

Definition outermost_exit (s : State) : outcome :=
  let s1 := run (outermost_disable_traps ++ outermost_restore_context) s in
  do s2 <- outermost_force_window_underflow s1;
  common_return_from_trap s2.

Definition nested_entry (s : State) : outcome :=
  do s1 <- nested_free_one_window s;
  Ok (nested_call (run nested_no_window_overflow s1)).

Definition nested_exit (s : State) : outcome :=
  let s1 := run (nested_disable_traps ++ nested_restore_context) s in
  do s2 <- nested_skip_restoring_invalid_window s1;
  common_return_from_trap s2.

(** The common entry code, then the test of the old flag value in %l5. *)
Definition common_entry (s : State) : State :=
  run common_interrupting_trap (sparcTaskContextAwareTrapHandler s).

Definition selected_path (s : State) : path :=
  if tst_zero (get_reg s (L 5)) then Outermost else Nested.

Definition trap_entry_half (s : State) : outcome :=
  let s1 := common_entry s in
  match selected_path s1 with
  | Outermost => outermost_entry s1
  | Nested => nested_entry s1
  end.

Definition trap_exit_half (p : path) (s : State) : outcome :=
  match p with
  | Outermost => outermost_exit s
  | Nested => nested_exit s
  end.

(** Modelled from the spec: the trap table that binds the routine to the
    hardware vectors is out of scope, and the routine only documents the
    register arrangement it expects on entry (%l0 = PSR, %l1 = PC,
    %l2 = nPC, %l3 = table index).  This is the SPARC V8 trap entry
    (traps disabled, supervisor bit saved and set, one window down, PC and
    nPC in %l1 and %l2) followed by a stub that reads the PSR into %l0 and
    puts the index in %l3. *)
Definition trap_entry (index : Z) (s : State) : State :=
  let p := psr s in
  let p1 := Z.land p (Z.lxor (Z.lor SPARC_PSR_CWP_MASK (Z.lor SPARC_PSR_ET_MASK 0x40)) 0xffffffff) in
  let p2 := Z.lor p1 (if Z.testbit p 7 then 0x40 else 0) in
  let p3 := Z.lor (Z.lor p2 0x80) (win_below (cwp s)) in
  let s1 := set_psr p3 s in
  run [ mov_ (Imm (pc s)) (L 1);
        mov_ (Imm (npc s)) (L 2);
        mov_ (Imm p3) (L 0);
        mov_ (Imm index) (L 3) ] s1.

End Machine.

(** ** Properties *)

Section Properties.

Variable NWINDOWS : Z.
Variable SPARC_NON_RESTORABLE_BITS_IN_PSR : Z.
Variable SPARC_STACK_BARE_MINIMUM_STACK_FRAME_RESERVATION_SIZE : Z.
Variable SPARC_STACK_BASE_CONTEXT_RESERVATION_SIZE : Z.
Variable system_in_interrupt_context_addr : Z.
Variable detected_sparc_register_windows_addr : Z.
Variable active_thread_context_stack_pointer_addr : Z.
Variable sparcNullTaskContextData : Z.

Lemma run_cons (i : insn) (b : list insn) (s : State) :
  run (i :: b) s = run b (i s).
Proof. reflexivity. Qed.

Lemma run_nil (s : State) : run [] s = s.
Proof. reflexivity. Qed.

Lemma run_app (b1 b2 : list insn) (s : State) :
  run (b1 ++ b2) s = run b2 (run b1 s).
Proof. unfold run. apply fold_left_app. Qed.

(** Symbolic execution of a straight-line block, one instruction at a time,
    on a state in constructor form. *)
Ltac mach_eval e :=
  eval cbv beta iota zeta delta
      [pc npc psr wim yreg gregs lregs iregs mem
       system_in_interrupt_context active_thread_context_stack_pointer
       detected_sparc_register_windows
       set_pc set_npc set_psr set_wim set_yreg set_gregs set_lregs set_iregs
       set_mem set_system_in_interrupt_context
       set_active_thread_context_stack_pointer
       get_reg set_reg get_op ea cwp next_reg sp fp
       and_ andn_ or_ xor_ add_ sub_ sll_ srl_ mov_ sethi_hi set_address
       ld_ st_ std_ ldd_
       ld_system_in_interrupt_context st_system_in_interrupt_context
       ld_detected_sparc_register_windows
       ld_active_thread_context_stack_pointer
       st_active_thread_context_stack_pointer
       rd_wim wr_wim rd_y wr_y wr_psr Nat.eqb] in e.

Lemma updn_same (f : nat -> Z) (k : nat) (v : Z) : updn f k v k = v.
Proof. unfold updn. now rewrite Nat.eqb_refl. Qed.

Lemma updn_other (f : nat -> Z) (k : nat) (v : Z) (x : nat) :
  Nat.eqb x k = false -> updn f k v x = f x.
Proof. unfold updn. now intros ->. Qed.

Lemma upd2_same (f : Z -> nat -> Z) (w : Z) (k : nat) (v : Z) :
  upd2 f w k v w k = v.
Proof. unfold upd2. now rewrite Nat.eqb_refl, Z.eqb_refl. Qed.

Lemma upd2_other (f : Z -> nat -> Z) (w : Z) (k : nat) (v : Z) (a : Z) (b : nat) :
  Nat.eqb b k = false -> upd2 f w k v a b = f a b.
Proof. unfold upd2. now intros ->. Qed.

Lemma upd2_window (f : Z -> nat -> Z) (w : Z) (k : nat) (v : Z) (a : Z) (b : nat) :
  a <> w -> upd2 f w k v a b = f a b.
Proof.
  unfold upd2. intros H. apply Z.eqb_neq in H. rewrite H.
  now rewrite andb_false_r.
Qed.

Lemma upd_same (f : Z -> Z) (k v : Z) : upd f k v k = v.
Proof. unfold upd. now rewrite Z.eqb_refl. Qed.

Lemma upd_other (f : Z -> Z) (k v x : Z) : x <> k -> upd f k v x = f x.
Proof. unfold upd. intros H. apply Z.eqb_neq in H. now rewrite H. Qed.

(** Reads of a register file through the writes made so far. *)
Ltac mach_reads :=
  repeat match goal with
    | |- context [upd2 ?f ?w ?k ?v ?a ?b] =>
        first [ rewrite (upd2_same f w k v)
              | rewrite (upd2_other f w k v a b) by reflexivity ]
    | |- context [updn ?f ?k ?v ?x] =>
        first [ rewrite (updn_same f k v)
              | rewrite (updn_other f k v x) by reflexivity ]
    end.

(** Observations on a state in constructor form, in the goal or in the
    hypotheses. *)
Ltac is_state s :=
  lazymatch s with
  | mkState _ _ _ _ _ _ _ _ _ _ _ _ => idtac
  end.

Ltac mach_obs_term k :=
  match k with
  | context [get_reg ?n (mkState ?a1 ?a2 ?a3 ?a4 ?a5 ?a6 ?a7 ?a8 ?a9 ?a10 ?a11 ?a12) ?r] =>
      constr:(get_reg n (mkState a1 a2 a3 a4 a5 a6 a7 a8 a9 a10 a11 a12) r)
  | context [cwp (mkState ?a1 ?a2 ?a3 ?a4 ?a5 ?a6 ?a7 ?a8 ?a9 ?a10 ?a11 ?a12)] =>
      constr:(cwp (mkState a1 a2 a3 a4 a5 a6 a7 a8 a9 a10 a11 a12))
  | context [psr (mkState ?a1 ?a2 ?a3 ?a4 ?a5 ?a6 ?a7 ?a8 ?a9 ?a10 ?a11 ?a12)] =>
      constr:(psr (mkState a1 a2 a3 a4 a5 a6 a7 a8 a9 a10 a11 a12))
  | context [wim (mkState ?a1 ?a2 ?a3 ?a4 ?a5 ?a6 ?a7 ?a8 ?a9 ?a10 ?a11 ?a12)] =>
      constr:(wim (mkState a1 a2 a3 a4 a5 a6 a7 a8 a9 a10 a11 a12))
  | context [yreg (mkState ?a1 ?a2 ?a3 ?a4 ?a5 ?a6 ?a7 ?a8 ?a9 ?a10 ?a11 ?a12)] =>
      constr:(yreg (mkState a1 a2 a3 a4 a5 a6 a7 a8 a9 a10 a11 a12))
  | context [pc (mkState ?a1 ?a2 ?a3 ?a4 ?a5 ?a6 ?a7 ?a8 ?a9 ?a10 ?a11 ?a12)] =>
      constr:(pc (mkState a1 a2 a3 a4 a5 a6 a7 a8 a9 a10 a11 a12))
  | context [npc (mkState ?a1 ?a2 ?a3 ?a4 ?a5 ?a6 ?a7 ?a8 ?a9 ?a10 ?a11 ?a12)] =>
      constr:(npc (mkState a1 a2 a3 a4 a5 a6 a7 a8 a9 a10 a11 a12))
  | context [gregs (mkState ?a1 ?a2 ?a3 ?a4 ?a5 ?a6 ?a7 ?a8 ?a9 ?a10 ?a11 ?a12)] =>
      constr:(gregs (mkState a1 a2 a3 a4 a5 a6 a7 a8 a9 a10 a11 a12))
  | context [lregs (mkState ?a1 ?a2 ?a3 ?a4 ?a5 ?a6 ?a7 ?a8 ?a9 ?a10 ?a11 ?a12)] =>
      constr:(lregs (mkState a1 a2 a3 a4 a5 a6 a7 a8 a9 a10 a11 a12))
  | context [iregs (mkState ?a1 ?a2 ?a3 ?a4 ?a5 ?a6 ?a7 ?a8 ?a9 ?a10 ?a11 ?a12)] =>
      constr:(iregs (mkState a1 a2 a3 a4 a5 a6 a7 a8 a9 a10 a11 a12))
  | context [mem (mkState ?a1 ?a2 ?a3 ?a4 ?a5 ?a6 ?a7 ?a8 ?a9 ?a10 ?a11 ?a12)] =>
      constr:(mem (mkState a1 a2 a3 a4 a5 a6 a7 a8 a9 a10 a11 a12))
  | context [system_in_interrupt_context (mkState ?a1 ?a2 ?a3 ?a4 ?a5 ?a6 ?a7 ?a8 ?a9 ?a10 ?a11 ?a12)] =>
      constr:(system_in_interrupt_context (mkState a1 a2 a3 a4 a5 a6 a7 a8 a9 a10 a11 a12))
  | context [active_thread_context_stack_pointer (mkState ?a1 ?a2 ?a3 ?a4 ?a5 ?a6 ?a7 ?a8 ?a9 ?a10 ?a11 ?a12)] =>
      constr:(active_thread_context_stack_pointer (mkState a1 a2 a3 a4 a5 a6 a7 a8 a9 a10 a11 a12))
  | context [detected_sparc_register_windows (mkState ?a1 ?a2 ?a3 ?a4 ?a5 ?a6 ?a7 ?a8 ?a9 ?a10 ?a11 ?a12)] =>
      constr:(detected_sparc_register_windows (mkState a1 a2 a3 a4 a5 a6 a7 a8 a9 a10 a11 a12))
  | context [set_psr ?v (mkState ?a1 ?a2 ?a3 ?a4 ?a5 ?a6 ?a7 ?a8 ?a9 ?a10 ?a11 ?a12)] =>
      constr:(set_psr v (mkState a1 a2 a3 a4 a5 a6 a7 a8 a9 a10 a11 a12))
  | context [set_pc ?v (mkState ?a1 ?a2 ?a3 ?a4 ?a5 ?a6 ?a7 ?a8 ?a9 ?a10 ?a11 ?a12)] =>
      constr:(set_pc v (mkState a1 a2 a3 a4 a5 a6 a7 a8 a9 a10 a11 a12))
  | context [set_npc ?v (mkState ?a1 ?a2 ?a3 ?a4 ?a5 ?a6 ?a7 ?a8 ?a9 ?a10 ?a11 ?a12)] =>
      constr:(set_npc v (mkState a1 a2 a3 a4 a5 a6 a7 a8 a9 a10 a11 a12))
  | context [set_reg ?n ?r ?v (mkState ?a1 ?a2 ?a3 ?a4 ?a5 ?a6 ?a7 ?a8 ?a9 ?a10 ?a11 ?a12)] =>
      constr:(set_reg n r v (mkState a1 a2 a3 a4 a5 a6 a7 a8 a9 a10 a11 a12))
  | context [wr_psr ?n ?o (mkState ?a1 ?a2 ?a3 ?a4 ?a5 ?a6 ?a7 ?a8 ?a9 ?a10 ?a11 ?a12)] =>
      constr:(wr_psr n o (mkState a1 a2 a3 a4 a5 a6 a7 a8 a9 a10 a11 a12))
  end.

Ltac mach_obs :=
  repeat match goal with
    | |- ?k =>
        let e := mach_obs_term k in
        let v := mach_eval e in
        change e with v
    end;
  mach_reads.

Ltac mach_obs_in H :=
  repeat match type of H with
    | ?k =>
        let e := mach_obs_term k in
        let v := mach_eval e in
        change e with v in H
    end.

Ltac mach_step_with tac :=
  match goal with
  | |- context [run (?i :: ?b) ?s] =>
      is_state s;
      let v := mach_eval (i s) in
      change (run (i :: b) s) with (run b v)
  | |- context [run [] ?s] => change (run [] s) with s
  end;
  tac; mach_reads.

Ltac mach_with tac :=
  repeat mach_step_with tac; mach_obs; tac; mach_reads.

Ltac mach_step := mach_step_with idtac.
Ltac mach := mach_with idtac.

(** *** Bits of the masks *)

Lemma testbit_0x20 (n : Z) : 0 <= n -> Z.testbit 0x20 n = (n =? 5).
Proof.
  intros Hn. change 0x20 with (2 ^ 5). rewrite Z.pow2_bits_eqb by lia.
  apply Z.eqb_sym.
Qed.

Lemma andcc_zero_0x20 (x : Z) : andcc_zero x 0x20 = negb (Z.testbit x 5).
Proof.
  unfold andcc_zero.
  destruct (Z.testbit x 5) eqn:Hb; cbn [negb].
  - apply Z.eqb_neq. intros H0.
    assert (Hc : Z.testbit (Z.land x 0x20) 5 = false) by (rewrite H0; apply Z.bits_0).
    rewrite Z.land_spec, Hb in Hc. discriminate Hc.
  - apply Z.eqb_eq. apply Z.bits_inj'. intros n Hn.
    rewrite Z.land_spec, Z.bits_0, testbit_0x20 by lia.
    destruct (Z.eqb_spec n 5) as [->|]; [rewrite Hb|]; auto using andb_false_r.
Qed.

(** The pair of addresses at which the interrupted code resumes. *)
Definition resume_pair (s : State) : Z * Z :=
  (get_reg NWINDOWS s (L 1), get_reg NWINDOWS s (L 2)).

Lemma normalize_resume_pair (s : State) :
  resume_pair (sparcTaskContextAwareTrapHandler NWINDOWS s) =
  if Z.testbit (get_reg NWINDOWS s (L 3)) 5
  then (get_reg NWINDOWS s (L 2), wrap32 (get_reg NWINDOWS s (L 2) + 4))
  else (get_reg NWINDOWS s (L 1), get_reg NWINDOWS s (L 2)).
Proof.
  unfold sparcTaskContextAwareTrapHandler. rewrite andcc_zero_0x20.
  destruct (Z.testbit _ 5); cbn [negb]; [|reflexivity].
  unfold resume_pair. destruct s. mach. reflexivity.
Qed.

(** *** Bits of the status register *)

Lemma testbit_ones_shift (k m n : Z) :
  0 <= k -> 0 <= m -> 0 <= n ->
  Z.testbit (Z.shiftl (Z.ones k) m) n = (m <=? n) && (n <? m + k).
Proof.
  intros Hk Hm Hn. rewrite Z.shiftl_spec by lia.
  destruct (Z.leb_spec m n) as [Hle|Hlt]; cbn [andb].
  - rewrite Z.testbit_ones_nonneg by lia.
    destruct (Z.ltb_spec (n - m) k), (Z.ltb_spec n (m + k)); auto; lia.
  - apply Z.testbit_neg_r. lia.
Qed.

Lemma testbit_PIL_MASK (n : Z) :
  0 <= n -> Z.testbit SPARC_PSR_PIL_MASK n = (8 <=? n) && (n <? 12).
Proof.
  intros Hn. change SPARC_PSR_PIL_MASK with (Z.shiftl (Z.ones 4) 8).
  rewrite testbit_ones_shift by lia. reflexivity.
Qed.

Lemma testbit_CWP_MASK (n : Z) :
  0 <= n -> Z.testbit SPARC_PSR_CWP_MASK n = (n <? 5).
Proof.
  intros Hn. change SPARC_PSR_CWP_MASK with (Z.ones 5).
  apply Z.testbit_ones_nonneg; lia.
Qed.

Lemma testbit_ET_MASK (n : Z) :
  0 <= n -> Z.testbit SPARC_PSR_ET_MASK n = (n =? 5).
Proof. apply testbit_0x20. Qed.

Lemma testbit_0xffffffff (n : Z) :
  0 <= n -> Z.testbit 0xffffffff n = (n <? 32).
Proof.
  intros Hn. change 0xffffffff with (Z.ones 32).
  apply Z.testbit_ones_nonneg; lia.
Qed.

Lemma testbit_0x0f (n : Z) : 0 <= n -> Z.testbit 0x0f n = (n <? 4).
Proof.
  intros Hn. change 0x0f with (Z.ones 4). apply Z.testbit_ones_nonneg; lia.
Qed.

Lemma testbit_0x1f (n : Z) : 0 <= n -> Z.testbit 0x1f n = (n <? 5).
Proof.
  intros Hn. change 0x1f with (Z.ones 5). apply Z.testbit_ones_nonneg; lia.
Qed.

Lemma testbit_wrap32 (x n : Z) :
  0 <= n -> Z.testbit (wrap32 x) n = (n <? 32) && Z.testbit x n.
Proof.
  intros Hn. unfold wrap32.
  destruct (Z.ltb_spec n 32); cbn [andb].
  - apply Z.mod_pow2_bits_low; lia.
  - apply Z.mod_pow2_bits_high; lia.
Qed.

Lemma testbit_psr_pil (p n : Z) :
  0 <= n -> Z.testbit (psr_pil p) n = (n <? 4) && Z.testbit p (n + 8).
Proof.
  intros Hn. unfold psr_pil.
  rewrite Z.shiftr_spec, Z.land_spec, testbit_PIL_MASK by lia.
  destruct (Z.leb_spec 8 (n + 8)), (Z.ltb_spec (n + 8) 12), (Z.ltb_spec n 4);
    try lia; cbn [andb]; auto using andb_true_r, andb_false_r.
Qed.

(** Rewriting a bitwise equation into its bits. *)
Ltac bits_spec :=
  repeat first
    [ rewrite Z.land_spec | rewrite Z.lor_spec | rewrite Z.lxor_spec
    | rewrite testbit_psr_pil by lia
    | rewrite testbit_wrap32 by lia
    | rewrite Z.shiftl_spec by lia
    | rewrite Z.shiftr_spec by lia
    | rewrite testbit_PIL_MASK by lia
    | rewrite testbit_CWP_MASK by lia
    | rewrite testbit_ET_MASK by lia
    | rewrite testbit_0xffffffff by lia
    | rewrite testbit_0x0f by lia
    | rewrite testbit_0x1f by lia ].

Ltac split_test :=
  match goal with
  | |- context [?x <=? ?y] => destruct (Z.leb_spec x y)
  | |- context [?x <? ?y] => destruct (Z.ltb_spec x y)
  | |- context [?x =? ?y] => destruct (Z.eqb_spec x y)
  end.

Ltac bits_cases :=
  repeat split_test;
  try lia;
  repeat match goal with
    | |- context [Z.testbit ?a ?i] => rewrite (Z.testbit_neg_r a i) by lia
    end;
  cbn [andb orb xorb negb];
  rewrite ?andb_true_r, ?andb_false_r, ?orb_true_r, ?orb_false_r,
          ?xorb_true_r, ?xorb_false_r;
  try reflexivity.

(** The PSR value the interrupt branch writes before the call. *)
Definition raised_psr (l0 l3 : Z) : Z :=
  Z.lor (Z.lor (Z.land l0 (Z.lxor SPARC_PSR_PIL_MASK 0xffffffff))
               (wrap32 (Z.shiftl (Z.land l3 0x0f) (Z.land 0x08 31))))
        SPARC_PSR_ET_MASK.

Lemma raised_psr_pil (l0 l3 : Z) : psr_pil (raised_psr l0 l3) = Z.land l3 0x0f.
Proof.
  unfold raised_psr. change (Z.land 0x08 31) with 8.
  apply Z.bits_inj'. intros n Hn. bits_spec.
  replace (n + 8 - 8) with n by lia.
  bits_cases.
Qed.

Lemma raised_psr_cwp_1 (l0 l3 : Z) :
  Z.land (Z.lor (Z.land l0 (Z.lxor SPARC_PSR_PIL_MASK 0xffffffff))
                (wrap32 (Z.shiftl (Z.land l3 0x0f) (Z.land 0x08 31))))
         SPARC_PSR_CWP_MASK
  = Z.land l0 SPARC_PSR_CWP_MASK.
Proof.
  change (Z.land 0x08 31) with 8.
  apply Z.bits_inj'. intros n Hn. bits_spec. bits_cases.
Qed.

Lemma raised_psr_cwp (l0 l3 : Z) :
  Z.land (raised_psr l0 l3) SPARC_PSR_CWP_MASK = Z.land l0 SPARC_PSR_CWP_MASK.
Proof.
  unfold raised_psr. change (Z.land 0x08 31) with 8.
  apply Z.bits_inj'. intros n Hn. bits_spec. bits_cases.
Qed.

Lemma raised_psr_et (l0 l3 : Z) : psr_et (raised_psr l0 l3) = true.
Proof.
  unfold psr_et, raised_psr. rewrite Z.lor_spec.
  change (Z.testbit SPARC_PSR_ET_MASK 5) with true. apply orb_true_r.
Qed.

Lemma enabled_psr_pil (l0 : Z) :
  psr_pil (Z.lor l0 SPARC_PSR_ET_MASK) = psr_pil l0.
Proof.
  apply Z.bits_inj'. intros n Hn. bits_spec. bits_cases.
Qed.

Lemma enabled_psr_cwp (l0 : Z) :
  Z.land (Z.lor l0 SPARC_PSR_ET_MASK) SPARC_PSR_CWP_MASK
  = Z.land l0 SPARC_PSR_CWP_MASK.
Proof.
  apply Z.bits_inj'. intros n Hn. bits_spec. bits_cases.
Qed.

Lemma enabled_psr_et (l0 : Z) : psr_et (Z.lor l0 SPARC_PSR_ET_MASK) = true.
Proof.
  unfold psr_et. rewrite Z.lor_spec.
  change (Z.testbit SPARC_PSR_ET_MASK 5) with true. apply orb_true_r.
Qed.

(** *** Unified resume addresses *)

(** C6: the entry code leaves in (%l1, %l2) the delivered pair for an
    interrupt (bit 5 of the index clear) and (nPC, nPC + 4) for a software
    trap (bit 5 set); so an interrupt delivered with (r, r + 4) and a
    software trap delivered with nPC = r resume at the same pair. *)
Theorem unified_resume_pair :
  (forall s : State,
      resume_pair (sparcTaskContextAwareTrapHandler NWINDOWS s) =
      if Z.testbit (get_reg NWINDOWS s (L 3)) 5
      then (get_reg NWINDOWS s (L 2), wrap32 (get_reg NWINDOWS s (L 2) + 4))
      else (get_reg NWINDOWS s (L 1), get_reg NWINDOWS s (L 2))) /\
  (forall (si ss : State) (r : Z),
      Z.testbit (get_reg NWINDOWS si (L 3)) 5 = false ->
      Z.testbit (get_reg NWINDOWS ss (L 3)) 5 = true ->
      get_reg NWINDOWS si (L 1) = r ->
      get_reg NWINDOWS si (L 2) = wrap32 (r + 4) ->
      get_reg NWINDOWS ss (L 2) = r ->
      resume_pair (sparcTaskContextAwareTrapHandler NWINDOWS si) =
      resume_pair (sparcTaskContextAwareTrapHandler NWINDOWS ss)).
Proof.
  split.
  - apply normalize_resume_pair.
  - intros si ss r Hi Hs H1 H2 H3.
    rewrite !normalize_resume_pair, Hi, Hs, H1, H2, H3. reflexivity.
Qed.

(** *** The call of the collaborator *)

Lemma nested_blocks_are_outermost_blocks :
  nested_set_interrupt_handler_caller_address NWINDOWS =
    outermost_set_interrupt_handler_caller_address NWINDOWS /\
  nested_set_task_context_replacement_handler_address NWINDOWS =
    outermost_set_task_context_replacement_handler_address NWINDOWS.
Proof. split; reflexivity. Qed.

Lemma selected_callee_bit (s : State) :
  selected_callee NWINDOWS s =
  if Z.testbit (get_reg NWINDOWS s (L 3)) 5
  then TaskContextReplacementHandlerCaller else InterruptHandlerCaller.
Proof.
  unfold selected_callee. rewrite andcc_zero_0x20.
  destruct (Z.testbit _ 5); reflexivity.
Qed.

(** What the collaborator sees: its argument, the trap-enable bit, the
    interrupt level and the window, for a state whose %l0 holds the PSR. *)
Definition call_state_ok (s s' : State) : Prop :=
  get_reg NWINDOWS s' (O 0) = Z.land (get_reg NWINDOWS s (L 3)) 0x1f /\
  psr_et (psr s') = true /\
  cwp s' = cwp s /\
  get_reg NWINDOWS s' (L 0) = get_reg NWINDOWS s (L 0) /\
  system_in_interrupt_context s' = system_in_interrupt_context s /\
  psr_pil (psr s') =
    if Z.testbit (get_reg NWINDOWS s (L 3)) 5
    then psr_pil (psr s)
    else Z.land (get_reg NWINDOWS s (L 3)) 0x0f.

Lemma interrupt_block_call_state (s : State) :
  get_reg NWINDOWS s (L 0) = psr s ->
  Z.testbit (get_reg NWINDOWS s (L 3)) 5 = false ->
  call_state_ok s (run (outermost_set_interrupt_handler_caller_address NWINDOWS) s).
Proof.
  intros H0 H3. unfold call_state_ok. rewrite H3.
  unfold outermost_set_interrupt_handler_caller_address.
  destruct s. mach_obs_in H0. mach_obs_in H3.
  mach_with ltac:(rewrite ?raised_psr_cwp_1, ?raised_psr_cwp, ?H0).
  fold (raised_psr psr0 (lregs0 (Z.land psr0 SPARC_PSR_CWP_MASK) 3%nat)).
  rewrite raised_psr_cwp, raised_psr_et, raised_psr_pil. mach_reads.
  repeat split; congruence.
Qed.

Lemma replacement_block_call_state (s : State) :
  get_reg NWINDOWS s (L 0) = psr s ->
  Z.testbit (get_reg NWINDOWS s (L 3)) 5 = true ->
  call_state_ok s
    (run (outermost_set_task_context_replacement_handler_address NWINDOWS) s).
Proof.
  intros H0 H3. unfold call_state_ok. rewrite H3.
  unfold outermost_set_task_context_replacement_handler_address.
  destruct s. mach_obs_in H0. mach_obs_in H3.
  mach_with ltac:(rewrite ?enabled_psr_cwp, ?H0).
  rewrite enabled_psr_et, enabled_psr_pil. mach_reads.
  repeat split; congruence.
Qed.

Lemma outermost_call_state (s : State) :
  get_reg NWINDOWS s (L 0) = psr s ->
  call_state_ok s
    (outermost_call NWINDOWS SPARC_STACK_BARE_MINIMUM_STACK_FRAME_RESERVATION_SIZE s).
Proof.
  intros H0. unfold outermost_call.
  set (s1 := run _ s).
  assert (E0 : get_reg NWINDOWS s1 (L 0) = psr s1)
    by (subst s1; destruct s; mach_obs_in H0; mach; exact H0).
  assert (E3 : get_reg NWINDOWS s1 (L 3) = get_reg NWINDOWS s (L 3))
    by (subst s1; destruct s; mach; reflexivity).
  assert (El : get_reg NWINDOWS s1 (L 0) = get_reg NWINDOWS s (L 0))
    by (subst s1; destruct s; mach; reflexivity).
  assert (Ep : psr s1 = psr s) by (subst s1; destruct s; mach; reflexivity).
  assert (Ef : system_in_interrupt_context s1 = system_in_interrupt_context s)
    by (subst s1; destruct s; mach; reflexivity).
  rewrite selected_callee_bit.
  assert (Hc : forall s', call_state_ok s1 s' -> call_state_ok s s').
  { unfold call_state_ok, cwp. rewrite E3, El, Ep, Ef. auto. }
  destruct (Z.testbit (get_reg NWINDOWS s1 (L 3)) 5) eqn:Hb; apply Hc.
  - now apply replacement_block_call_state.
  - now apply interrupt_block_call_state.
Qed.

Lemma nested_call_state (s : State) :
  get_reg NWINDOWS s (L 0) = psr s ->
  call_state_ok s
    (nested_call NWINDOWS SPARC_STACK_BARE_MINIMUM_STACK_FRAME_RESERVATION_SIZE s).
Proof.
  intros H0. unfold nested_call.
  destruct nested_blocks_are_outermost_blocks as [-> ->].
  set (s1 := run _ s).
  assert (E0 : get_reg NWINDOWS s1 (L 0) = psr s1)
    by (subst s1; destruct s; mach_obs_in H0; mach; exact H0).
  assert (E3 : get_reg NWINDOWS s1 (L 3) = get_reg NWINDOWS s (L 3))
    by (subst s1; destruct s; mach; reflexivity).
  assert (El : get_reg NWINDOWS s1 (L 0) = get_reg NWINDOWS s (L 0))
    by (subst s1; destruct s; mach; reflexivity).
  assert (Ep : psr s1 = psr s) by (subst s1; destruct s; mach; reflexivity).
  assert (Ef : system_in_interrupt_context s1 = system_in_interrupt_context s)
    by (subst s1; destruct s; mach; reflexivity).
  rewrite selected_callee_bit.
  assert (Hc : forall s', call_state_ok s1 s' -> call_state_ok s s').
  { unfold call_state_ok, cwp. rewrite E3, El, Ep, Ef. auto. }
  destruct (Z.testbit (get_reg NWINDOWS s1 (L 3)) 5) eqn:Hb; apply Hc.
  - now apply replacement_block_call_state.
  - now apply interrupt_block_call_state.
Qed.

Lemma land_0x0f_0x1f (x : Z) :
  Z.land x 0x1f <= 15 -> Z.land x 0x0f = Z.land x 0x1f.
Proof.
  change 0x1f with (Z.ones 5). intros H.
  change 0x0f with (Z.ones 4).
  rewrite !Z.land_ones in * by lia.
  change (2 ^ 5) with 32 in *. change (2 ^ 4) with 16.
  rewrite <- (Z.mod_mod_divide x 32 16) by (exists 2; reflexivity).
  apply Z.mod_small. pose proof (Z.mod_pos_bound x 32). lia.
Qed.

(** *** Addresses of a context record *)

Lemma wrap32_add_add (x d e : Z) :
  wrap32 (wrap32 (x + d) + e) = wrap32 (x + (d + e)).
Proof.
  unfold wrap32. rewrite Z.add_mod_idemp_l by lia. f_equal. lia.
Qed.

Lemma wrap32_add_neq (x d e : Z) :
  0 <= d < 2 ^ 32 -> 0 <= e < 2 ^ 32 -> d <> e ->
  wrap32 (x + d) <> wrap32 (x + e).
Proof.
  unfold wrap32. intros Hd He Hne Heq.
  assert (Hm : (d - e) mod 2 ^ 32 = 0).
  { replace (d - e) with ((x + d) - (x + e)) by lia.
    rewrite Zminus_mod, Heq, Z.sub_diag. reflexivity. }
  apply Z.mod_divide in Hm; [|lia]. destruct Hm as [q Hq]. nia.
Qed.

(** Byte offsets of the words a context save writes, and of the frozen
    flag, which follows them. *)
Definition saved_offsets : list Z :=
  [0; 4; 8; 12; 16; 20; 24; 28; 32; 36; 40; 44; 48; 52; 56; 60; 64; 68; 72].
Definition frozen_offset : Z := 76.

Definition context_words (base : Z) : list Z :=
  map (fun d => wrap32 (base + d)) saved_offsets.

(** All twenty words of a record: the saved ones and the frozen flag. *)
Definition record_words (base : Z) : list Z :=
  context_words base ++ [wrap32 (base + frozen_offset)].

Lemma frozen_flag_not_a_saved_word (base : Z) :
  ~ In (wrap32 (base + frozen_offset)) (context_words base).
Proof.
  unfold context_words, saved_offsets, frozen_offset. cbn [map In].
  intros H.
  repeat (destruct H as [H|H];
          [revert H; apply not_eq_sym, wrap32_add_neq; lia|]).
  exact H.
Qed.

(** Reads of the store through the writes made so far, the address read
    being known different from, or equal to, each address written. *)
Ltac is_literal d :=
  lazymatch d with
  | Z0 => idtac
  | Zpos _ => idtac
  | Zneg _ => idtac
  end.

Ltac addr_norm :=
  repeat match goal with
    | |- context [wrap32 (wrap32 (?x + ?d) + ?e)] =>
        is_literal d; is_literal e;
        rewrite (wrap32_add_add x d e);
        let v := eval vm_compute in (d + e) in
        change (d + e) with v
    end.

Ltac mem_reads :=
  repeat match goal with
    | |- context [upd ?f ?k ?v ?x] =>
        first [ rewrite (upd_same f k v)
              | rewrite (upd_other f k v x)
                  by first [ assumption
                           | apply not_eq_sym; assumption
                           | apply wrap32_add_neq; lia ] ]
    end.

Ltac split_not_in H :=
  cbn [context_words saved_offsets map In] in H;
  repeat (apply Decidable.not_or in H;
          let H1 := fresh "Hne" in destruct H as [H1 H]).

(** *** The context save of the outermost case *)

(** What [outermost_regular_context] archives, in record order. *)
Definition outermost_archive (s : State) : list Z :=
  [ get_reg NWINDOWS s (L 0);
    get_reg NWINDOWS s (G 1); get_reg NWINDOWS s (G 2); get_reg NWINDOWS s (G 3);
    get_reg NWINDOWS s (L 4); get_reg NWINDOWS s (L 5);
    get_reg NWINDOWS s (L 6); get_reg NWINDOWS s (L 7);
    get_reg NWINDOWS s (I 0); get_reg NWINDOWS s (I 1);
    get_reg NWINDOWS s (I 2); get_reg NWINDOWS s (I 3);
    get_reg NWINDOWS s (I 4); get_reg NWINDOWS s (I 5);
    get_reg NWINDOWS s (I 6); get_reg NWINDOWS s (I 7);
    yreg s;
    get_reg NWINDOWS s (L 1); get_reg NWINDOWS s (L 2) ].

Lemma outermost_regular_context_frame (s : State) (a : Z) :
  ~ In a (context_words (get_reg NWINDOWS s (G 4))) ->
  mem (run (outermost_regular_context NWINDOWS) s) a = mem s a.
Proof.
  intros H. unfold outermost_regular_context.
  destruct s. mach_obs_in H. split_not_in H.
  mach. addr_norm. mem_reads. reflexivity.
Qed.

Lemma outermost_regular_context_archive (s : State) :
  map (mem (run (outermost_regular_context NWINDOWS) s))
      (context_words (get_reg NWINDOWS s (G 4)))
  = outermost_archive s.
Proof.
  unfold outermost_regular_context, outermost_archive, context_words, saved_offsets.
  destruct s. mach. addr_norm. cbn [map]. mem_reads. reflexivity.
Qed.

Lemma outermost_regular_context_other (s : State) :
  let s' := run (outermost_regular_context NWINDOWS) s in
  active_thread_context_stack_pointer s' = active_thread_context_stack_pointer s /\
  system_in_interrupt_context s' = system_in_interrupt_context s /\
  psr s' = psr s /\ wim s' = wim s /\ yreg s' = yreg s /\
  gregs s' = gregs s /\ iregs s' = iregs s /\
  (forall n, n <> 5%nat -> get_reg NWINDOWS s' (L n) = get_reg NWINDOWS s (L n)).
Proof.
  unfold outermost_regular_context. destruct s. mach.
  repeat split; try reflexivity. intros. mach_obs.
  apply upd2_other. now apply Nat.eqb_neq.
Qed.

(** The record the outermost save writes: the active one, or the null
    task context when the active one is frozen. *)
Definition frozen_flag (s : State) : Z :=
  mem s (wrap32 (active_thread_context_stack_pointer s + frozen_offset)).

Definition outermost_save_destination (s : State) : Z :=
  if frozen_flag s =? 0 then active_thread_context_stack_pointer s
  else sparcNullTaskContextData.

Lemma outermost_save_context_unfold (s : State) :
  exists s1 : State,
    outermost_save_context NWINDOWS active_thread_context_stack_pointer_addr
      sparcNullTaskContextData s
    = run (outermost_regular_context NWINDOWS) s1 /\
    get_reg NWINDOWS s1 (G 4) = outermost_save_destination s /\
    active_thread_context_stack_pointer s1 = outermost_save_destination s /\
    mem s1 = mem s /\
    system_in_interrupt_context s1 = system_in_interrupt_context s /\
    psr s1 = psr s /\ wim s1 = wim s /\ yreg s1 = yreg s /\
    lregs s1 = lregs s /\ iregs s1 = iregs s /\
    (forall n, n <> 4%nat -> n <> 5%nat -> gregs s1 n = gregs s n).
Proof.
  unfold outermost_save_context, outermost_save_destination, frozen_flag,
    frozen_offset, tst_zero.
  set (s0 := run _ s).
  assert (E5 : get_reg NWINDOWS s0 (G 5)
               = mem s (wrap32 (active_thread_context_stack_pointer s + 76)))
    by (subst s0; destruct s; mach; reflexivity).
  rewrite E5.
  destruct (Z.eqb_spec (mem s (wrap32 (active_thread_context_stack_pointer s + 76))) 0).
  - exists s0. split; [reflexivity|].
    subst s0. destruct s. mach. repeat split; try reflexivity. intros.
    rewrite !updn_other by now apply Nat.eqb_neq. reflexivity.
  - rewrite run_app. eexists. split; [reflexivity|].
    subst s0. unfold outermost_null_task_context. destruct s. mach.
    repeat split; try reflexivity. intros.
    rewrite !updn_other by now apply Nat.eqb_neq. reflexivity.
Qed.

Lemma outermost_save_context_spec (s : State) :
  let s' := outermost_save_context NWINDOWS
              active_thread_context_stack_pointer_addr sparcNullTaskContextData s in
  (forall a, ~ In a (context_words (outermost_save_destination s)) ->
             mem s' a = mem s a) /\
  map (mem s') (context_words (outermost_save_destination s)) = outermost_archive s /\
  active_thread_context_stack_pointer s' = outermost_save_destination s /\
  system_in_interrupt_context s' = system_in_interrupt_context s /\
  psr s' = psr s /\ wim s' = wim s /\ iregs s' = iregs s /\
  (forall n, n <> 5%nat -> get_reg NWINDOWS s' (L n) = get_reg NWINDOWS s (L n)).
Proof.
  destruct (outermost_save_context_unfold s)
    as (s1 & -> & E4 & Ea & Em & Ef & Ep & Ew & Ey & El & Ei & Eg).
  cbv zeta.
  destruct (outermost_regular_context_other s1)
    as (Ra & Rf & Rp & Rw & Ry & Rg & Ri & Rl).
  repeat split.
  - intros a Ha. rewrite outermost_regular_context_frame by (rewrite E4; exact Ha).
    now rewrite Em.
  - rewrite <- E4, outermost_regular_context_archive.
    unfold outermost_archive, get_reg, cwp. rewrite Ep, El, Ei, Ey.
    cbn [Nat.eqb]. rewrite !Eg by discriminate. reflexivity.
  - congruence.
  - congruence.
  - congruence.
  - congruence.
  - congruence.
  - intros n Hn. rewrite Rl by exact Hn. unfold get_reg, cwp. now rewrite Ep, El.
Qed.

(** C1: when the active context is frozen at the outermost save, and the
    null task context does not overlap the frozen record, the save leaves
    every word of the frozen record as it was, writes the archive at offsets
    0 to 72 of the null task context and nowhere else, and makes the active
    context pointer the address of the null task context. *)
Theorem frozen_context_redirect (s : State) :
  frozen_flag s <> 0 ->
  (forall a, In a (record_words (active_thread_context_stack_pointer s)) ->
             ~ In a (context_words sparcNullTaskContextData)) ->
  let s' := outermost_save_context NWINDOWS
              active_thread_context_stack_pointer_addr sparcNullTaskContextData s in
  (forall a, In a (record_words (active_thread_context_stack_pointer s)) ->
             mem s' a = mem s a) /\
  (forall a, ~ In a (context_words sparcNullTaskContextData) -> mem s' a = mem s a) /\
  map (mem s') (context_words sparcNullTaskContextData) = outermost_archive s /\
  active_thread_context_stack_pointer s' = sparcNullTaskContextData.
Proof.
  intros Hfrozen Hapart.
  destruct (outermost_save_context_spec s) as (Hframe & Harch & Hact & _).
  assert (Hd : outermost_save_destination s = sparcNullTaskContextData).
  { unfold outermost_save_destination.
    destruct (Z.eqb_spec (frozen_flag s) 0); [contradiction|reflexivity]. }
  rewrite Hd in *. cbv zeta. repeat split; auto.
Qed.

(** *** The context save of the nested case *)

Definition nested_save_destination (s : State) : Z :=
  wrap32 (get_reg NWINDOWS s fp - SPARC_STACK_BASE_CONTEXT_RESERVATION_SIZE).

Definition nested_archive (s : State) : list Z :=
  [ get_reg NWINDOWS s (L 0);
    get_reg NWINDOWS s (G 1); get_reg NWINDOWS s (G 2); get_reg NWINDOWS s (G 3);
    get_reg NWINDOWS s (G 4); get_reg NWINDOWS s (G 5);
    get_reg NWINDOWS s (G 6); get_reg NWINDOWS s (G 7);
    get_reg NWINDOWS s (I 0); get_reg NWINDOWS s (I 1);
    get_reg NWINDOWS s (I 2); get_reg NWINDOWS s (I 3);
    get_reg NWINDOWS s (I 4); get_reg NWINDOWS s (I 5);
    get_reg NWINDOWS s (I 6); get_reg NWINDOWS s (I 7);
    yreg s;
    get_reg NWINDOWS s (L 1); get_reg NWINDOWS s (L 2) ].

Lemma nested_no_window_overflow_frame (s : State) (a : Z) :
  ~ In a (context_words (nested_save_destination s)) ->
  mem (run (nested_no_window_overflow NWINDOWS
              SPARC_STACK_BASE_CONTEXT_RESERVATION_SIZE) s) a = mem s a.
Proof.
  intros H. unfold nested_no_window_overflow, nested_save_destination in *.
  destruct s. mach_obs_in H. split_not_in H.
  mach. addr_norm. mem_reads. reflexivity.
Qed.

(** The window below a valid window is another window as soon as there are
    two of them. *)
Lemma win_below_neq (w : Z) :
  2 <= NWINDOWS -> 0 <= w < NWINDOWS -> win_below NWINDOWS w <> w.
Proof.
  intros HN Hw. unfold win_below.
  destruct (Z.eq_dec w 0) as [->|Hz].
  - replace (0 - 1) with (-1 + 1 * NWINDOWS - NWINDOWS + 0) by lia.
    replace (-1 + 1 * NWINDOWS - NWINDOWS + 0) with ((NWINDOWS - 1) + (-1) * NWINDOWS) by lia.
    rewrite Z.mod_add by lia. rewrite Z.mod_small by lia. lia.
  - rewrite Z.mod_small by lia. lia.
Qed.

Lemma win_above_neq (w : Z) :
  2 <= NWINDOWS -> 0 <= w < NWINDOWS -> win_above NWINDOWS w <> w.
Proof.
  intros HN Hw. unfold win_above.
  destruct (Z.eq_dec w (NWINDOWS - 1)) as [->|Hz].
  - replace (NWINDOWS - 1 + 1) with NWINDOWS by lia.
    rewrite Z.mod_same by lia. lia.
  - rewrite Z.mod_small by lia. lia.
Qed.

Lemma nested_no_window_overflow_archive (s : State) :
  2 <= NWINDOWS -> 0 <= cwp s < NWINDOWS ->
  map (mem (run (nested_no_window_overflow NWINDOWS
                   SPARC_STACK_BASE_CONTEXT_RESERVATION_SIZE) s))
      (context_words (nested_save_destination s))
  = nested_archive s.
Proof.
  intros HN Hw.
  pose proof (win_below_neq (cwp s) HN Hw) as Hb.
  unfold nested_no_window_overflow, nested_archive, nested_save_destination,
    context_words, saved_offsets.
  destruct s. mach_obs_in Hb.
  mach_with ltac:(rewrite ?(upd2_window _ _ _ _ _ _ (not_eq_sym Hb))).
  addr_norm. cbn [map]. mem_reads. reflexivity.
Qed.

Lemma nested_no_window_overflow_other (s : State) :
  2 <= NWINDOWS -> 0 <= cwp s < NWINDOWS ->
  let s' := run (nested_no_window_overflow NWINDOWS
                   SPARC_STACK_BASE_CONTEXT_RESERVATION_SIZE) s in
  get_reg NWINDOWS s' sp = nested_save_destination s /\
  active_thread_context_stack_pointer s' = active_thread_context_stack_pointer s /\
  system_in_interrupt_context s' = system_in_interrupt_context s /\
  psr s' = psr s /\ wim s' = wim s /\ yreg s' = yreg s /\ gregs s' = gregs s /\
  (forall n, n <> 5%nat -> get_reg NWINDOWS s' (L n) = get_reg NWINDOWS s (L n)) /\
  (forall n, get_reg NWINDOWS s' (I n) = get_reg NWINDOWS s (I n)).
Proof.
  intros HN Hw.
  pose proof (win_below_neq (cwp s) HN Hw) as Hb.
  unfold nested_no_window_overflow, nested_save_destination.
  destruct s. mach_obs_in Hb. mach.
  repeat split; try reflexivity; intros; mach_obs.
  - apply upd2_other. now apply Nat.eqb_neq.
  - apply upd2_window. now apply not_eq_sym.
Qed.

(** *** The context restores *)

(** Everything a restore recovers besides the status register, in record
    order: %g1 to %g7, %i0 to %i7, Y, and the resume pair. *)
Definition restored_fields (s : State) : list Z :=
  [ get_reg NWINDOWS s (G 1); get_reg NWINDOWS s (G 2); get_reg NWINDOWS s (G 3);
    get_reg NWINDOWS s (G 4); get_reg NWINDOWS s (G 5);
    get_reg NWINDOWS s (G 6); get_reg NWINDOWS s (G 7);
    get_reg NWINDOWS s (I 0); get_reg NWINDOWS s (I 1);
    get_reg NWINDOWS s (I 2); get_reg NWINDOWS s (I 3);
    get_reg NWINDOWS s (I 4); get_reg NWINDOWS s (I 5);
    get_reg NWINDOWS s (I 6); get_reg NWINDOWS s (I 7);
    yreg s;
    get_reg NWINDOWS s (L 1); get_reg NWINDOWS s (L 2) ].

(** The state has a valid window pointer, and %l0 designates that window
    too, as it does when it holds the trap-entry PSR. *)
Definition window_ok (s : State) : Prop :=
  2 <= NWINDOWS /\ 0 <= cwp s < NWINDOWS /\
  Z.land (get_reg NWINDOWS s (L 0)) SPARC_PSR_CWP_MASK = cwp s.

(** The status value the outermost restore builds. *)
Definition filtered_psr (current archived : Z) : Z :=
  Z.lor (Z.land current SPARC_NON_RESTORABLE_BITS_IN_PSR)
        (Z.land archived (Z.lxor SPARC_NON_RESTORABLE_BITS_IN_PSR 0xffffffff)).

Lemma filtered_psr_bits (current archived i : Z) :
  0 <= i < 32 ->
  Z.testbit (filtered_psr current archived) i =
  if Z.testbit SPARC_NON_RESTORABLE_BITS_IN_PSR i
  then Z.testbit current i else Z.testbit archived i.
Proof.
  intros Hi. unfold filtered_psr.
  rewrite Z.lor_spec, !Z.land_spec, Z.lxor_spec, testbit_0xffffffff by lia.
  destruct (Z.ltb_spec i 32); [|lia].
  destruct (Z.testbit SPARC_NON_RESTORABLE_BITS_IN_PSR i),
    (Z.testbit current i), (Z.testbit archived i); reflexivity.
Qed.

Definition outermost_restore (s : State) : State :=
  run (outermost_disable_traps NWINDOWS
         SPARC_STACK_BARE_MINIMUM_STACK_FRAME_RESERVATION_SIZE
         system_in_interrupt_context_addr ++
       outermost_restore_context NWINDOWS SPARC_NON_RESTORABLE_BITS_IN_PSR
         active_thread_context_stack_pointer_addr) s.

Definition nested_restore (s : State) : State :=
  run (nested_disable_traps NWINDOWS
         SPARC_STACK_BARE_MINIMUM_STACK_FRAME_RESERVATION_SIZE ++
       nested_restore_context NWINDOWS) s.

Lemma outermost_restore_spec (s : State) :
  window_ok s ->
  let ctx := active_thread_context_stack_pointer s in
  let s' := outermost_restore s in
  psr s' = get_reg NWINDOWS s (L 0) /\
  get_reg NWINDOWS s' (L 0) = filtered_psr (psr s') (mem s (wrap32 (ctx + 0))) /\
  restored_fields s' = map (mem s) (tl (context_words ctx)) /\
  system_in_interrupt_context s' = 0 /\
  mem s' = mem s /\ wim s' = wim s /\
  active_thread_context_stack_pointer s' = ctx /\
  detected_sparc_register_windows s' = detected_sparc_register_windows s.
Proof.
  intros (HN & Hw & H0).
  pose proof (win_below_neq (cwp s) HN Hw) as Hb.
  unfold outermost_restore, outermost_disable_traps, outermost_restore_context,
    restored_fields, context_words, saved_offsets, filtered_psr.
  cbn [app]. destruct s. mach_obs_in H0. mach_obs_in Hb.
  mach_with ltac:(rewrite ?H0, ?(upd2_window _ _ _ _ _ _ Hb)).
  addr_norm. repeat split; reflexivity.
Qed.

Lemma nested_restore_spec (s : State) :
  window_ok s ->
  let rec := wrap32 (get_reg NWINDOWS s sp +
                     SPARC_STACK_BARE_MINIMUM_STACK_FRAME_RESERVATION_SIZE) in
  let s' := nested_restore s in
  psr s' = get_reg NWINDOWS s (L 0) /\
  get_reg NWINDOWS s' (L 0) = mem s (wrap32 (rec + 0)) /\
  restored_fields s' = map (mem s) (tl (context_words rec)) /\
  system_in_interrupt_context s' = system_in_interrupt_context s /\
  mem s' = mem s /\ wim s' = wim s /\
  active_thread_context_stack_pointer s' = active_thread_context_stack_pointer s /\
  detected_sparc_register_windows s' = detected_sparc_register_windows s.
Proof.
  intros (HN & Hw & H0).
  pose proof (win_below_neq (cwp s) HN Hw) as Hb.
  unfold nested_restore, nested_disable_traps, nested_restore_context,
    restored_fields, context_words, saved_offsets.
  cbn [app]. destruct s. mach_obs_in H0. mach_obs_in Hb.
  mach_with ltac:(rewrite ?H0, ?(upd2_window _ _ _ _ _ _ Hb)).
  addr_norm. repeat split; reflexivity.
Qed.

Lemma map_tl_context_words (f g : Z -> Z) (base : Z) :
  (forall a, In a (context_words base) -> f a = g a) ->
  f (wrap32 (base + 0)) = g (wrap32 (base + 0)) /\
  map f (tl (context_words base)) = tl (map g (context_words base)).
Proof.
  intros H. split.
  - apply H. left. reflexivity.
  - revert H. generalize (context_words base). intros [|a l] H; [reflexivity|].
    cbn [map tl]. apply map_ext_in. intros x Hx. apply H. now right.
Qed.

Lemma wrap32_idem (x : Z) : wrap32 (wrap32 x) = wrap32 x.
Proof. unfold wrap32. apply Z.mod_mod. lia. Qed.

Lemma wrap32_sub_add (x b : Z) : wrap32 (wrap32 (wrap32 x - b) + b) = wrap32 x.
Proof.
  unfold wrap32. rewrite Z.add_mod_idemp_l by lia.
  replace (x mod 2 ^ 32 - b + b) with (x mod 2 ^ 32) by lia.
  apply Z.mod_mod. lia.
Qed.

(** *** Window arithmetic *)

Lemma win_below_range (w : Z) :
  0 < NWINDOWS -> 0 <= win_below NWINDOWS w < NWINDOWS.
Proof. intros H. unfold win_below. apply Z.mod_pos_bound. exact H. Qed.

Lemma win_above_range (w : Z) :
  0 < NWINDOWS -> 0 <= win_above NWINDOWS w < NWINDOWS.
Proof. intros H. unfold win_above. apply Z.mod_pos_bound. exact H. Qed.

Lemma win_below_cases (w : Z) :
  0 < NWINDOWS -> 0 <= w < NWINDOWS ->
  win_below NWINDOWS w = if w =? 0 then NWINDOWS - 1 else w - 1.
Proof.
  intros HN Hw. unfold win_below.
  destruct (Z.eqb_spec w 0) as [->|Hz].
  - replace (0 - 1) with ((NWINDOWS - 1) + (-1) * NWINDOWS) by lia.
    rewrite Z.mod_add by lia. apply Z.mod_small. lia.
  - apply Z.mod_small. lia.
Qed.

Lemma win_above_cases (w : Z) :
  0 < NWINDOWS -> 0 <= w < NWINDOWS ->
  win_above NWINDOWS w = if w =? NWINDOWS - 1 then 0 else w + 1.
Proof.
  intros HN Hw. unfold win_above.
  destruct (Z.eqb_spec w (NWINDOWS - 1)) as [->|Hz].
  - replace (NWINDOWS - 1 + 1) with NWINDOWS by lia. apply Z.mod_same. lia.
  - apply Z.mod_small. lia.
Qed.

Lemma win_above_below (w : Z) :
  0 < NWINDOWS -> 0 <= w < NWINDOWS ->
  win_above NWINDOWS (win_below NWINDOWS w) = w.
Proof.
  intros HN Hw.
  rewrite win_above_cases by (try apply win_below_range; lia).
  rewrite win_below_cases by lia.
  destruct (Z.eqb_spec w 0);
    match goal with |- context [Z.eqb ?a ?b] => destruct (Z.eqb_spec a b) end;
    lia.
Qed.

Lemma win_below_above (w : Z) :
  0 < NWINDOWS -> 0 <= w < NWINDOWS ->
  win_below NWINDOWS (win_above NWINDOWS w) = w.
Proof.
  intros HN Hw.
  rewrite win_below_cases by (try apply win_above_range; lia).
  rewrite win_above_cases by lia.
  destruct (Z.eqb_spec w (NWINDOWS - 1));
    match goal with |- context [Z.eqb ?a ?b] => destruct (Z.eqb_spec a b) end;
    lia.
Qed.

(** The window pointer after SAVE or RESTORE has put [w] in it. *)
Definition moved_psr (p w : Z) : Z :=
  Z.lor (Z.land p (Z.lxor SPARC_PSR_CWP_MASK 0xffffffff)) w.

Lemma testbit_small (w n : Z) : 0 <= w < 32 -> 5 <= n -> Z.testbit w n = false.
Proof.
  intros Hw Hn. destruct (Z.eq_dec w 0) as [->|Hz]; [apply Z.bits_0|].
  apply Z.bits_above_log2; [lia|].
  assert (Z.log2 w < 5) by (apply Z.log2_lt_pow2; lia). lia.
Qed.

Lemma moved_psr_cwp (p w : Z) :
  0 <= w < 32 -> Z.land (moved_psr p w) SPARC_PSR_CWP_MASK = w.
Proof.
  intros Hw. unfold moved_psr. apply Z.bits_inj'. intros n Hn. bits_spec.
  destruct (Z.ltb_spec n 5).
  - bits_cases.
  - rewrite (testbit_small w n) by lia. bits_cases.
Qed.

Lemma moved_psr_back (p w : Z) :
  0 <= p < 2 ^ 32 -> 0 <= w < 32 ->
  moved_psr (moved_psr p w) (Z.land p SPARC_PSR_CWP_MASK) = p.
Proof.
  intros Hp Hw. unfold moved_psr. apply Z.bits_inj'. intros n Hn. bits_spec.
  destruct (Z.ltb_spec n 5).
  - bits_cases; destruct (Z.testbit p n); reflexivity.
  - rewrite (testbit_small w n) by lia.
    destruct (Z.ltb_spec n 32).
    + bits_cases.
    + assert (Z.testbit p n = false).
      { destruct (Z.eq_dec p 0) as [->|Hz]; [apply Z.bits_0|].
        apply Z.bits_above_log2; [lia|].
        assert (Z.log2 p < 32) by (apply Z.log2_lt_pow2; lia). lia. }
      bits_cases. congruence.
Qed.

(** WIM with the single bit of window [c], rotated one place to the right
    the way [nested_window_overflow] does it, is the single bit of the
    window below [c]. *)
Lemma rotated_right_wim (c : Z) :
  2 <= NWINDOWS <= 32 -> 0 <= c < NWINDOWS ->
  wim_bits NWINDOWS
    (Z.lor (Z.shiftr (2 ^ c) (Z.land 0x1 31))
           (wrap32 (Z.shiftl (2 ^ c) (Z.land (wrap32 (NWINDOWS - 1)) 31))))
  = 2 ^ win_below NWINDOWS c.
Proof.
  intros HN Hc. unfold wim_bits.
  assert (E1 : wrap32 (NWINDOWS - 1) = NWINDOWS - 1)
    by (unfold wrap32; apply Z.mod_small; lia).
  assert (E2 : Z.land (NWINDOWS - 1) 31 = NWINDOWS - 1).
  { change 31 with (Z.ones 5). rewrite Z.land_ones by lia.
    apply Z.mod_small. change (2 ^ 5) with 32. lia. }
  rewrite E1, E2. change (Z.land 0x1 31) with 1.
  rewrite win_below_cases by lia.
  apply Z.bits_inj'. intros n Hn.
  rewrite Z.land_spec, Z.lor_spec, testbit_wrap32, Z.shiftr_spec,
    Z.shiftl_spec, Z.testbit_ones_nonneg by lia.
  destruct (Z.eqb_spec c 0) as [->|Hz].
  - rewrite !Z.pow2_bits_eqb by lia.
    destruct (Z.ltb_spec n 32), (Z.ltb_spec n NWINDOWS);
      destruct (Z.eqb_spec 0 (n + 1)), (Z.eqb_spec 0 (n - (NWINDOWS - 1))),
        (Z.eqb_spec (NWINDOWS - 1) n); cbn [andb orb]; try reflexivity; lia.
  - rewrite (Z.pow2_bits_eqb c (n + 1)), (Z.pow2_bits_eqb (c - 1) n) by lia.
    destruct (Z.ltb_spec n NWINDOWS).
    + assert (Hs : Z.testbit (2 ^ c) (n - (NWINDOWS - 1)) = false).
      { destruct (Z.ltb_spec (n - (NWINDOWS - 1)) 0).
        - apply Z.testbit_neg_r. lia.
        - rewrite Z.pow2_bits_eqb by lia. apply Z.eqb_neq. lia. }
      rewrite Hs, andb_false_r, orb_false_r, andb_true_r.
      destruct (Z.eqb_spec c (n + 1)), (Z.eqb_spec (c - 1) n); try reflexivity; lia.
    + rewrite andb_false_r. symmetry. apply Z.eqb_neq. lia.
Qed.

Lemma wim_bits_range (x : Z) :
  0 <= NWINDOWS <= 32 -> 0 <= wim_bits NWINDOWS x < 2 ^ 32.
Proof.
  intros HN. unfold wim_bits. rewrite Z.land_ones by lia.
  pose proof (Z.mod_pos_bound x (2 ^ NWINDOWS) ltac:(apply Z.pow_pos_nonneg; lia)).
  assert (2 ^ NWINDOWS <= 2 ^ 32) by (apply Z.pow_le_mono_r; lia). lia.
Qed.

Lemma window_bit (c : Z) :
  0 <= c < 32 -> wrap32 (Z.shiftl 0x1 (Z.land c 31)) = 2 ^ c.
Proof.
  intros Hc.
  assert (E : Z.land c 31 = c).
  { change 31 with (Z.ones 5). rewrite Z.land_ones by lia.
    apply Z.mod_small. change (2 ^ 5) with 32. lia. }
  rewrite E, Z.shiftl_1_l. unfold wrap32. apply Z.mod_small.
  split; [apply Z.pow_nonneg; lia|apply Z.pow_lt_mono_r; lia].
Qed.

Lemma subcc_zero_eqb (a b : Z) :
  0 <= a < 2 ^ 32 -> 0 <= b < 2 ^ 32 -> subcc_zero a b = (a =? b).
Proof.
  intros Ha Hb. unfold subcc_zero, wrap32.
  destruct (Z.eqb_spec a b) as [->|Hne].
  - rewrite Z.sub_diag. reflexivity.
  - apply Z.eqb_neq. intros H. apply Z.mod_divide in H; [|lia].
    destruct H as [q Hq]. nia.
Qed.

(** *** Freeing a window at nested entry *)

(** The sixteen words of a window's save area at stack pointer [base]. *)
Definition window_offsets : list Z :=
  [0; 4; 8; 12; 16; 20; 24; 28; 32; 36; 40; 44; 48; 52; 56; 60].
Definition window_words (base : Z) : list Z :=
  map (fun d => wrap32 (base + d)) window_offsets.

Definition window_contents (s : State) (w : Z) : list Z :=
  map (lregs s w) [0; 1; 2; 3; 4; 5; 6; 7]%nat ++
  map (iregs s w) [0; 1; 2; 3; 4; 5; 6; 7]%nat.

Lemma nested_trap_handler_test (s : State) :
  2 <= NWINDOWS <= 32 -> window_ok s ->
  let s1 := run (nested_trap_handler NWINDOWS detected_sparc_register_windows_addr) s in
  subcc_zero (get_reg NWINDOWS s1 (L 5)) (get_reg NWINDOWS s1 (L 6))
  = (wim_bits NWINDOWS (wim s) =? 2 ^ cwp s).
Proof.
  intros HN (_ & Hw & H0). unfold nested_trap_handler.
  destruct s. mach_obs_in H0. mach_obs_in Hw. mach.
  rewrite H0. rewrite window_bit by lia.
  apply subcc_zero_eqb.
  - apply wim_bits_range. lia.
  - split; [apply Z.pow_nonneg; lia|apply Z.pow_lt_mono_r; lia].
Qed.

Lemma wim_bits_idem (x : Z) :
  wim_bits NWINDOWS (wim_bits NWINDOWS x) = wim_bits NWINDOWS x.
Proof.
  unfold wim_bits. rewrite <- Z.land_assoc, Z.land_diag. reflexivity.
Qed.

Lemma wim_bits_window (w : Z) :
  0 <= w < NWINDOWS -> wim_bits NWINDOWS (2 ^ w) = 2 ^ w.
Proof.
  intros Hw. unfold wim_bits. rewrite Z.land_ones by lia.
  apply Z.mod_small. split; [apply Z.pow_nonneg; lia|apply Z.pow_lt_mono_r; lia].
Qed.

(** What one trap instance may change besides the store and WIM when it
    frees a window: the scratch locals %l4 to %l7 of the trap window.  The
    [psr] component stands for the PSR outside the condition codes here:
    the step sets them with the [subcc] of its test. *)
Definition free_one_window_frame (s s' : State) : Prop :=
  psr s' = psr s /\ iregs s' = iregs s /\ yreg s' = yreg s /\
  (forall n, gregs s' n = gregs s n) /\
  (forall v n, v <> cwp s -> lregs s' v n = lregs s v n) /\
  (forall n, (n < 4)%nat -> lregs s' (cwp s) n = lregs s (cwp s) n) /\
  system_in_interrupt_context s' = system_in_interrupt_context s /\
  active_thread_context_stack_pointer s' = active_thread_context_stack_pointer s /\
  detected_sparc_register_windows s' = detected_sparc_register_windows s.

Ltac small_index :=
  match goal with
  | H : (?n < 4)%nat |- _ =>
      destruct n as [|[|[|[|n]]]]; [| | | |exfalso; lia]
  end.

Lemma nested_free_one_window_spill (s : State) :
  2 <= NWINDOWS <= 32 -> window_ok s -> 0 <= psr s < 2 ^ 32 ->
  detected_sparc_register_windows s = NWINDOWS ->
  wim_bits NWINDOWS (wim s) = 2 ^ cwp s ->
  let w1 := win_below NWINDOWS (cwp s) in
  let base := iregs s (win_below NWINDOWS w1) 6%nat in
  exists s' : State,
    nested_free_one_window NWINDOWS detected_sparc_register_windows_addr s = Ok s' /\
    wim s' = 2 ^ w1 /\
    map (mem s') (window_words base) = window_contents s w1 /\
    (forall a, ~ In a (window_words base) -> mem s' a = mem s a) /\
    free_one_window_frame s s'.
Proof.
  intros HN Hok Hp Hd Hwim.
  unfold nested_free_one_window. cbv zeta.
  rewrite nested_trap_handler_test by assumption.
  rewrite Hwim, Z.eqb_refl.
  destruct Hok as (_ & Hw & H0).
  pose proof (win_below_neq (cwp s) ltac:(lia) Hw) as Hb.
  pose proof (win_below_range (cwp s) ltac:(lia)) as Hbr.
  pose proof (win_above_below (cwp s) ltac:(lia) Hw) as Hab.
  assert (Hb32 : 0 <= win_below NWINDOWS (cwp s) < 32) by lia.
  assert (Hw32 : 0 <= cwp s < 32) by lia.
  unfold nested_trap_handler, nested_window_overflow, free_one_window_frame,
    window_contents, window_words, window_offsets.
  destruct s. mach_obs_in H0. mach_obs_in Hw. mach_obs_in Hb. mach_obs_in Hbr.
  mach_obs_in Hd. mach_obs_in Hwim. mach_obs_in Hp. mach_obs_in Hab.
  mach_obs_in Hb32. mach_obs_in Hw32. subst.
  mach. rewrite H0, window_bit by lia.
  unfold save_. cbv zeta. mach_obs.
  rewrite Hwim, Z.pow2_bits_eqb by lia.
  rewrite (proj2 (Z.eqb_neq _ _) (not_eq_sym Hb)).
  cbv beta iota delta [bind].
  fold (moved_psr psr0 (win_below NWINDOWS (Z.land psr0 SPARC_PSR_CWP_MASK))).
  unfold store_window. cbn [app].
  mach_with ltac:(rewrite ?(moved_psr_cwp _ _ Hb32)).
  rewrite rotated_right_wim by lia.
  unfold restore_. cbv zeta. mach_obs.
  rewrite ?(moved_psr_cwp _ _ Hb32), Hab.
  rewrite wim_bits_window, Z.pow2_bits_eqb by lia.
  rewrite (proj2 (Z.eqb_neq _ _) Hb).
  cbv beta iota delta [bind].
  fold (moved_psr (moved_psr psr0 (win_below NWINDOWS (Z.land psr0 SPARC_PSR_CWP_MASK)))
                  (Z.land psr0 SPARC_PSR_CWP_MASK)).
  rewrite moved_psr_back by lia.
  mach.
  eexists. split; [reflexivity|].
  mach_obs. rewrite ?(upd2_window _ _ _ _ _ _ Hb).
  addr_norm. cbn [map app].
  repeat split; try reflexivity.
  - mem_reads. reflexivity.
  - intros a Ha. cbn [map In] in Ha.
    repeat (apply Decidable.not_or in Ha;
            let H1 := fresh "Hne" in destruct Ha as [H1 Ha]).
    mem_reads. reflexivity.
  - intros n. unfold updn.
    destruct (Nat.eqb n 5) eqn:E; [apply Nat.eqb_eq in E; subst|]; reflexivity.
  - intros v n Hv. rewrite !upd2_window by exact Hv. reflexivity.
  - intros n Hn. small_index; mach_reads; reflexivity.
Qed.

Lemma nested_free_one_window_no_spill (s : State) :
  2 <= NWINDOWS <= 32 -> window_ok s ->
  wim_bits NWINDOWS (wim s) <> 2 ^ cwp s ->
  exists s' : State,
    nested_free_one_window NWINDOWS detected_sparc_register_windows_addr s = Ok s' /\
    wim s' = wim s /\ mem s' = mem s /\ free_one_window_frame s s'.
Proof.
  intros HN Hok Hwim.
  unfold nested_free_one_window. cbv zeta.
  rewrite nested_trap_handler_test by assumption.
  rewrite (proj2 (Z.eqb_neq _ _) Hwim).
  eexists. split; [reflexivity|].
  unfold nested_trap_handler, free_one_window_frame.
  destruct s. mach.
  repeat split; try reflexivity.
  - intros v n Hv. mach_obs_in Hv. rewrite !upd2_window by exact Hv. reflexivity.
  - intros n Hn. small_index; mach_reads; reflexivity.
Qed.

(** The two cases of the test together, in the form the entry sequence
    uses: the step always succeeds and touches only the scratch locals, WIM
    and, when it spills, the save area of the window below. *)
Lemma nested_free_one_window_cases (s : State) :
  2 <= NWINDOWS <= 32 -> window_ok s -> 0 <= psr s < 2 ^ 32 ->
  detected_sparc_register_windows s = NWINDOWS ->
  exists s' : State,
    nested_free_one_window NWINDOWS detected_sparc_register_windows_addr s = Ok s' /\
    free_one_window_frame s s' /\
    (forall a,
        ~ In a (window_words
                  (iregs s (win_below NWINDOWS (win_below NWINDOWS (cwp s))) 6%nat)) ->
        mem s' a = mem s a).
Proof.
  intros HN Hok Hp Hd.
  destruct (Z.eq_dec (wim_bits NWINDOWS (wim s)) (2 ^ cwp s)) as [Hwim|Hwim].
  - destruct (nested_free_one_window_spill s HN Hok Hp Hd Hwim)
      as (s' & Hrun & Hw' & Hc & Hf & Hs).
    exists s'. auto.
  - destruct (nested_free_one_window_no_spill s HN Hok Hwim)
      as (s' & Hrun & Hw' & Hm & Hs).
    exists s'. split; [exact Hrun|]. split; [exact Hs|].
    intros a _. rewrite Hm. reflexivity.
Qed.

(** The same for the processor: of the PSR, everything outside the
    condition codes is kept, the window pointer in particular. *)
Definition scratch_locals_only (s s' : State) : Prop :=
  psr_but_icc (psr s') = psr_but_icc (psr s) /\ cwp s' = cwp s /\
  iregs s' = iregs s /\ yreg s' = yreg s /\
  (forall n, gregs s' n = gregs s n) /\
  (forall v n, v <> cwp s -> lregs s' v n = lregs s v n) /\
  (forall n, (n < 4)%nat -> lregs s' (cwp s) n = lregs s (cwp s) n) /\
  system_in_interrupt_context s' = system_in_interrupt_context s /\
  active_thread_context_stack_pointer s' = active_thread_context_stack_pointer s /\
  detected_sparc_register_windows s' = detected_sparc_register_windows s.

Lemma free_one_window_frame_scratch (s s' : State) :
  free_one_window_frame s s' -> scratch_locals_only s s'.
Proof.
  intros (Hp & Hrest). unfold scratch_locals_only, cwp.
  rewrite Hp. split; [reflexivity|]. split; [reflexivity|]. exact Hrest.
Qed.

(** C4, as the code has it: at nested entry a window is spilled exactly
    when WIM is the bit of the trap window itself (not of the window above
    it).  Then the sixteen words of the window below the trap window go to
    that window's stack pointer, taken to be double-word aligned, nothing
    else in the store changes, and WIM becomes the single bit of that
    window below, one place to the right.  Otherwise neither the store nor
    WIM changes.  In both cases the step runs to its end, and it changes no
    register but the scratch locals %l4 to %l7 of the trap window and the
    condition codes. *)
Theorem nested_entry_frees_one_window (s : State) :
  2 <= NWINDOWS <= 32 -> window_ok s -> 0 <= psr s < 2 ^ 32 ->
  detected_sparc_register_windows s = NWINDOWS ->
  let w1 := win_below NWINDOWS (cwp s) in
  let base := iregs s (win_below NWINDOWS w1) 6%nat in
  (wim_bits NWINDOWS (wim s) = 2 ^ cwp s -> base mod 8 = 0) ->
  exists s' : State,
    nested_free_one_window NWINDOWS detected_sparc_register_windows_addr s = Ok s' /\
    scratch_locals_only s s' /\
    (wim_bits NWINDOWS (wim s) = 2 ^ cwp s ->
       wim s' = 2 ^ w1 /\
       map (mem s') (window_words base) = window_contents s w1 /\
       (forall a, ~ In a (window_words base) -> mem s' a = mem s a)) /\
    (wim_bits NWINDOWS (wim s) <> 2 ^ cwp s ->
       wim s' = wim s /\ mem s' = mem s).
Proof.
  intros HN Hok Hp Hd. cbv zeta. intros _.
  destruct (Z.eq_dec (wim_bits NWINDOWS (wim s)) (2 ^ cwp s)) as [Hwim|Hwim].
  - destruct (nested_free_one_window_spill s HN Hok Hp Hd Hwim)
      as (s' & Hrun & Hw' & Hc & Hf & Hs).
    exists s'. split; [exact Hrun|].
    split; [exact (free_one_window_frame_scratch s s' Hs)|].
    split; intros H; [auto|contradiction].
  - destruct (nested_free_one_window_no_spill s HN Hok Hwim)
      as (s' & Hrun & Hw' & Hm & Hs).
    exists s'. split; [exact Hrun|].
    split; [exact (free_one_window_frame_scratch s s' Hs)|].
    split; intros H; [contradiction|auto].
Qed.

(** *** The dump loop of the outermost case *)

Lemma Ok_inj (a b : State) : Ok a = Ok b -> a = b.
Proof. intros H. injection H as H. exact H. Qed.

Lemma restore_plain (s s1 : State) :
  restore_ NWINDOWS (G 0) (G 0) (G 0) s = Ok s1 ->
  s1 = set_psr (moved_psr (psr s) (win_above NWINDOWS (cwp s))) s /\
  Z.testbit (wim_bits NWINDOWS (wim s)) (win_above NWINDOWS (cwp s)) = false.
Proof.
  unfold restore_. cbv zeta.
  destruct (Z.testbit _ _); [discriminate|].
  intros H. apply Ok_inj in H. subst s1. split; reflexivity.
Qed.

Lemma save_plain (s s1 : State) :
  save_ NWINDOWS (G 0) (G 0) (G 0) s = Ok s1 ->
  s1 = set_psr (moved_psr (psr s) (win_below NWINDOWS (cwp s))) s /\
  Z.testbit (wim_bits NWINDOWS (wim s)) (win_below NWINDOWS (cwp s)) = false.
Proof.
  unfold save_. cbv zeta.
  destruct (Z.testbit _ _); [discriminate|].
  intros H. apply Ok_inj in H. subst s1. split; reflexivity.
Qed.

(** What the dump loop leaves alone: every windowed register, the globals
    other than its two work registers, WIM, Y, the kernel variables, and
    every store word outside the save areas of the windows. *)
Definition dump_frame (s s' : State) : Prop :=
  lregs s' = lregs s /\ iregs s' = iregs s /\ wim s' = wim s /\
  yreg s' = yreg s /\
  system_in_interrupt_context s' = system_in_interrupt_context s /\
  active_thread_context_stack_pointer s' = active_thread_context_stack_pointer s /\
  detected_sparc_register_windows s' = detected_sparc_register_windows s /\
  (forall n, n <> 4%nat -> n <> 5%nat -> gregs s' n = gregs s n) /\
  (forall a, (forall w, ~ In a (window_words (iregs s w 6%nat))) ->
             mem s' a = mem s a).

Lemma dump_frame_refl (s : State) : dump_frame s s.
Proof. unfold dump_frame. repeat split; reflexivity. Qed.

Lemma dump_frame_trans (s1 s2 s3 : State) :
  dump_frame s1 s2 -> dump_frame s2 s3 -> dump_frame s1 s3.
Proof.
  unfold dump_frame.
  intros (Hl & Hi & Hw & Hy & Hf & Ha & Hd & Hg & Hm)
         (Hl' & Hi' & Hw' & Hy' & Hf' & Ha' & Hd' & Hg' & Hm').
  repeat split; try congruence.
  - intros n H4 H5. rewrite Hg', Hg by assumption. reflexivity.
  - intros a Ha0. rewrite Hm', Hm; auto. intros w. rewrite Hi. apply Ha0.
Qed.

Lemma dump_turn_frame (s s1 : State) :
  restore_ NWINDOWS (G 0) (G 0) (G 0) s = Ok s1 ->
  dump_frame s (run (outermost_dump_windows_loop_body NWINDOWS) s1).
Proof.
  intros H. apply restore_plain in H. destruct H as [-> _].
  unfold outermost_dump_windows_loop_body, store_window, dump_frame.
  cbn [app]. destruct s. mach_obs.
  set (p1 := moved_psr _ _).
  mach. repeat split; try reflexivity.
  - intros n H4 H5. rewrite !updn_other by now apply Nat.eqb_neq. reflexivity.
  - intros a Ha.
    specialize (Ha (win_below NWINDOWS (Z.land p1 SPARC_PSR_CWP_MASK))).
    unfold window_words, window_offsets in Ha. cbn [map In] in Ha.
    repeat (apply Decidable.not_or in Ha;
            let H1 := fresh "Hne" in destruct Ha as [H1 Ha]).
    addr_norm. mem_reads. reflexivity.
Qed.

Lemma outermost_dump_windows_loop_frame (fuel : nat) (s s' : State) :
  outermost_dump_windows_loop NWINDOWS fuel s = Ok s' -> dump_frame s s'.
Proof.
  revert s. induction fuel as [|fuel IH]; intros s; cbn [outermost_dump_windows_loop].
  - discriminate.
  - destruct (restore_ NWINDOWS (G 0) (G 0) (G 0) s) as [s1| |] eqn:Hr;
      cbn [bind]; try discriminate.
    pose proof (dump_turn_frame s s1 Hr) as Hturn.
    destruct (subcc_zero _ _).
    + intros H. apply Ok_inj in H. subst s'. exact Hturn.
    + intros H. apply IH in H. eapply dump_frame_trans; eassumption.
Qed.

Lemma lxor_cancel_l (a b : Z) : Z.lxor a (Z.lxor a b) = b.
Proof. now rewrite <- Z.lxor_assoc, Z.lxor_nilpotent, Z.lxor_0_l. Qed.

Lemma lxor_cancel_r (a b : Z) : Z.lxor b (Z.lxor a b) = a.
Proof. now rewrite (Z.lxor_comm a b), lxor_cancel_l. Qed.

(** The register arrangement the routine assumes on entry: %l0 holds the
    PSR, and the window pointer is that of an implemented window. *)
Definition entry_arrangement (s : State) : Prop :=
  2 <= NWINDOWS /\ 0 <= cwp s < NWINDOWS /\ get_reg NWINDOWS s (L 0) = psr s.

Lemma entry_arrangement_window_ok (s : State) :
  entry_arrangement s -> window_ok s.
Proof.
  intros (HN & Hw & H0). repeat split; try assumption; try lia.
  rewrite H0. reflexivity.
Qed.

(** The outermost case from its first instruction up to the context save:
    the dump of the windows in use. *)
Definition outermost_dump (s : State) : outcome :=
  do s2 <- outermost_dump_windows_loop NWINDOWS (dump_fuel NWINDOWS)
             (run (outermost_trap_handler NWINDOWS
                     detected_sparc_register_windows_addr) s);
  Ok (run (outermost_dump_done NWINDOWS) s2).

(** After the dump the trap window holds what it held on entry, with the
    thread's %g4 to %g7 relocated to %l4 to %l7. *)
Definition dumped (s s3 : State) : Prop :=
  psr s3 = psr s /\ iregs s3 = iregs s /\ yreg s3 = yreg s /\
  system_in_interrupt_context s3 = system_in_interrupt_context s /\
  active_thread_context_stack_pointer s3 = active_thread_context_stack_pointer s /\
  detected_sparc_register_windows s3 = detected_sparc_register_windows s /\
  (forall n, (n < 4)%nat -> get_reg NWINDOWS s3 (L n) = get_reg NWINDOWS s (L n)) /\
  (forall n, (4 <= n < 8)%nat -> get_reg NWINDOWS s3 (L n) = get_reg NWINDOWS s (G n)) /\
  (forall n, (1 <= n < 4)%nat -> get_reg NWINDOWS s3 (G n) = get_reg NWINDOWS s (G n)) /\
  (forall v n, v <> cwp s -> lregs s3 v n = lregs s v n) /\
  (forall a, (forall w, ~ In a (window_words (iregs s w 6%nat))) ->
             mem s3 a = mem s a).

Lemma outermost_dump_spec (s s3 : State) :
  entry_arrangement s -> outermost_dump s = Ok s3 -> dumped s s3.
Proof.
  intros (HN & Hw & H0). unfold outermost_dump.
  destruct (outermost_dump_windows_loop _ _ _) as [s2| |] eqn:Hloop;
    cbn [bind]; try discriminate.
  intros H. apply Ok_inj in H. subst s3.
  apply outermost_dump_windows_loop_frame in Hloop.
  revert Hloop. unfold outermost_trap_handler, swap_g3_l0. cbn [app].
  destruct s. mach_obs_in H0. mach_obs_in Hw.
  mach_with ltac:(rewrite ?lxor_cancel_l, ?lxor_cancel_r).
  unfold dump_frame. destruct s2. mach_obs.
  intros (Hl & Hi & Hwim & Hy & Hf & Ha & Hd & Hg & Hm). subst.
  pose proof (Hg 3%nat ltac:(discriminate) ltac:(discriminate)) as Hg3.
  pose proof (Hg 1%nat ltac:(discriminate) ltac:(discriminate)) as Hg1.
  pose proof (Hg 2%nat ltac:(discriminate) ltac:(discriminate)) as Hg2.
  rewrite !updn_other in Hg1, Hg2 by reflexivity.
  rewrite updn_same in Hg3.
  unfold outermost_dump_done, swap_g3_l0, dumped. cbn [app].
  mach_with ltac:(rewrite ?Hg3, ?H0, ?lxor_cancel_l, ?lxor_cancel_r).
  repeat split; try reflexivity.
  - intros n Hn. mach_obs. small_index; mach_reads; try reflexivity.
    symmetry; exact H0.
  - intros n Hn. mach_obs.
    destruct n as [|[|[|[|[|[|[|[|n]]]]]]]]; try (exfalso; lia);
      mach_reads; reflexivity.
  - intros n Hn. mach_obs.
    destruct n as [|[|[|[|n]]]]; try (exfalso; lia); mach_reads;
      rewrite ?updn_same; first [assumption|reflexivity].
  - intros v n Hv. rewrite !upd2_window by exact Hv. reflexivity.
  - exact Hm.
Qed.

(** *** Who writes the flag, and who writes the store *)

Definition keeps_flag (i : insn) : Prop :=
  forall s, system_in_interrupt_context (i s) = system_in_interrupt_context s.

Definition keeps_mem (i : insn) : Prop :=
  forall s, mem (i s) = mem s.

Lemma set_reg_flag (r : reg) (v : Z) (s : State) :
  system_in_interrupt_context (set_reg NWINDOWS r v s) =
  system_in_interrupt_context s.
Proof. destruct r as [n| | |]; cbn; try reflexivity. destruct (Nat.eqb n 0); reflexivity. Qed.

Lemma set_reg_mem (r : reg) (v : Z) (s : State) :
  mem (set_reg NWINDOWS r v s) = mem s.
Proof. destruct r as [n| | |]; cbn; try reflexivity. destruct (Nat.eqb n 0); reflexivity. Qed.

Ltac keeps_tac :=
  intros; intro s; cbv beta delta
    [and_ andn_ or_ xor_ add_ sub_ sll_ srl_ mov_ sethi_hi set_address
     ld_ ldd_ ld_system_in_interrupt_context
     ld_detected_sparc_register_windows
     ld_active_thread_context_stack_pointer rd_wim rd_y];
  cbv zeta; rewrite ?set_reg_flag, ?set_reg_mem; reflexivity.

Lemma keeps_and_ a b c : keeps_flag (and_ NWINDOWS a b c) /\ keeps_mem (and_ NWINDOWS a b c).
Proof. split; keeps_tac. Qed.
Lemma keeps_andn_ a b c : keeps_flag (andn_ NWINDOWS a b c) /\ keeps_mem (andn_ NWINDOWS a b c).
Proof. split; keeps_tac. Qed.
Lemma keeps_or_ a b c : keeps_flag (or_ NWINDOWS a b c) /\ keeps_mem (or_ NWINDOWS a b c).
Proof. split; keeps_tac. Qed.
Lemma keeps_xor_ a b c : keeps_flag (xor_ NWINDOWS a b c) /\ keeps_mem (xor_ NWINDOWS a b c).
Proof. split; keeps_tac. Qed.
Lemma keeps_add_ a b c : keeps_flag (add_ NWINDOWS a b c) /\ keeps_mem (add_ NWINDOWS a b c).
Proof. split; keeps_tac. Qed.
Lemma keeps_sub_ a b c : keeps_flag (sub_ NWINDOWS a b c) /\ keeps_mem (sub_ NWINDOWS a b c).
Proof. split; keeps_tac. Qed.
Lemma keeps_sll_ a b c : keeps_flag (sll_ NWINDOWS a b c) /\ keeps_mem (sll_ NWINDOWS a b c).
Proof. split; keeps_tac. Qed.
Lemma keeps_srl_ a b c : keeps_flag (srl_ NWINDOWS a b c) /\ keeps_mem (srl_ NWINDOWS a b c).
Proof. split; keeps_tac. Qed.
Lemma keeps_mov_ a b : keeps_flag (mov_ NWINDOWS a b) /\ keeps_mem (mov_ NWINDOWS a b).
Proof. split; keeps_tac. Qed.
Lemma keeps_sethi_hi a b : keeps_flag (sethi_hi NWINDOWS a b) /\ keeps_mem (sethi_hi NWINDOWS a b).
Proof. split; keeps_tac. Qed.
Lemma keeps_set_address a b : keeps_flag (set_address NWINDOWS a b) /\ keeps_mem (set_address NWINDOWS a b).
Proof. split; keeps_tac. Qed.
Lemma keeps_ld_ a b c : keeps_flag (ld_ NWINDOWS a b c) /\ keeps_mem (ld_ NWINDOWS a b c).
Proof. split; keeps_tac. Qed.
Lemma keeps_ldd_ a b c : keeps_flag (ldd_ NWINDOWS a b c) /\ keeps_mem (ldd_ NWINDOWS a b c).
Proof. split; keeps_tac. Qed.
Lemma keeps_ld_flag a :
  keeps_flag (ld_system_in_interrupt_context NWINDOWS a) /\
  keeps_mem (ld_system_in_interrupt_context NWINDOWS a).
Proof. split; keeps_tac. Qed.
Lemma keeps_ld_detected a :
  keeps_flag (ld_detected_sparc_register_windows NWINDOWS a) /\
  keeps_mem (ld_detected_sparc_register_windows NWINDOWS a).
Proof. split; keeps_tac. Qed.
Lemma keeps_ld_active a :
  keeps_flag (ld_active_thread_context_stack_pointer NWINDOWS a) /\
  keeps_mem (ld_active_thread_context_stack_pointer NWINDOWS a).
Proof. split; keeps_tac. Qed.
Lemma keeps_rd_wim a : keeps_flag (rd_wim NWINDOWS a) /\ keeps_mem (rd_wim NWINDOWS a).
Proof. split; keeps_tac. Qed.
Lemma keeps_rd_y a : keeps_flag (rd_y NWINDOWS a) /\ keeps_mem (rd_y NWINDOWS a).
Proof. split; keeps_tac. Qed.
Lemma keeps_wr_wim a : keeps_flag (wr_wim NWINDOWS a) /\ keeps_mem (wr_wim NWINDOWS a).
Proof. split; intro s; reflexivity. Qed.
Lemma keeps_wr_y a : keeps_flag (wr_y NWINDOWS a) /\ keeps_mem (wr_y NWINDOWS a).
Proof. split; intro s; reflexivity. Qed.
Lemma keeps_wr_psr a : keeps_flag (wr_psr NWINDOWS a) /\ keeps_mem (wr_psr NWINDOWS a).
Proof. split; intro s; reflexivity. Qed.
Lemma keeps_st_active a :
  keeps_flag (st_active_thread_context_stack_pointer NWINDOWS a) /\
  keeps_mem (st_active_thread_context_stack_pointer NWINDOWS a).
Proof. split; intro s; reflexivity. Qed.
Lemma keeps_flag_st_ a b c : keeps_flag (st_ NWINDOWS a b c).
Proof. intro s; reflexivity. Qed.
Lemma keeps_flag_std_ a b c : keeps_flag (std_ NWINDOWS a b c).
Proof. intro s; reflexivity. Qed.
Lemma keeps_mem_st_flag a : keeps_mem (st_system_in_interrupt_context NWINDOWS a).
Proof. intro s; reflexivity. Qed.

Lemma run_keeps_flag (b : list insn) :
  Forall keeps_flag b ->
  forall s, system_in_interrupt_context (run b s) = system_in_interrupt_context s.
Proof.
  induction 1 as [|i b Hi _ IH]; intros s; [reflexivity|].
  rewrite run_cons, IH. apply Hi.
Qed.

Lemma run_keeps_mem (b : list insn) :
  Forall keeps_mem b -> forall s, mem (run b s) = mem s.
Proof.
  induction 1 as [|i b Hi _ IH]; intros s; [reflexivity|].
  rewrite run_cons, IH. apply Hi.
Qed.

Ltac keeps_block :=
  cbn [app];
  repeat first
    [ apply Forall_nil
    | apply Forall_cons;
      [ first [ apply keeps_and_ | apply keeps_andn_ | apply keeps_or_
              | apply keeps_xor_ | apply keeps_add_ | apply keeps_sub_
              | apply keeps_sll_ | apply keeps_srl_ | apply keeps_mov_
              | apply keeps_sethi_hi | apply keeps_set_address
              | apply keeps_ld_ | apply keeps_ldd_ | apply keeps_ld_flag
              | apply keeps_ld_detected | apply keeps_ld_active
              | apply keeps_rd_wim | apply keeps_rd_y | apply keeps_wr_wim
              | apply keeps_wr_y | apply keeps_wr_psr | apply keeps_st_active
              | apply keeps_flag_st_ | apply keeps_flag_std_
              | apply keeps_mem_st_flag ]
      | ] ].

Lemma save__keeps (a : reg) (o : operand) (d : reg) (s s' : State) :
  save_ NWINDOWS a o d s = Ok s' ->
  system_in_interrupt_context s' = system_in_interrupt_context s /\ mem s' = mem s.
Proof.
  unfold save_. cbv zeta. destruct (Z.testbit _ _); [discriminate|].
  intros H. apply Ok_inj in H. subst s'.
  rewrite set_reg_flag, set_reg_mem. split; reflexivity.
Qed.

Lemma restore__keeps (a : reg) (o : operand) (d : reg) (s s' : State) :
  restore_ NWINDOWS a o d s = Ok s' ->
  system_in_interrupt_context s' = system_in_interrupt_context s /\ mem s' = mem s.
Proof.
  unfold restore_. cbv zeta. destruct (Z.testbit _ _); [discriminate|].
  intros H. apply Ok_inj in H. subst s'.
  rewrite set_reg_flag, set_reg_mem. split; reflexivity.
Qed.

Local Abbreviation flag := system_in_interrupt_context (only parsing).

Lemma normalize_keeps (s : State) :
  flag (sparcTaskContextAwareTrapHandler NWINDOWS s) = flag s /\
  mem (sparcTaskContextAwareTrapHandler NWINDOWS s) = mem s.
Proof.
  unfold sparcTaskContextAwareTrapHandler.
  destruct (andcc_zero _ _); [split; reflexivity|].
  split; [apply run_keeps_flag|apply run_keeps_mem]; keeps_block.
Qed.

Lemma common_entry_sets_flag (s : State) :
  flag (common_entry NWINDOWS system_in_interrupt_context_addr s) = 1.
Proof.
  unfold common_entry, common_interrupting_trap.
  destruct (sparcTaskContextAwareTrapHandler NWINDOWS s). mach. reflexivity.
Qed.

Lemma common_entry_keeps_mem (s : State) :
  mem (common_entry NWINDOWS system_in_interrupt_context_addr s) = mem s.
Proof.
  unfold common_entry. rewrite run_keeps_mem by (unfold common_interrupting_trap; keeps_block).
  apply normalize_keeps.
Qed.

Lemma common_entry_selected_path (s : State) :
  selected_path NWINDOWS (common_entry NWINDOWS system_in_interrupt_context_addr s)
  = if flag s =? 0 then Outermost else Nested.
Proof.
  unfold selected_path, tst_zero, common_entry, common_interrupting_trap.
  rewrite <- (proj1 (normalize_keeps s)).
  destruct (sparcTaskContextAwareTrapHandler NWINDOWS s). mach. reflexivity.
Qed.

Lemma outermost_dump_windows_loop_keeps_flag (fuel : nat) (s s' : State) :
  outermost_dump_windows_loop NWINDOWS fuel s = Ok s' -> flag s' = flag s.
Proof.
  intros H. apply outermost_dump_windows_loop_frame in H.
  destruct H as (_ & _ & _ & _ & Hf & _). exact Hf.
Qed.

Lemma outermost_save_context_keeps_flag (s : State) :
  flag (outermost_save_context NWINDOWS
          active_thread_context_stack_pointer_addr sparcNullTaskContextData s)
  = flag s.
Proof.
  destruct (outermost_save_context_spec s) as (_ & _ & _ & Hf & _). exact Hf.
Qed.

Lemma outermost_call_keeps (s : State) :
  flag (outermost_call NWINDOWS
          SPARC_STACK_BARE_MINIMUM_STACK_FRAME_RESERVATION_SIZE s) = flag s /\
  mem (outermost_call NWINDOWS
         SPARC_STACK_BARE_MINIMUM_STACK_FRAME_RESERVATION_SIZE s) = mem s.
Proof.
  unfold outermost_call.
  destruct (selected_callee _ _);
    (split; [rewrite !run_keeps_flag|rewrite !run_keeps_mem]; try reflexivity;
     unfold outermost_set_interrupt_handler_caller_address,
       outermost_set_task_context_replacement_handler_address; keeps_block).
Qed.

Lemma nested_call_keeps (s : State) :
  flag (nested_call NWINDOWS
          SPARC_STACK_BARE_MINIMUM_STACK_FRAME_RESERVATION_SIZE s) = flag s /\
  mem (nested_call NWINDOWS
         SPARC_STACK_BARE_MINIMUM_STACK_FRAME_RESERVATION_SIZE s) = mem s.
Proof.
  unfold nested_call.
  destruct (selected_callee _ _);
    (split; [rewrite !run_keeps_flag|rewrite !run_keeps_mem]; try reflexivity;
     unfold nested_set_interrupt_handler_caller_address,
       nested_set_task_context_replacement_handler_address; keeps_block).
Qed.

Lemma outermost_entry_keeps_flag (s s' : State) :
  outermost_entry NWINDOWS SPARC_STACK_BARE_MINIMUM_STACK_FRAME_RESERVATION_SIZE
    detected_sparc_register_windows_addr active_thread_context_stack_pointer_addr
    sparcNullTaskContextData s = Ok s' ->
  flag s' = flag s.
Proof.
  unfold outermost_entry. cbv zeta.
  destruct (outermost_dump_windows_loop _ _ _) as [s2| |] eqn:Hloop;
    cbn [bind]; try discriminate.
  intros H. apply Ok_inj in H. subst s'.
  rewrite (proj1 (outermost_call_keeps _)), outermost_save_context_keeps_flag.
  rewrite run_keeps_flag by (unfold outermost_dump_done, swap_g3_l0; keeps_block).
  rewrite (outermost_dump_windows_loop_keeps_flag _ _ _ Hloop).
  apply run_keeps_flag. unfold outermost_trap_handler, swap_g3_l0. keeps_block.
Qed.

Lemma nested_free_one_window_keeps_flag (s s' : State) :
  nested_free_one_window NWINDOWS detected_sparc_register_windows_addr s = Ok s' ->
  flag s' = flag s.
Proof.
  unfold nested_free_one_window. cbv zeta.
  set (s1 := run _ s).
  assert (E1 : flag s1 = flag s)
    by (subst s1; apply run_keeps_flag; unfold nested_trap_handler; keeps_block).
  destruct (subcc_zero _ _).
  - unfold nested_window_overflow. cbv zeta.
    set (s2 := run _ s1).
    assert (E2 : flag s2 = flag s1) by (subst s2; apply run_keeps_flag; keeps_block).
    destruct (save_ _ _ _ _ s2) as [s3| |] eqn:Hs; cbn [bind]; try discriminate.
    apply save__keeps in Hs. destruct Hs as [E3 _].
    set (s4 := run _ s3).
    assert (E4 : flag s4 = flag s3)
      by (subst s4; apply run_keeps_flag; unfold store_window; keeps_block).
    destruct (restore_ _ _ _ _ s4) as [s5| |] eqn:Hr; cbn [bind]; try discriminate.
    apply restore__keeps in Hr. destruct Hr as [E5 _].
    intros H. apply Ok_inj in H. subst s'.
    rewrite run_keeps_flag by keeps_block. congruence.
  - intros H. apply Ok_inj in H. subst s'. exact E1.
Qed.

Lemma nested_entry_keeps_flag (s s' : State) :
  nested_entry NWINDOWS SPARC_STACK_BARE_MINIMUM_STACK_FRAME_RESERVATION_SIZE
    SPARC_STACK_BASE_CONTEXT_RESERVATION_SIZE
    detected_sparc_register_windows_addr s = Ok s' ->
  flag s' = flag s.
Proof.
  unfold nested_entry.
  destruct (nested_free_one_window _ _ _) as [s1| |] eqn:Hfree;
    cbn [bind]; try discriminate.
  intros H. apply Ok_inj in H. subst s'.
  rewrite (proj1 (nested_call_keeps _)).
  rewrite run_keeps_flag by (unfold nested_no_window_overflow; keeps_block).
  eapply nested_free_one_window_keeps_flag; eassumption.
Qed.

Lemma common_return_from_trap_keeps (s s' : State) :
  common_return_from_trap NWINDOWS s = Ok s' ->
  flag s' = flag s /\ mem s' = mem s.
Proof.
  unfold common_return_from_trap. cbv zeta.
  destruct (Z.testbit _ _); [discriminate|].
  intros H. apply Ok_inj in H. subst s'. split; reflexivity.
Qed.

Lemma outermost_force_window_underflow_keeps (s s' : State) :
  outermost_force_window_underflow NWINDOWS
    SPARC_STACK_BARE_MINIMUM_STACK_FRAME_RESERVATION_SIZE
    detected_sparc_register_windows_addr s = Ok s' ->
  flag s' = flag s /\ mem s' = mem s.
Proof.
  unfold outermost_force_window_underflow. cbv zeta.
  set (s1 := run _ s).
  assert (E1 : flag s1 = flag s /\ mem s1 = mem s).
  { subst s1. split; [apply run_keeps_flag|apply run_keeps_mem];
      unfold rotate_wim_left; keeps_block. }
  destruct (restore_ _ _ _ _ s1) as [s2| |] eqn:Hr; cbn [bind]; try discriminate.
  apply restore__keeps in Hr.
  set (s3 := run _ s2).
  assert (E3 : flag s3 = flag s2 /\ mem s3 = mem s2).
  { subst s3. split; [apply run_keeps_flag|apply run_keeps_mem];
      unfold load_window; keeps_block. }
  intros H. apply save__keeps in H.
  destruct E1, Hr, E3, H. split; congruence.
Qed.

Lemma outermost_restore_keeps (s : State) :
  flag (run (outermost_disable_traps NWINDOWS
               SPARC_STACK_BARE_MINIMUM_STACK_FRAME_RESERVATION_SIZE
               system_in_interrupt_context_addr) s) = 0 /\
  flag (outermost_restore s) = 0 /\ mem (outermost_restore s) = mem s.
Proof.
  split; [|split].
  - unfold outermost_disable_traps. destruct s. mach. reflexivity.
  - unfold outermost_restore. rewrite run_app.
    rewrite run_keeps_flag by (unfold outermost_restore_context; keeps_block).
    unfold outermost_disable_traps. destruct s. mach. reflexivity.
  - unfold outermost_restore. apply run_keeps_mem.
    unfold outermost_disable_traps, outermost_restore_context. keeps_block.
Qed.

Lemma outermost_exit_clears_flag (s s' : State) :
  outermost_exit NWINDOWS SPARC_NON_RESTORABLE_BITS_IN_PSR
    SPARC_STACK_BARE_MINIMUM_STACK_FRAME_RESERVATION_SIZE
    system_in_interrupt_context_addr detected_sparc_register_windows_addr
    active_thread_context_stack_pointer_addr s = Ok s' ->
  flag s' = 0 /\ mem s' = mem s.
Proof.
  unfold outermost_exit. cbv zeta. fold (outermost_restore s).
  destruct (outermost_restore_keeps s) as (_ & Ef & Em).
  destruct (outermost_force_window_underflow _ _ _ _) as [s2| |] eqn:Hu;
    cbn [bind]; try discriminate.
  apply outermost_force_window_underflow_keeps in Hu.
  intros H. apply common_return_from_trap_keeps in H.
  destruct Hu, H. split; congruence.
Qed.

Lemma nested_restore_invalid_window_keeps (s s' : State) :
  nested_restore_invalid_window NWINDOWS s = Ok s' ->
  flag s' = flag s /\ mem s' = mem s.
Proof.
  unfold nested_restore_invalid_window. cbv zeta.
  set (s1 := run _ s).
  assert (E1 : flag s1 = flag s /\ mem s1 = mem s).
  { subst s1. split; [apply run_keeps_flag|apply run_keeps_mem];
      unfold rotate_wim_left; keeps_block. }
  destruct (restore_ _ _ _ _ s1) as [s2| |] eqn:Hr; cbn [bind]; try discriminate.
  apply restore__keeps in Hr.
  set (s3 := run _ s2).
  assert (E3 : flag s3 = flag s2 /\ mem s3 = mem s2).
  { subst s3. split; [apply run_keeps_flag|apply run_keeps_mem];
      unfold load_window; keeps_block. }
  intros H. apply save__keeps in H.
  destruct E1, Hr, E3, H. split; congruence.
Qed.

Lemma nested_exit_keeps_flag (s s' : State) :
  nested_exit NWINDOWS SPARC_STACK_BARE_MINIMUM_STACK_FRAME_RESERVATION_SIZE
    detected_sparc_register_windows_addr s = Ok s' ->
  flag s' = flag s /\ mem s' = mem s.
Proof.
  unfold nested_exit. cbv zeta.
  set (s1 := run _ s).
  assert (E1 : flag s1 = flag s /\ mem s1 = mem s).
  { subst s1. split; [apply run_keeps_flag|apply run_keeps_mem];
      unfold nested_disable_traps, nested_restore_context; keeps_block. }
  unfold nested_skip_restoring_invalid_window. cbv zeta.
  set (s2 := run _ s1).
  assert (E2 : flag s2 = flag s1 /\ mem s2 = mem s1).
  { subst s2. split; [apply run_keeps_flag|apply run_keeps_mem]; keeps_block. }
  destruct (subcc_zero _ _).
  - destruct (nested_restore_invalid_window _ s2) as [s3| |] eqn:Hi;
      cbn [bind]; try discriminate.
    apply nested_restore_invalid_window_keeps in Hi.
    intros H. apply common_return_from_trap_keeps in H.
    destruct E1, E2, Hi, H. split; congruence.
  - cbn [bind]. intros H. apply common_return_from_trap_keeps in H.
    destruct E1, E2, H. split; congruence.
Qed.

(** *** Nesting of trap instances *)

Definition entry_half : State -> outcome :=
  trap_entry_half NWINDOWS SPARC_STACK_BARE_MINIMUM_STACK_FRAME_RESERVATION_SIZE
    SPARC_STACK_BASE_CONTEXT_RESERVATION_SIZE system_in_interrupt_context_addr
    detected_sparc_register_windows_addr active_thread_context_stack_pointer_addr
    sparcNullTaskContextData.

Definition exit_half : path -> State -> outcome :=
  trap_exit_half NWINDOWS SPARC_NON_RESTORABLE_BITS_IN_PSR
    SPARC_STACK_BARE_MINIMUM_STACK_FRAME_RESERVATION_SIZE
    system_in_interrupt_context_addr detected_sparc_register_windows_addr
    active_thread_context_stack_pointer_addr.

Definition entered_path (s : State) : path :=
  selected_path NWINDOWS (common_entry NWINDOWS system_in_interrupt_context_addr s).

(** Code that runs with traps enabled, a thread or a collaborator: it may
    do anything to the machine except write the flag, which belongs to the
    routine. *)
Definition code_step (s s' : State) : Prop := flag s' = flag s.

(** A configuration is the machine state and the stack of trap instances
    whose collaborator call has not returned yet.  Each half of the
    routine runs with traps disabled, so it is one step. *)
Inductive step : State * list path -> State * list path -> Prop :=
| step_code (s s' : State) (k : list path) :
    code_step s s' -> step (s, k) (s', k)
| step_trap (s s1 : State) (k : list path) (index : Z) :
    psr_et (psr s) = true ->
    entry_half (trap_entry NWINDOWS index s) = Ok s1 ->
    step (s, k) (s1, entered_path (trap_entry NWINDOWS index s) :: k)
| step_return (s s' : State) (p : path) (k : list path) :
    exit_half p s = Ok s' ->
    step (s, p :: k) (s', k).

Inductive reachable (c0 : State * list path) : State * list path -> Prop :=
| reachable_start : reachable c0 c0
| reachable_step (c c' : State * list path) :
    reachable c0 c -> step c c' -> reachable c0 c'.

(** Nested instances on top of exactly one outermost instance. *)
Fixpoint nested_on_outermost (k : list path) : bool :=
  match k with
  | [] => false
  | Outermost :: k' => match k' with [] => true | _ :: _ => false end
  | Nested :: k' => nested_on_outermost k'
  end.

Definition nesting_invariant (c : State * list path) : Prop :=
  (snd c = [] /\ flag (fst c) = 0) \/
  (nested_on_outermost (snd c) = true /\ flag (fst c) = 1).

Lemma trap_entry_keeps_flag (index : Z) (s : State) :
  flag (trap_entry NWINDOWS index s) = flag s.
Proof.
  unfold trap_entry. cbv zeta. rewrite run_keeps_flag by keeps_block. reflexivity.
Qed.

Lemma entry_half_sets_flag (s s' : State) :
  entry_half s = Ok s' -> flag s' = 1.
Proof.
  unfold entry_half, trap_entry_half. cbv zeta.
  destruct (selected_path _ _); intros H.
  - apply outermost_entry_keeps_flag in H. rewrite H. apply common_entry_sets_flag.
  - apply nested_entry_keeps_flag in H. rewrite H. apply common_entry_sets_flag.
Qed.

Lemma exit_half_outermost_flag (s s' : State) :
  exit_half Outermost s = Ok s' -> flag s' = 0.
Proof.
  unfold exit_half, trap_exit_half. intros H.
  apply outermost_exit_clears_flag in H. apply H.
Qed.

Lemma exit_half_nested_flag (s s' : State) :
  exit_half Nested s = Ok s' -> flag s' = flag s.
Proof.
  unfold exit_half, trap_exit_half. intros H.
  apply nested_exit_keeps_flag in H. apply H.
Qed.

Lemma entered_path_flag (s : State) (index : Z) :
  entered_path (trap_entry NWINDOWS index s) =
  if flag s =? 0 then Outermost else Nested.
Proof.
  unfold entered_path.
  rewrite common_entry_selected_path, trap_entry_keeps_flag. reflexivity.
Qed.

Lemma step_keeps_invariant (c c' : State * list path) :
  nesting_invariant c -> step c c' -> nesting_invariant c'.
Proof.
  intros Hinv Hstep. destruct Hstep as [s s' k Hc|s s1 k index Het He|s s' p k Hx];
    unfold nesting_invariant in Hinv |- *; cbn [fst snd] in Hinv |- *.
  - unfold code_step in Hc. rewrite Hc. exact Hinv.
  - right. split; [|exact (entry_half_sets_flag _ _ He)].
    rewrite entered_path_flag.
    destruct Hinv as [[Hk Hf]|[Hk Hf]]; rewrite Hf; cbn [Z.eqb Pos.eqb].
    + rewrite Hk. reflexivity.
    + exact Hk.
  - destruct Hinv as [[Hk _]|[Hk Hf]]; [discriminate Hk|].
    destruct p; cbn [nested_on_outermost] in Hk.
    + destruct k; [|discriminate Hk]. left. split; [reflexivity|].
      exact (exit_half_outermost_flag _ _ Hx).
    + right. split; [exact Hk|].
      rewrite (exit_half_nested_flag _ _ Hx). exact Hf.
Qed.

Lemma reachable_invariant (c0 c : State * list path) :
  nesting_invariant c0 -> reachable c0 c -> nesting_invariant c.
Proof.
  intros H0 Hr. induction Hr as [|c c' _ IH Hs]; [exact H0|].
  eapply step_keeps_invariant; eassumption.
Qed.

(** C3: the common entry code sets the flag to 1 before anything else is
    stored, on the outermost and on the nested path alike, and each entry
    half hands the collaborator a state whose flag is 1; the nested exit
    leaves the flag as it finds it; the outermost exit clears the flag in
    [outermost_disable_traps], after the collaborator has returned and
    before [outermost_restore_context] runs.  Hence, as long as the code
    that runs with traps enabled does not write the flag, from a start with
    the flag clear and no trap in progress the flag is 1 exactly while some
    trap instance is in progress, whatever the nesting depth, and the
    instances in progress are nested ones on top of one outermost one. *)
Theorem interrupt_nesting_flag :
  (forall s, flag (common_entry NWINDOWS system_in_interrupt_context_addr s) = 1) /\
  (forall s s', entry_half s = Ok s' -> flag s' = 1) /\
  (forall s s', exit_half Nested s = Ok s' -> flag s' = flag s) /\
  (forall s,
      flag (run (outermost_disable_traps NWINDOWS
                   SPARC_STACK_BARE_MINIMUM_STACK_FRAME_RESERVATION_SIZE
                   system_in_interrupt_context_addr) s) = 0) /\
  (forall s s', exit_half Outermost s = Ok s' -> flag s' = 0) /\
  (forall s0 s k,
      flag s0 = 0 -> reachable (s0, []) (s, k) ->
      (k <> [] -> flag s = 1 /\ nested_on_outermost k = true) /\
      (k = [] -> flag s = 0)).
Proof.
  assert (Hinv : forall s0 s k, flag s0 = 0 -> reachable (s0, []) (s, k) ->
                                nesting_invariant (s, k)).
  { intros s0 s k H0 Hr. eapply reachable_invariant; [|exact Hr].
    left. split; [reflexivity|exact H0]. }
  split; [exact common_entry_sets_flag|].
  split; [exact entry_half_sets_flag|].
  split; [exact exit_half_nested_flag|].
  split; [exact (fun s => proj1 (outermost_restore_keeps s))|].
  split; [exact exit_half_outermost_flag|].
  intros s0 s k H0 Hr. specialize (Hinv s0 s k H0 Hr).
  unfold nesting_invariant in Hinv. cbn [fst snd] in Hinv.
  split.
  - intros Hk. destruct Hinv as [[Hk' _]|[Hn Hf]]; [contradiction|].
    split; assumption.
  - intros ->. destruct Hinv as [[_ Hf]|[Hn _]]; [exact Hf|discriminate Hn].
Qed.

(** *** From entry to the call of the collaborator *)

(** The machine the routine is written for: between two and thirty-two
    windows, their number in the kernel variable, a 32-bit PSR, and the
    register arrangement of the entry. *)
Definition machine_ok (s : State) : Prop :=
  2 <= NWINDOWS <= 32 /\ 0 <= psr s < 2 ^ 32 /\
  detected_sparc_register_windows s = NWINDOWS /\
  entry_arrangement s.

(** What an entry half guarantees at the call, relative to the state [s]
    it started from. *)
Definition called_from (s s' : State) : Prop :=
  cwp s' = cwp s /\
  get_reg NWINDOWS s' (L 0) = get_reg NWINDOWS s (L 0) /\
  get_reg NWINDOWS s' (O 0) = Z.land (get_reg NWINDOWS s (L 3)) 0x1f /\
  psr_et (psr s') = true /\
  psr_pil (psr s') =
    (if Z.testbit (get_reg NWINDOWS s (L 3)) 5
     then psr_pil (psr s)
     else Z.land (get_reg NWINDOWS s (L 3)) 0x0f).

Lemma called_from_call_state (s s1 s' : State) :
  psr s1 = psr s ->
  get_reg NWINDOWS s1 (L 0) = get_reg NWINDOWS s (L 0) ->
  get_reg NWINDOWS s1 (L 3) = get_reg NWINDOWS s (L 3) ->
  call_state_ok s1 s' -> called_from s s'.
Proof.
  intros Hp H0 H3 (Ho & Het & Hc & Hl & _ & Hpil).
  unfold called_from, cwp in *. rewrite Hc, Hl, Ho, Het, Hpil, Hp, H0, H3.
  repeat split; reflexivity.
Qed.

Lemma outermost_entry_unfold (s : State) :
  outermost_entry NWINDOWS SPARC_STACK_BARE_MINIMUM_STACK_FRAME_RESERVATION_SIZE
    detected_sparc_register_windows_addr active_thread_context_stack_pointer_addr
    sparcNullTaskContextData s
  = (do s3 <- outermost_dump s;
     Ok (outermost_call NWINDOWS SPARC_STACK_BARE_MINIMUM_STACK_FRAME_RESERVATION_SIZE
           (outermost_save_context NWINDOWS active_thread_context_stack_pointer_addr
              sparcNullTaskContextData s3))).
Proof.
  unfold outermost_entry, outermost_dump. cbv zeta.
  destruct (outermost_dump_windows_loop _ _ _); cbn [bind]; reflexivity.
Qed.

Lemma outermost_entry_spec (s s' : State) :
  entry_arrangement s ->
  outermost_entry NWINDOWS SPARC_STACK_BARE_MINIMUM_STACK_FRAME_RESERVATION_SIZE
    detected_sparc_register_windows_addr active_thread_context_stack_pointer_addr
    sparcNullTaskContextData s = Ok s' ->
  called_from s s' /\
  (forall a,
      (forall w, ~ In a (window_words (iregs s w 6%nat))) ->
      ~ In a (context_words (active_thread_context_stack_pointer s)) ->
      ~ In a (context_words sparcNullTaskContextData) ->
      mem s' a = mem s a).
Proof.
  intros Hent. rewrite outermost_entry_unfold.
  destruct (outermost_dump s) as [s3| |] eqn:Hdump; cbn [bind]; try discriminate.
  intros H. apply Ok_inj in H. subst s'.
  pose proof (outermost_dump_spec s s3 Hent Hdump)
    as (Dp & Di & Dy & Df & Da & Dd & Dl & Dl4 & Dg & Dv & Dm).
  destruct (outermost_save_context_spec s3)
    as (Sframe & Sarch & Sact & Sf & Sp & Sw & Si & Sl).
  destruct Hent as (HN & Hw & H0).
  set (s4 := outermost_save_context _ _ _ s3) in *.
  assert (E0 : get_reg NWINDOWS s4 (L 0) = get_reg NWINDOWS s (L 0))
    by (rewrite Sl, Dl by (try discriminate; lia); reflexivity).
  assert (E3 : get_reg NWINDOWS s4 (L 3) = get_reg NWINDOWS s (L 3))
    by (rewrite Sl, Dl by (try discriminate; lia); reflexivity).
  assert (Ep : psr s4 = psr s) by congruence.
  split.
  - apply (called_from_call_state s s4); try assumption.
    apply outermost_call_state. congruence.
  - intros a Hstack Hctx Hnull.
    rewrite (proj2 (outermost_call_keeps s4)).
    rewrite Sframe, Dm; auto.
    unfold outermost_save_destination. rewrite Da.
    destruct (_ =? 0); assumption.
Qed.

Lemma nested_entry_spec (s s' : State) :
  machine_ok s ->
  nested_entry NWINDOWS SPARC_STACK_BARE_MINIMUM_STACK_FRAME_RESERVATION_SIZE
    SPARC_STACK_BASE_CONTEXT_RESERVATION_SIZE
    detected_sparc_register_windows_addr s = Ok s' ->
  called_from s s' /\
  (forall a,
      (forall w, ~ In a (window_words (iregs s w 6%nat))) ->
      ~ In a (context_words (nested_save_destination s)) ->
      mem s' a = mem s a).
Proof.
  intros (HN & Hp & Hd & Hent). unfold nested_entry.
  pose proof (entry_arrangement_window_ok s Hent) as Hok.
  destruct (nested_free_one_window_cases s HN Hok Hp Hd)
    as (s1 & -> & Hs & Hframe).
  cbn [bind]. intros H. apply Ok_inj in H. subst s'.
  destruct Hs as (Fp & Fi & Fy & Fg & Fv & Fl & Ff & Fa & Fd).
  destruct Hent as (HN2 & Hw & H0).
  assert (Hw1 : 0 <= cwp s1 < NWINDOWS) by (unfold cwp in *; rewrite Fp; exact Hw).
  destruct (nested_no_window_overflow_other s1 HN2 Hw1)
    as (Ssp & Sa & Sf & Sp & Sw & Sy & Sg & Sl & Si).
  set (s2 := run _ s1) in *.
  assert (Ec : cwp s1 = cwp s) by (unfold cwp; rewrite Fp; reflexivity).
  assert (E0 : get_reg NWINDOWS s2 (L 0) = get_reg NWINDOWS s (L 0)).
  { rewrite Sl by discriminate. unfold get_reg. rewrite Ec. apply Fl. lia. }
  assert (E3 : get_reg NWINDOWS s2 (L 3) = get_reg NWINDOWS s (L 3)).
  { rewrite Sl by discriminate. unfold get_reg. rewrite Ec. apply Fl. lia. }
  assert (Ep : psr s2 = psr s) by congruence.
  split.
  - apply (called_from_call_state s s2); try assumption.
    apply nested_call_state. congruence.
  - intros a Hstack Hctx.
    rewrite (proj2 (nested_call_keeps s2)). subst s2.
    rewrite nested_no_window_overflow_frame.
    + apply Hframe. apply Hstack.
    + unfold nested_save_destination in *. unfold get_reg, fp in *.
      rewrite Ec, Fi. exact Hctx.
Qed.

Lemma common_entry_spec (s : State) :
  let s' := common_entry NWINDOWS system_in_interrupt_context_addr s in
  psr s' = psr s /\ iregs s' = iregs s /\ gregs s' = gregs s /\
  mem s' = mem s /\ wim s' = wim s /\ yreg s' = yreg s /\
  active_thread_context_stack_pointer s' = active_thread_context_stack_pointer s /\
  detected_sparc_register_windows s' = detected_sparc_register_windows s /\
  get_reg NWINDOWS s' (L 0) = get_reg NWINDOWS s (L 0) /\
  get_reg NWINDOWS s' (L 3) = get_reg NWINDOWS s (L 3).
Proof.
  unfold common_entry, common_interrupting_trap, sparcTaskContextAwareTrapHandler.
  destruct (andcc_zero _ _); destruct s; mach; repeat split; reflexivity.
Qed.

Lemma common_entry_machine_ok (s : State) :
  machine_ok s -> machine_ok (common_entry NWINDOWS system_in_interrupt_context_addr s).
Proof.
  destruct (common_entry_spec s) as (Hp & _ & _ & _ & _ & _ & _ & Hd & H0 & _).
  unfold machine_ok, entry_arrangement, cwp. rewrite Hp, Hd, H0. auto.
Qed.

Lemma entry_half_spec (s s' : State) :
  machine_ok s -> entry_half s = Ok s' ->
  called_from s s' /\
  (forall a,
      (forall w, ~ In a (window_words (iregs s w 6%nat))) ->
      ~ In a (context_words (active_thread_context_stack_pointer s)) ->
      ~ In a (context_words sparcNullTaskContextData) ->
      ~ In a (context_words (nested_save_destination s)) ->
      mem s' a = mem s a).
Proof.
  intros Hok. pose proof (common_entry_machine_ok s Hok) as Hok'.
  destruct (common_entry_spec s) as (Hp & Hi & Hg & Hm & Hw & Hy & Ha & Hd & H0 & H3).
  unfold entry_half, trap_entry_half. cbv zeta.
  set (s1 := common_entry _ _ s) in *.
  assert (Hc : forall s2, called_from s1 s2 -> called_from s s2).
  { unfold called_from, cwp. rewrite Hp, H0, H3. auto. }
  destruct (selected_path _ _); intros H.
  - destruct (outermost_entry_spec s1 s' (proj2 (proj2 (proj2 Hok'))) H) as [Hcall Hmem].
    split; [auto|]. intros a Hs Hc1 Hc2 _. rewrite Hmem, Hm; auto.
    + rewrite Hi. exact Hs.
    + rewrite Ha. exact Hc1.
  - destruct (nested_entry_spec s1 s' Hok' H) as [Hcall Hmem].
    split; [auto|]. intros a Hs _ _ Hc3. rewrite Hmem, Hm; auto.
    + rewrite Hi. exact Hs.
    + unfold nested_save_destination, get_reg, fp, cwp in *. rewrite Hi, Hp. exact Hc3.
Qed.

(** C5: from the entry of the routine to the call.  Entered in the
    register arrangement of the entry (%l0 = PSR, %l3 = index), an entry
    half that reaches the call hands the collaborator the low five bits of
    the index as its argument, with traps enabled.  For an Interrupt-kind
    index (bit 5 clear) the processor interrupt level during the call is
    the low four bits of the index; the indices of this kind are the
    interrupt levels 1 to 15 that the processor delivers and the handler
    table has entries for, so their low five bits are at most 15, and then
    the level equals the argument and is not below it.  For a
    ContextReplacement-kind index (bit 5 set) the level during the call is
    the one of the PSR at trap entry. *)
Theorem priority_during_handler_caller (s s' : State) :
  machine_ok s ->
  entry_half s = Ok s' ->
  let index := get_reg NWINDOWS s (L 3) in
  (Z.testbit index 5 = false -> Z.land index 0x1f <= 15) ->
  get_reg NWINDOWS s' (O 0) = Z.land index 0x1f /\
  psr_et (psr s') = true /\
  (Z.testbit index 5 = false ->
     psr_pil (psr s') = Z.land index 0x0f /\
     psr_pil (psr s') = get_reg NWINDOWS s' (O 0) /\
     psr_pil (psr s') >= get_reg NWINDOWS s' (O 0)) /\
  (Z.testbit index 5 = true -> psr_pil (psr s') = psr_pil (psr s)).
Proof.
  intros Hok Hrun. cbv zeta. intros Hlevel.
  destruct (entry_half_spec s s' Hok Hrun) as ((_ & _ & Ho & Het & Hpil) & _).
  split; [exact Ho|]. split; [exact Het|]. split.
  - intros H. rewrite H in Hpil.
    rewrite Hpil, Ho, (land_0x0f_0x1f _ (Hlevel H)).
    repeat split; lia.
  - intros H. rewrite H in Hpil. exact Hpil.
Qed.

(** C7: after an entry half that started in the register arrangement of
    the entry, with traps disabled as the hardware leaves them, whatever
    the collaborator did, provided it returns in the window it was called
    in with %l0 of that window intact, the first block after the call
    ([outermost_disable_traps], [nested_disable_traps]) makes the PSR the
    trap-entry value again: traps are disabled and the interrupt level is
    the one of the trap entry, for both kinds of index. *)
Theorem psr_rewritten_after_collaborator (s0 s1 s2 : State) :
  machine_ok s0 ->
  psr_et (psr s0) = false ->
  entry_half s0 = Ok s1 ->
  cwp s2 = cwp s1 ->
  get_reg NWINDOWS s2 (L 0) = get_reg NWINDOWS s1 (L 0) ->
  forall s3 : State,
    s3 = run (outermost_disable_traps NWINDOWS
                SPARC_STACK_BARE_MINIMUM_STACK_FRAME_RESERVATION_SIZE
                system_in_interrupt_context_addr) s2 \/
    s3 = run (nested_disable_traps NWINDOWS
                SPARC_STACK_BARE_MINIMUM_STACK_FRAME_RESERVATION_SIZE) s2 ->
    psr s3 = psr s0 /\
    psr_et (psr s3) = false /\
    psr_pil (psr s3) = psr_pil (psr s0).
Proof.
  intros Hok Het Hentry Hc Hl s3 Hs3.
  destruct (entry_half_spec s0 s1 Hok Hentry) as [(Ec & E0 & _) _].
  destruct Hok as (_ & _ & _ & _ & _ & Hl0).
  assert (Hp : psr s3 = get_reg NWINDOWS s2 (L 0)).
  { destruct Hs3 as [-> | ->];
      unfold outermost_disable_traps, nested_disable_traps;
      destruct s2; mach; reflexivity. }
  assert (E : psr s3 = psr s0) by congruence.
  rewrite E. auto.
Qed.

Lemma exit_half_keeps_mem (p : path) (s s' : State) :
  exit_half p s = Ok s' -> mem s' = mem s.
Proof.
  unfold exit_half, trap_exit_half. destruct p; intros H.
  - apply outermost_exit_clears_flag in H. apply H.
  - apply nested_exit_keeps_flag in H. apply H.
Qed.

(** C10: the outermost save writes the nineteen words at offsets 0 to 72
    of its destination record and nothing else in the store, so the word at
    offset 76 of that record, which it reads through the active pointer, is
    unchanged; the nested save writes the nineteen words at offsets 0 to 72
    of its stack record and nothing else; the exit halves do not write the
    store at all; and an entry half changes no word that lies outside the
    save areas of the register windows and outside the words at offsets 0
    to 72 of the records it may save to.  So the frozen flag of a task
    context is never written by the routine. *)
Theorem frozen_flag_never_written :
  (forall s a,
      ~ In a (context_words (outermost_save_destination s)) ->
      mem (outermost_save_context NWINDOWS active_thread_context_stack_pointer_addr
             sparcNullTaskContextData s) a = mem s a) /\
  (forall s,
      mem (outermost_save_context NWINDOWS active_thread_context_stack_pointer_addr
             sparcNullTaskContextData s)
          (wrap32 (outermost_save_destination s + frozen_offset))
      = mem s (wrap32 (outermost_save_destination s + frozen_offset))) /\
  (forall s a,
      ~ In a (context_words (nested_save_destination s)) ->
      mem (run (nested_no_window_overflow NWINDOWS
                  SPARC_STACK_BASE_CONTEXT_RESERVATION_SIZE) s) a = mem s a) /\
  (forall s,
      mem (run (nested_no_window_overflow NWINDOWS
                  SPARC_STACK_BASE_CONTEXT_RESERVATION_SIZE) s)
          (wrap32 (nested_save_destination s + frozen_offset))
      = mem s (wrap32 (nested_save_destination s + frozen_offset))) /\
  (forall p s s', exit_half p s = Ok s' -> mem s' = mem s) /\
  (forall s s' q,
      machine_ok s -> entry_half s = Ok s' ->
      let a := wrap32 (q + frozen_offset) in
      (forall w, ~ In a (window_words (iregs s w 6%nat))) ->
      ~ In a (context_words (active_thread_context_stack_pointer s)) ->
      ~ In a (context_words sparcNullTaskContextData) ->
      ~ In a (context_words (nested_save_destination s)) ->
      mem s' a = mem s a).
Proof.
  split; [|split; [|split; [|split; [|split]]]].
  - intros s a Ha. apply outermost_save_context_spec. exact Ha.
  - intros s. apply outermost_save_context_spec. apply frozen_flag_not_a_saved_word.
  - intros s a Ha. apply nested_no_window_overflow_frame. exact Ha.
  - intros s. apply nested_no_window_overflow_frame. apply frozen_flag_not_a_saved_word.
  - apply exit_half_keeps_mem.
  - intros s s' q Hok He a Hs H1 H2 H3.
    destruct (entry_half_spec s s' Hok He) as [_ Hm]. apply Hm; assumption.
Qed.

(** *** Further properties of the entry code *)

(** X6: the three XORs exchange %g3 and %l0 of the current window and
    change nothing else, so doing them twice gives both registers their
    values back. *)
Theorem swap_g3_l0_exchanges (s : State) :
  let s' := run (swap_g3_l0 NWINDOWS) s in
  get_reg NWINDOWS s' (G 3) = get_reg NWINDOWS s (L 0) /\
  get_reg NWINDOWS s' (L 0) = get_reg NWINDOWS s (G 3) /\
  (forall n, n <> 3%nat -> gregs s' n = gregs s n) /\
  (forall w n, w <> cwp s \/ n <> 0%nat -> lregs s' w n = lregs s w n) /\
  iregs s' = iregs s /\ mem s' = mem s /\ psr s' = psr s /\ wim s' = wim s /\
  yreg s' = yreg s /\
  get_reg NWINDOWS (run (swap_g3_l0 NWINDOWS) s') (G 3) = get_reg NWINDOWS s (G 3) /\
  get_reg NWINDOWS (run (swap_g3_l0 NWINDOWS) s') (L 0) = get_reg NWINDOWS s (L 0).
Proof.
  unfold swap_g3_l0. destruct s.
  mach_with ltac:(rewrite ?lxor_cancel_l, ?lxor_cancel_r).
  repeat split; try reflexivity.
  - intros n Hn. rewrite !updn_other by (apply Nat.eqb_neq; exact Hn). reflexivity.
  - intros w n [Hw|Hn].
    + mach_obs_in Hw. rewrite !upd2_window by exact Hw. reflexivity.
    + rewrite !upd2_other by (apply Nat.eqb_neq; exact Hn). reflexivity.
Qed.

(** X7: the common entry code keeps the old value of the flag in %l5 and
    the routine takes the outermost case exactly when that value is 0, that
    is when no trap was in progress; an entry half is the common code
    followed by the case so selected.  Besides the flag, the resume pair,
    the scratch locals and the condition codes, the common code changes
    nothing: in particular the window pointer stays, and the PSR copy in
    %l0 and the index in %l3 reach the selected case. *)
Theorem entry_dispatches_on_old_flag (s : State) :
  let s1 := common_entry NWINDOWS system_in_interrupt_context_addr s in
  get_reg NWINDOWS s1 (L 5) = flag s /\
  (entered_path s = Outermost <-> flag s = 0) /\
  (entered_path s = Nested <-> flag s <> 0) /\
  entry_half s =
    (if flag s =? 0
     then outermost_entry NWINDOWS SPARC_STACK_BARE_MINIMUM_STACK_FRAME_RESERVATION_SIZE
            detected_sparc_register_windows_addr
            active_thread_context_stack_pointer_addr sparcNullTaskContextData s1
     else nested_entry NWINDOWS SPARC_STACK_BARE_MINIMUM_STACK_FRAME_RESERVATION_SIZE
            SPARC_STACK_BASE_CONTEXT_RESERVATION_SIZE
            detected_sparc_register_windows_addr s1) /\
  psr_but_icc (psr s1) = psr_but_icc (psr s) /\ cwp s1 = cwp s /\
  wim s1 = wim s /\ yreg s1 = yreg s /\
  gregs s1 = gregs s /\ iregs s1 = iregs s /\ mem s1 = mem s /\
  get_reg NWINDOWS s1 (L 0) = get_reg NWINDOWS s (L 0) /\
  get_reg NWINDOWS s1 (L 3) = get_reg NWINDOWS s (L 3).
Proof.
  cbv zeta.
  pose proof (common_entry_selected_path s) as Hpath.
  destruct (common_entry_spec s)
    as (Hp & Hi & Hg & Hm & Hw & Hy & _ & _ & H0 & H3).
  assert (Hicc : psr_but_icc (psr (common_entry NWINDOWS system_in_interrupt_context_addr s))
                 = psr_but_icc (psr s)) by (rewrite Hp; reflexivity).
  assert (Hc : cwp (common_entry NWINDOWS system_in_interrupt_context_addr s) = cwp s)
    by (unfold cwp; rewrite Hp; reflexivity).
  assert (H5 : get_reg NWINDOWS (common_entry NWINDOWS system_in_interrupt_context_addr s)
                 (L 5) = flag s).
  { unfold common_entry, common_interrupting_trap.
    rewrite <- (proj1 (normalize_keeps s)).
    destruct (sparcTaskContextAwareTrapHandler NWINDOWS s). mach. reflexivity. }
  split; [exact H5|].
  unfold entered_path, entry_half, trap_entry_half. cbv zeta. rewrite Hpath.
  destruct (Z.eqb_spec (flag s) 0) as [Hf|Hf].
  - repeat split; try assumption; try reflexivity; try congruence.
  - repeat split; try assumption; try reflexivity; try congruence.
Qed.

(** The outermost archive, taken after the dump, holds the values of the
    entry: the dump has moved the thread's %g4 to %g7 to %l4 to %l7. *)
Lemma dumped_archive (s s3 : State) :
  dumped s s3 -> outermost_archive s3 = nested_archive s.
Proof.
  intros (Dp & Di & Dy & _ & _ & _ & Dl & Dl4 & Dg & _ & _).
  unfold outermost_archive, nested_archive.
  rewrite (Dl 0%nat), (Dl 1%nat), (Dl 2%nat), (Dl4 4%nat), (Dl4 5%nat),
    (Dl4 6%nat), (Dl4 7%nat), (Dg 1%nat), (Dg 2%nat), (Dg 3%nat) by lia.
  unfold get_reg, cwp. rewrite Dp, Di, Dy. reflexivity.
Qed.

(** X8: both cases archive the same nineteen values of the trap entry, in
    the same order: the PSR copy, %g1 to %g7, %i0 to %i7, Y and the resume
    pair.  The nested case stores them directly; the outermost case stores
    them after the dump, which has used %g4 to %g7 as work registers, and
    still archives the values those globals had on entry, from the locals
    they were moved to. *)
Theorem both_saves_archive_the_entry_state (s s3 : State) :
  entry_arrangement s ->
  outermost_dump s = Ok s3 ->
  map (mem (outermost_save_context NWINDOWS active_thread_context_stack_pointer_addr
              sparcNullTaskContextData s3))
      (context_words (outermost_save_destination s3))
  = nested_archive s /\
  map (mem (run (nested_no_window_overflow NWINDOWS
                   SPARC_STACK_BASE_CONTEXT_RESERVATION_SIZE) s))
      (context_words (nested_save_destination s))
  = nested_archive s.
Proof.
  intros Hent Hdump.
  pose proof (outermost_dump_spec s s3 Hent Hdump) as Hd.
  destruct Hent as (HN & Hw & H0).
  split; [|apply nested_no_window_overflow_archive; assumption].
  rewrite (proj1 (proj2 (outermost_save_context_spec s3))).
  apply dumped_archive. exact Hd.
Qed.

(** *** The dump loop runs to its end *)

Lemma mod_window (x : Z) :
  0 < NWINDOWS -> - NWINDOWS <= x < 2 * NWINDOWS ->
  x mod NWINDOWS =
  if x <? 0 then x + NWINDOWS else if x <? NWINDOWS then x else x - NWINDOWS.
Proof.
  intros HN Hx. symmetry.
  destruct (Z.ltb_spec x 0); [|destruct (Z.ltb_spec x NWINDOWS)].
  - apply (Z.mod_unique x NWINDOWS (-1)); lia.
  - apply (Z.mod_unique x NWINDOWS 0); lia.
  - apply (Z.mod_unique x NWINDOWS 1); lia.
Qed.

Ltac window_arith :=
  unfold win_above, win_below;
  repeat first
    [ match goal with
      | |- context [?x mod NWINDOWS] => rewrite (mod_window x) by lia
      end
    | match goal with
      | |- context [?x <? ?y] => destruct (Z.ltb_spec x y)
      end ];
  try lia.

Lemma window_bit_inj (a b : Z) : 0 <= a -> 0 <= b -> 2 ^ a = 2 ^ b -> a = b.
Proof. intros Ha Hb H. apply (Z.pow_inj_r 2); [lia|assumption|assumption|exact H]. Qed.

Lemma window_bit_range (a : Z) : 0 <= a < 32 -> 0 <= 2 ^ a < 2 ^ 32.
Proof.
  intros H. split; [apply Z.pow_nonneg; lia|apply Z.pow_lt_mono_r; lia].
Qed.

(** The routine takes (w + 1) and (NWINDOWS - 1) for the window above [w]:
    that is the window above when the number of windows is a power of
    two. *)
Lemma computed_window_above (c k : Z) :
  NWINDOWS = 2 ^ k -> 1 <= k <= 5 -> 0 <= c < NWINDOWS ->
  Z.land (wrap32 (c + 1)) (wrap32 (NWINDOWS - 1)) = win_above NWINDOWS c.
Proof.
  intros HN Hk Hc.
  assert (HN32 : 2 <= NWINDOWS <= 32).
  { rewrite HN. split.
    - change 2 with (2 ^ 1) at 1. apply Z.pow_le_mono_r; lia.
    - change 32 with (2 ^ 5). apply Z.pow_le_mono_r; lia. }
  unfold wrap32, win_above. rewrite !Z.mod_small by lia.
  rewrite HN. replace (2 ^ k - 1) with (Z.ones k) by (rewrite Z.ones_equiv; lia).
  apply Z.land_ones. lia.
Qed.

(** The mask of the implemented WIM bits as the loop builds it. *)
Lemma computed_wim_mask :
  2 <= NWINDOWS <= 32 ->
  wrap32 (wrap32 (Z.shiftl 0x02 (Z.land (wrap32 (NWINDOWS - 1)) 31)) - 0x01)
  = Z.ones NWINDOWS.
Proof.
  intros HN.
  assert (E1 : wrap32 (NWINDOWS - 1) = NWINDOWS - 1)
    by (unfold wrap32; apply Z.mod_small; lia).
  assert (E2 : Z.land (NWINDOWS - 1) 31 = NWINDOWS - 1).
  { change 31 with (Z.ones 5). rewrite Z.land_ones by lia.
    apply Z.mod_small. change (2 ^ 5) with 32. lia. }
  rewrite E1, E2, Z.shiftl_mul_pow2 by lia.
  replace (2 * 2 ^ (NWINDOWS - 1)) with (2 ^ NWINDOWS)
    by (rewrite <- Z.pow_succ_r by lia; f_equal; lia).
  rewrite Z.ones_equiv.
  destruct (Z.eq_dec NWINDOWS 32) as [->|Hne]; [reflexivity|].
  assert (0 < 2 ^ NWINDOWS < 2 ^ 32)
    by (split; [apply Z.pow_pos_nonneg; lia|apply Z.pow_lt_mono_r; lia]).
  unfold wrap32. rewrite (Z.mod_small (2 ^ NWINDOWS)) by lia.
  rewrite Z.mod_small by lia. lia.
Qed.

(** One turn of the loop: the window pointer has moved up, the copy of WIM
    in %g5 has been rotated one place to the right, and the registers the
    loop reads are as they were. *)
Lemma dump_turn_registers (s s1 : State) :
  restore_ NWINDOWS (G 0) (G 0) (G 0) s = Ok s1 ->
  let s2 := run (outermost_dump_windows_loop_body NWINDOWS) s1 in
  psr s2 = moved_psr (psr s) (win_above NWINDOWS (cwp s)) /\
  gregs s2 5%nat =
    Z.land (Z.lor (Z.shiftr (gregs s 5%nat) (Z.land 0x1 31))
                  (wrap32 (Z.shiftl (gregs s 5%nat) (Z.land (gregs s 7%nat) 31))))
           (wrap32 (wrap32 (Z.shiftl 0x02 (Z.land (gregs s 7%nat) 31)) - 0x01)) /\
  gregs s2 6%nat = gregs s 6%nat /\ gregs s2 7%nat = gregs s 7%nat /\
  wim s2 = wim s.
Proof.
  intros H. apply restore_plain in H. destruct H as [-> _].
  unfold outermost_dump_windows_loop_body, store_window.
  cbn [app]. destruct s. mach_obs.
  set (p1 := moved_psr _ _).
  mach. repeat split; reflexivity.
Qed.

Lemma dump_loop_terminates (r : nat) :
  forall (fuel : nat) (s : State) (v t : Z),
    2 <= NWINDOWS <= 32 ->
    (1 <= r)%nat -> Z.of_nat r < NWINDOWS -> (r <= fuel)%nat ->
    0 <= v < NWINDOWS -> 0 <= t < NWINDOWS -> 0 <= cwp s < NWINDOWS ->
    wim_bits NWINDOWS (wim s) = 2 ^ v ->
    gregs s 7%nat = wrap32 (NWINDOWS - 1) ->
    gregs s 6%nat = 2 ^ t ->
    gregs s 5%nat = 2 ^ ((t + Z.of_nat r) mod NWINDOWS) ->
    win_above NWINDOWS (cwp s) = (v - Z.of_nat r) mod NWINDOWS ->
    exists s' : State, outermost_dump_windows_loop NWINDOWS fuel s = Ok s'.
Proof.
  induction r as [|r IH]; intros fuel s v t HN Hr Hlt Hfuel Hv Ht Hc Hwim H7 H6 H5 Habove;
    [lia|].
  destruct fuel as [|fuel]; [lia|].
  cbn [outermost_dump_windows_loop].
  assert (Hvalid : Z.testbit (wim_bits NWINDOWS (wim s)) (win_above NWINDOWS (cwp s)) = false).
  { pose proof (Z.mod_pos_bound (v - Z.of_nat (S r)) NWINDOWS ltac:(lia)) as Hm.
    rewrite Hwim, Habove, Z.pow2_bits_eqb by lia.
    apply Z.eqb_neq. window_arith. }
  destruct (restore_ NWINDOWS (G 0) (G 0) (G 0) s) as [s1| |] eqn:Hrestore;
    [|unfold restore_ in Hrestore; cbv zeta in Hrestore;
      rewrite Hvalid in Hrestore; discriminate..].
  cbn [bind]. cbv zeta.
  destruct (dump_turn_registers s s1 Hrestore) as (Ep & E5 & E6 & E7 & Hw2).
  set (s2 := run (outermost_dump_windows_loop_body NWINDOWS) s1) in *.
  assert (Hc2 : cwp s2 = win_above NWINDOWS (cwp s)).
  { unfold cwp at 1. rewrite Ep. apply moved_psr_cwp.
    pose proof (win_above_range (cwp s) ltac:(lia)). lia. }
  assert (Hrot : gregs s2 5%nat = 2 ^ ((t + Z.of_nat r) mod NWINDOWS)).
  { rewrite E5, H5, H7, computed_wim_mask by exact HN.
    fold (wim_bits NWINDOWS
            (Z.lor (Z.shiftr (2 ^ ((t + Z.of_nat (S r)) mod NWINDOWS)) (Z.land 0x1 31))
               (wrap32 (Z.shiftl (2 ^ ((t + Z.of_nat (S r)) mod NWINDOWS))
                          (Z.land (wrap32 (NWINDOWS - 1)) 31))))).
    rewrite rotated_right_wim by (try apply Z.mod_pos_bound; lia).
    f_equal. window_arith. }
  assert (Htest : subcc_zero (get_reg NWINDOWS s2 (G 5)) (get_reg NWINDOWS s2 (G 6))
                  = ((t + Z.of_nat r) mod NWINDOWS =? t)).
  { cbn [get_reg Nat.eqb]. rewrite Hrot, E6, H6.
    pose proof (Z.mod_pos_bound (t + Z.of_nat r) NWINDOWS ltac:(lia)) as Hm.
    rewrite subcc_zero_eqb by (apply window_bit_range; lia).
    destruct (Z.eqb_spec ((t + Z.of_nat r) mod NWINDOWS) t) as [->|Hne].
    - apply Z.eqb_refl.
    - apply Z.eqb_neq. intros E. apply Hne. apply window_bit_inj; [lia|lia|exact E]. }
  rewrite Htest.
  destruct (Z.eqb_spec ((t + Z.of_nat r) mod NWINDOWS) t) as [E|E].
  - eexists. reflexivity.
  - assert (Hr1 : (1 <= r)%nat).
    { destruct r as [|r]; [|lia]. exfalso. apply E.
      rewrite Z.add_0_r. apply Z.mod_small. lia. }
    apply (IH fuel s2 v t); try assumption; try lia.
    + rewrite Hc2. apply win_above_range. lia.
    + rewrite Hw2. exact Hwim.
    + rewrite Hc2, Habove. window_arith.
Qed.

(** What [outermost_trap_handler] hands to the loop: the number of windows
    less one in %g7, the bit of the window above the trap window in %g6,
    and WIM in %g5. *)
Lemma outermost_trap_handler_registers (s : State) (k : Z) :
  NWINDOWS = 2 ^ k -> 1 <= k <= 5 -> machine_ok s ->
  let s1 := run (outermost_trap_handler NWINDOWS detected_sparc_register_windows_addr) s in
  psr s1 = psr s /\ wim s1 = wim s /\
  gregs s1 7%nat = wrap32 (NWINDOWS - 1) /\
  gregs s1 6%nat = 2 ^ win_above NWINDOWS (cwp s) /\
  gregs s1 5%nat = wim_bits NWINDOWS (wim s).
Proof.
  intros HN Hk (HN32 & Hp & Hd & _ & Hw & H0).
  pose proof (computed_window_above (cwp s) k HN Hk Hw) as Habove.
  pose proof (win_above_range (cwp s) ltac:(lia)) as Hrange.
  unfold outermost_trap_handler, swap_g3_l0. cbn [app].
  destruct s. mach_obs_in H0. mach_obs_in Hw. mach_obs_in Hd.
  mach_obs_in Habove. mach_obs_in Hrange.
  subst detected_sparc_register_windows0.
  mach_with ltac:(rewrite ?lxor_cancel_l, ?lxor_cancel_r).
  rewrite H0. change 0x1 with 1. rewrite Habove, window_bit by lia.
  repeat split; reflexivity.
Qed.

(** When the dump comes back, the window above the trap window is the
    invalid one: [outermost_dump_done] writes to WIM the bit that
    [outermost_trap_handler] left in %g6, which the loop does not touch. *)
Lemma outermost_dump_wim (s s3 : State) (k : Z) :
  NWINDOWS = 2 ^ k -> 1 <= k <= 5 -> machine_ok s ->
  outermost_dump s = Ok s3 ->
  wim s3 = 2 ^ win_above NWINDOWS (cwp s).
Proof.
  intros HN Hk Hok.
  pose proof Hok as (HN32 & Hp & Hd & Hent).
  pose proof Hent as (_ & Hw & _).
  destruct (outermost_trap_handler_registers s k HN Hk Hok) as (_ & _ & _ & E6 & _).
  pose proof (win_above_range (cwp s) ltac:(lia)) as Ht.
  unfold outermost_dump.
  destruct (outermost_dump_windows_loop _ _ _) as [s2| |] eqn:Hloop;
    cbn [bind]; try discriminate.
  intros H. apply Ok_inj in H. subst s3.
  apply outermost_dump_windows_loop_frame in Hloop.
  destruct Hloop as (_ & _ & _ & _ & _ & _ & _ & Hg & _).
  specialize (Hg 6%nat ltac:(discriminate) ltac:(discriminate)).
  rewrite E6 in Hg.
  unfold outermost_dump_done, swap_g3_l0. cbn [app].
  destruct s2. mach_obs_in Hg. mach.
  rewrite Hg. apply wim_bits_window. exact Ht.
Qed.

(** The dump loop runs to its end.  On a machine whose number of windows
    is a power of two, entered with exactly one invalid window that is not
    the window above the trap window, the outermost dump comes back within
    NWINDOWS turns without entering the invalid window. *)
Lemma outermost_dump_runs (s : State) (k v : Z) :
  NWINDOWS = 2 ^ k -> 1 <= k <= 5 -> machine_ok s ->
  0 <= v < NWINDOWS -> wim_bits NWINDOWS (wim s) = 2 ^ v ->
  v <> win_above NWINDOWS (cwp s) ->
  exists s3 : State,
    outermost_dump s = Ok s3 /\
    wim s3 = 2 ^ win_above NWINDOWS (cwp s) /\
    dumped s s3.
Proof.
  intros HN Hk Hok Hv Hwim Hne.
  pose proof Hok as (HN32 & Hp & Hd & Hent).
  pose proof Hent as (_ & Hw & _).
  destruct (outermost_trap_handler_registers s k HN Hk Hok) as (Ep & Ew & E7 & E6 & E5).
  pose proof (win_above_range (cwp s) ltac:(lia)) as Ht.
  set (t := win_above NWINDOWS (cwp s)) in *.
  assert (Hm : 1 <= (v - t) mod NWINDOWS < NWINDOWS) by window_arith.
  assert (Hcase : (v - t) mod NWINDOWS = v - t \/ (v - t) mod NWINDOWS = v - t + NWINDOWS)
    by window_arith.
  set (m := (v - t) mod NWINDOWS) in *.
  assert (Hloop : exists s2 : State,
            outermost_dump_windows_loop NWINDOWS (dump_fuel NWINDOWS)
              (run (outermost_trap_handler NWINDOWS detected_sparc_register_windows_addr) s)
            = Ok s2).
  { apply (dump_loop_terminates (Z.to_nat m)) with (v := v) (t := t);
      try assumption; try (unfold dump_fuel; lia).
    - rewrite E5, Hwim, Z2Nat.id by lia. f_equal.
      destruct Hcase as [E|E]; rewrite E; window_arith.
    - unfold cwp at 1. rewrite Ep. fold (cwp s). fold t. rewrite Z2Nat.id by lia.
      destruct Hcase as [E|E]; rewrite E; window_arith. }
  destruct Hloop as [s2 Hloop].
  assert (Hdump : outermost_dump s = Ok (run (outermost_dump_done NWINDOWS) s2)).
  { unfold outermost_dump. rewrite Hloop. reflexivity. }
  eexists. split; [exact Hdump|].
  split; [exact (outermost_dump_wim s _ k HN Hk Hok Hdump)
         |exact (outermost_dump_spec s _ Hent Hdump)].
Qed.

(** *** Refilling a window at exit *)

(** WIM with the single bit of window [c], rotated one place to the left
    the way [rotate_wim_left] does it, is the single bit of the window
    above [c]. *)
Lemma rotated_left_wim (c : Z) :
  2 <= NWINDOWS <= 32 -> 0 <= c < NWINDOWS ->
  wim_bits NWINDOWS
    (Z.lor (Z.shiftr (2 ^ c) (Z.land (wrap32 (NWINDOWS - 1)) 31))
           (wrap32 (Z.shiftl (2 ^ c) (Z.land 1 31))))
  = 2 ^ win_above NWINDOWS c.
Proof.
  intros HN Hc. unfold wim_bits.
  assert (E1 : wrap32 (NWINDOWS - 1) = NWINDOWS - 1)
    by (unfold wrap32; apply Z.mod_small; lia).
  assert (E2 : Z.land (NWINDOWS - 1) 31 = NWINDOWS - 1).
  { change 31 with (Z.ones 5). rewrite Z.land_ones by lia.
    apply Z.mod_small. change (2 ^ 5) with 32. lia. }
  rewrite E1, E2. change (Z.land 1 31) with 1.
  rewrite win_above_cases by lia.
  apply Z.bits_inj'. intros n Hn.
  rewrite Z.land_spec, Z.lor_spec, testbit_wrap32, Z.shiftr_spec,
    Z.shiftl_spec, Z.testbit_ones_nonneg by lia.
  destruct (Z.eqb_spec c (NWINDOWS - 1)) as [Hz|Hz];
    rewrite !Z.pow2_bits_eqb by lia;
    repeat split_test; cbn [andb orb]; try reflexivity; lia.
Qed.

(** The test before [nested_restore_invalid_window]: WIM against the bit
    of the window above the window that the restored %l0 designates. *)
Lemma nested_exit_test (s : State) (k : Z) :
  NWINDOWS = 2 ^ k -> 1 <= k <= 5 -> window_ok s ->
  detected_sparc_register_windows s = NWINDOWS ->
  let s1 := run [ sethi_hi NWINDOWS detected_sparc_register_windows_addr (L 5);
                  ld_detected_sparc_register_windows NWINDOWS (L 5);
                  sub_ NWINDOWS (L 5) (Imm 1) (L 5);
                  and_ NWINDOWS (L 0) (Imm SPARC_PSR_CWP_MASK) (L 7);
                  add_ NWINDOWS (L 7) (Imm 1) (L 7);
                  and_ NWINDOWS (L 7) (L 5) (L 7);
                  mov_ NWINDOWS (Imm 0x1) (L 6);
                  sll_ NWINDOWS (L 6) (L 7) (L 6);
                  rd_wim NWINDOWS (L 4) ] s in
  subcc_zero (get_reg NWINDOWS s1 (L 4)) (get_reg NWINDOWS s1 (L 6))
  = (wim_bits NWINDOWS (wim s) =? 2 ^ win_above NWINDOWS (cwp s)).
Proof.
  intros HN Hk (HN2 & Hw & H0) Hd. cbv zeta.
  pose proof (computed_window_above (cwp s) k HN Hk Hw) as Habove.
  pose proof (win_above_range (cwp s) ltac:(lia)) as Hrange.
  assert (HN32 : NWINDOWS <= 32).
  { rewrite HN. change 32 with (2 ^ 5). apply Z.pow_le_mono_r; lia. }
  destruct s. mach_obs_in H0. mach_obs_in Hw. mach_obs_in Hd.
  mach_obs_in Habove. mach_obs_in Hrange.
  subst detected_sparc_register_windows0.
  mach. rewrite H0. change 0x1 with 1. rewrite Habove, window_bit by lia.
  apply subcc_zero_eqb.
  - apply wim_bits_range. lia.
  - apply window_bit_range. lia.
Qed.

(** What a refill at exit may change besides WIM: the registers of the
    window above the trap window, and the scratch locals %l4 to %l7 of the
    trap window.  The [psr] component stands for the PSR outside the
    condition codes here: the step sets them with the [subcc] of its
    test. *)
Definition refill_step_frame (s s' : State) : Prop :=
  psr s' = psr s /\ mem s' = mem s /\ yreg s' = yreg s /\
  (forall n, gregs s' n = gregs s n) /\
  (forall n, (n < 4)%nat -> lregs s' (cwp s) n = lregs s (cwp s) n) /\
  (forall w n, w <> cwp s -> w <> win_above NWINDOWS (cwp s) ->
     lregs s' w n = lregs s w n) /\
  (forall w n, w <> win_above NWINDOWS (cwp s) -> iregs s' w n = iregs s w n) /\
  system_in_interrupt_context s' = system_in_interrupt_context s /\
  active_thread_context_stack_pointer s' = active_thread_context_stack_pointer s /\
  detected_sparc_register_windows s' = detected_sparc_register_windows s.

Lemma nested_exit_refill (s : State) (k : Z) :
  NWINDOWS = 2 ^ k -> 2 <= k <= 5 -> window_ok s -> 0 <= psr s < 2 ^ 32 ->
  detected_sparc_register_windows s = NWINDOWS ->
  wim_bits NWINDOWS (wim s) = 2 ^ win_above NWINDOWS (cwp s) ->
  exists s' : State,
    nested_skip_restoring_invalid_window NWINDOWS detected_sparc_register_windows_addr s
    = Ok s' /\
    wim s' = 2 ^ win_above NWINDOWS (win_above NWINDOWS (cwp s)) /\
    window_contents s' (win_above NWINDOWS (cwp s))
    = map (mem s) (window_words (iregs s (cwp s) 6%nat)) /\
    refill_step_frame s s'.
Proof.
  intros HN Hk Hok Hp Hd Hwim.
  unfold nested_skip_restoring_invalid_window. cbv zeta.
  rewrite (nested_exit_test s k) by (assumption || lia).
  rewrite Hwim, Z.eqb_refl.
  destruct Hok as (HN2 & Hw & H0).
  assert (HN4 : 4 <= NWINDOWS <= 32).
  { rewrite HN. split.
    - change 4 with (2 ^ 2). apply Z.pow_le_mono_r; lia.
    - change 32 with (2 ^ 5). apply Z.pow_le_mono_r; lia. }
  pose proof (win_above_range (cwp s) ltac:(lia)) as Har.
  pose proof (win_above_range (win_above NWINDOWS (cwp s)) ltac:(lia)) as Haar.
  pose proof (win_above_neq (cwp s) ltac:(lia) Hw) as Ha.
  pose proof (win_above_neq (win_above NWINDOWS (cwp s)) ltac:(lia) Har) as Haa.
  pose proof (win_below_above (cwp s) ltac:(lia) Hw) as Hba.
  assert (Hac : win_above NWINDOWS (win_above NWINDOWS (cwp s)) <> cwp s)
    by window_arith.
  assert (Ha32 : 0 <= win_above NWINDOWS (cwp s) < 32) by lia.
  assert (Hw32 : 0 <= cwp s < 32) by lia.
  unfold nested_restore_invalid_window, rotate_wim_left, refill_step_frame,
    window_contents, window_words, window_offsets.
  destruct s. mach_obs_in H0. mach_obs_in Hw. mach_obs_in Har. mach_obs_in Haar.
  mach_obs_in Ha. mach_obs_in Haa. mach_obs_in Hba. mach_obs_in Hac.
  mach_obs_in Hd. mach_obs_in Hwim. mach_obs_in Hp. mach_obs_in Ha32.
  mach_obs_in Hw32. subst detected_sparc_register_windows0.
  mach.
  unfold restore_. cbv zeta. mach_obs.
  rewrite Hwim, rotated_left_wim by lia.
  rewrite wim_bits_window, Z.pow2_bits_eqb by lia.
  rewrite (proj2 (Z.eqb_neq _ _) Haa).
  cbv beta iota delta [bind].
  fold (moved_psr psr0 (win_above NWINDOWS (Z.land psr0 SPARC_PSR_CWP_MASK))).
  unfold load_window.
  mach_with ltac:(rewrite ?(moved_psr_cwp _ _ Ha32), ?Hba,
                    ?(upd2_window _ _ _ _ _ _ (not_eq_sym Ha))).
  unfold save_. cbv zeta. mach_obs.
  rewrite ?(moved_psr_cwp _ _ Ha32), ?Hba.
  rewrite wim_bits_window, Z.pow2_bits_eqb by lia.
  rewrite (proj2 (Z.eqb_neq _ _) Hac).
  fold (moved_psr (moved_psr psr0 (win_above NWINDOWS (Z.land psr0 SPARC_PSR_CWP_MASK)))
                  (Z.land psr0 SPARC_PSR_CWP_MASK)).
  rewrite moved_psr_back by lia.
  eexists. split; [reflexivity|].
  mach_obs. addr_norm. cbn [map app].
  repeat split; try reflexivity.
  - mach_reads. reflexivity.
  - intros n Hn. rewrite !(upd2_window _ _ _ _ _ _ (not_eq_sym Ha)).
    small_index; mach_reads; reflexivity.
  - intros w n Hwc Hwa. rewrite !upd2_window by assumption. reflexivity.
  - intros w n Hwa. rewrite !upd2_window by assumption. reflexivity.
Qed.

Lemma nested_exit_no_refill (s : State) (k : Z) :
  NWINDOWS = 2 ^ k -> 1 <= k <= 5 -> window_ok s ->
  detected_sparc_register_windows s = NWINDOWS ->
  wim_bits NWINDOWS (wim s) <> 2 ^ win_above NWINDOWS (cwp s) ->
  exists s' : State,
    nested_skip_restoring_invalid_window NWINDOWS detected_sparc_register_windows_addr s
    = Ok s' /\
    wim s' = wim s /\ iregs s' = iregs s /\
    (forall n, lregs s' (win_above NWINDOWS (cwp s)) n
               = lregs s (win_above NWINDOWS (cwp s)) n) /\
    refill_step_frame s s'.
Proof.
  intros HN Hk Hok Hd Hwim.
  unfold nested_skip_restoring_invalid_window. cbv zeta.
  rewrite (nested_exit_test s k) by assumption.
  rewrite (proj2 (Z.eqb_neq _ _) Hwim).
  destruct Hok as (HN2 & Hw & H0).
  pose proof (win_above_neq (cwp s) ltac:(lia) Hw) as Ha.
  eexists. split; [reflexivity|].
  unfold refill_step_frame.
  destruct s. mach_obs_in Ha. mach.
  repeat split; try reflexivity.
  - intros n. rewrite !upd2_window by exact Ha. reflexivity.
  - intros n Hn. small_index; mach_reads; reflexivity.
  - intros w n Hwc Hwa. mach_obs_in Hwc. rewrite !upd2_window by exact Hwc. reflexivity.
Qed.

(** The same for the processor: of the PSR, everything outside the
    condition codes is kept, the window pointer in particular. *)
Definition refill_frame (s s' : State) : Prop :=
  psr_but_icc (psr s') = psr_but_icc (psr s) /\ cwp s' = cwp s /\
  mem s' = mem s /\ yreg s' = yreg s /\
  (forall n, gregs s' n = gregs s n) /\
  (forall n, (n < 4)%nat -> lregs s' (cwp s) n = lregs s (cwp s) n) /\
  (forall w n, w <> cwp s -> w <> win_above NWINDOWS (cwp s) ->
     lregs s' w n = lregs s w n) /\
  (forall w n, w <> win_above NWINDOWS (cwp s) -> iregs s' w n = iregs s w n) /\
  system_in_interrupt_context s' = system_in_interrupt_context s /\
  active_thread_context_stack_pointer s' = active_thread_context_stack_pointer s /\
  detected_sparc_register_windows s' = detected_sparc_register_windows s.

Lemma refill_step_frame_refill (s s' : State) :
  refill_step_frame s s' -> refill_frame s s'.
Proof.
  intros (Hp & Hrest). unfold refill_frame, cwp.
  rewrite Hp. split; [reflexivity|]. split; [reflexivity|]. exact Hrest.
Qed.

(** X10: at nested exit a window is refilled exactly when WIM is the bit of
    the window above the trap window.  Then the sixteen registers of that
    window are loaded from the save area at its stack pointer (the restored
    %i6 of the trap window, taken to be double-word aligned) and WIM moves
    one place to the left, to the window above it; otherwise WIM and every
    windowed register outside the trap window stay as they are.  In both
    cases the step runs to its end, reads the store without writing it, and
    keeps the globals, Y, %l0 to %l3 and the ins of the trap window, and of
    the PSR everything but the condition codes. *)
Theorem nested_exit_refills_one_window (s : State) (k : Z) :
  NWINDOWS = 2 ^ k -> 2 <= k <= 5 -> window_ok s -> 0 <= psr s < 2 ^ 32 ->
  detected_sparc_register_windows s = NWINDOWS ->
  let wa := win_above NWINDOWS (cwp s) in
  (wim_bits NWINDOWS (wim s) = 2 ^ wa -> iregs s (cwp s) 6%nat mod 8 = 0) ->
  exists s' : State,
    nested_skip_restoring_invalid_window NWINDOWS detected_sparc_register_windows_addr s
    = Ok s' /\
    refill_frame s s' /\
    (wim_bits NWINDOWS (wim s) = 2 ^ wa ->
       wim s' = 2 ^ win_above NWINDOWS wa /\
       window_contents s' wa = map (mem s) (window_words (iregs s (cwp s) 6%nat))) /\
    (wim_bits NWINDOWS (wim s) <> 2 ^ wa ->
       wim s' = wim s /\ iregs s' = iregs s /\
       (forall n, lregs s' wa n = lregs s wa n)).
Proof.
  intros HN Hk Hok Hp Hd. cbv zeta. intros _.
  destruct (Z.eq_dec (wim_bits NWINDOWS (wim s)) (2 ^ win_above NWINDOWS (cwp s)))
    as [Hwim|Hwim].
  - destruct (nested_exit_refill s k HN Hk Hok Hp Hd Hwim) as (s' & Hrun & Hw' & Hc & Hf).
    exists s'. split; [exact Hrun|].
    split; [exact (refill_step_frame_refill s s' Hf)|].
    split; intros H; [auto|contradiction].
  - destruct (nested_exit_no_refill s k HN ltac:(lia) Hok Hd Hwim)
      as (s' & Hrun & Hw' & Hi & Hl & Hf).
    exists s'. split; [exact Hrun|].
    split; [exact (refill_step_frame_refill s s' Hf)|].
    split; intros H; [contradiction|auto].
Qed.

(** What the forced underflow of the outermost exit may change besides
    WIM: the registers of the window above the trap window, the scratch
    locals of the trap window, and the stack pointer of the trap window. *)
Definition underflow_frame (s s' : State) : Prop :=
  psr s' = psr s /\ mem s' = mem s /\ yreg s' = yreg s /\
  (forall n, gregs s' n = gregs s n) /\
  (forall n, (n < 4)%nat -> lregs s' (cwp s) n = lregs s (cwp s) n) /\
  (forall w n, w <> cwp s -> w <> win_above NWINDOWS (cwp s) ->
     lregs s' w n = lregs s w n) /\
  (forall w n, w <> win_above NWINDOWS (cwp s) ->
     w <> win_below NWINDOWS (cwp s) \/ n <> 6%nat ->
     iregs s' w n = iregs s w n) /\
  system_in_interrupt_context s' = system_in_interrupt_context s /\
  active_thread_context_stack_pointer s' = active_thread_context_stack_pointer s /\
  detected_sparc_register_windows s' = detected_sparc_register_windows s.

(** The forced underflow of the outermost exit.  With the window above the
    trap window marked invalid, as the dump leaves it, the routine moves WIM
    one place to the left, loads the sixteen registers of the window above
    from the save area at its stack pointer (the restored %i6 of the trap
    window), and comes back to the trap window without entering an invalid
    window; the store is only read. *)
Lemma outermost_force_window_underflow_spec (s : State) (k : Z) :
  NWINDOWS = 2 ^ k -> 2 <= k <= 5 -> 0 <= cwp s < NWINDOWS -> 0 <= psr s < 2 ^ 32 ->
  detected_sparc_register_windows s = NWINDOWS ->
  wim_bits NWINDOWS (wim s) = 2 ^ win_above NWINDOWS (cwp s) ->
  exists s' : State,
    outermost_force_window_underflow NWINDOWS
      SPARC_STACK_BARE_MINIMUM_STACK_FRAME_RESERVATION_SIZE
      detected_sparc_register_windows_addr s = Ok s' /\
    wim s' = 2 ^ win_above NWINDOWS (win_above NWINDOWS (cwp s)) /\
    window_contents s' (win_above NWINDOWS (cwp s))
    = map (mem s) (window_words (iregs s (cwp s) 6%nat)) /\
    get_reg NWINDOWS s' sp
    = wrap32 (iregs s (cwp s) 6%nat
              + SPARC_STACK_BARE_MINIMUM_STACK_FRAME_RESERVATION_SIZE) /\
    underflow_frame s s'.
Proof.
  intros HN Hk Hw Hp Hd Hwim.
  assert (HN4 : 4 <= NWINDOWS <= 32).
  { rewrite HN. split.
    - change 4 with (2 ^ 2). apply Z.pow_le_mono_r; lia.
    - change 32 with (2 ^ 5). apply Z.pow_le_mono_r; lia. }
  pose proof (win_above_range (cwp s) ltac:(lia)) as Har.
  pose proof (win_above_range (win_above NWINDOWS (cwp s)) ltac:(lia)) as Haar.
  pose proof (win_below_range (cwp s) ltac:(lia)) as Hbr.
  pose proof (win_above_neq (cwp s) ltac:(lia) Hw) as Ha.
  pose proof (win_above_neq (win_above NWINDOWS (cwp s)) ltac:(lia) Har) as Haa.
  pose proof (win_below_above (cwp s) ltac:(lia) Hw) as Hba.
  assert (Hac : win_above NWINDOWS (win_above NWINDOWS (cwp s)) <> cwp s)
    by window_arith.
  assert (Hab : win_above NWINDOWS (cwp s) <> win_below NWINDOWS (cwp s))
    by window_arith.
  assert (Ha32 : 0 <= win_above NWINDOWS (cwp s) < 32) by lia.
  assert (Hw32 : 0 <= cwp s < 32) by lia.
  unfold outermost_force_window_underflow, rotate_wim_left, underflow_frame,
    window_contents, window_words, window_offsets. cbn [app]. cbv zeta.
  destruct s. mach_obs_in Hw. mach_obs_in Har. mach_obs_in Haar.
  mach_obs_in Ha. mach_obs_in Haa. mach_obs_in Hba. mach_obs_in Hac. mach_obs_in Hab.
  mach_obs_in Hd. mach_obs_in Hwim. mach_obs_in Hp. mach_obs_in Ha32.
  mach_obs_in Hw32. mach_obs_in Hbr. subst detected_sparc_register_windows0.
  mach.
  unfold restore_. cbv zeta. mach_obs.
  rewrite Hwim, rotated_left_wim by lia.
  rewrite wim_bits_window, Z.pow2_bits_eqb by lia.
  rewrite (proj2 (Z.eqb_neq _ _) Haa).
  cbv beta iota delta [bind].
  fold (moved_psr psr0 (win_above NWINDOWS (Z.land psr0 SPARC_PSR_CWP_MASK))).
  unfold load_window.
  mach_with ltac:(rewrite ?(moved_psr_cwp _ _ Ha32), ?Hba,
                    ?(upd2_window _ _ _ _ _ _ (not_eq_sym Ha))).
  unfold save_. cbv zeta. mach_obs.
  rewrite ?(moved_psr_cwp _ _ Ha32), ?Hba.
  rewrite wim_bits_window, Z.pow2_bits_eqb by lia.
  rewrite (proj2 (Z.eqb_neq _ _) Hac).
  fold (moved_psr (moved_psr psr0 (win_above NWINDOWS (Z.land psr0 SPARC_PSR_CWP_MASK)))
                  (Z.land psr0 SPARC_PSR_CWP_MASK)).
  rewrite moved_psr_back by lia.
  rewrite ?(upd2_window _ _ _ _ _ _ (not_eq_sym Ha)).
  eexists. split; [reflexivity|].
  mach_obs. rewrite ?moved_psr_back by lia.
  addr_norm. cbn [map app].
  repeat split; try reflexivity.
  - rewrite ?(upd2_window _ _ _ _ _ _ Hab). mach_reads. reflexivity.
  - intros n Hn. rewrite !(upd2_window _ _ _ _ _ _ (not_eq_sym Ha)).
    small_index; mach_reads; reflexivity.
  - intros w n Hwc Hwa. rewrite !upd2_window by assumption. reflexivity.
  - intros w n Hwa [Hwb|Hn6].
    + rewrite !upd2_window by assumption. reflexivity.
    + rewrite upd2_other by (apply Nat.eqb_neq; exact Hn6).
      rewrite !upd2_window by assumption. reflexivity.
Qed.

(** *** The return from the trap *)

(** The PSR after [mov %l0, %psr ; jmp ; rett]: %l0 with the window pointer
    moved to [w], traps enabled, and the supervisor bit taken from the
    previous-supervisor bit. *)
Definition returned_psr (l0 w : Z) : Z :=
  let p2 := Z.lor (moved_psr l0 w) SPARC_PSR_ET_MASK in
  if Z.testbit l0 6 then Z.lor p2 0x80
  else Z.land p2 (Z.lxor 0x80 0xffffffff).

Lemma testbit_0x80 (n : Z) : 0 <= n -> Z.testbit 0x80 n = (n =? 7).
Proof.
  intros Hn. change 0x80 with (2 ^ 7). rewrite Z.pow2_bits_eqb by lia.
  apply Z.eqb_sym.
Qed.

Lemma returned_psr_bits (l0 w n : Z) :
  0 <= w < 32 -> 0 <= n ->
  Z.testbit (returned_psr l0 w) n =
  if n <? 5 then Z.testbit w n
  else if n =? 5 then true
  else if n =? 7 then Z.testbit l0 6
  else (n <? 32) && Z.testbit l0 n.
Proof.
  intros Hw Hn. unfold returned_psr, moved_psr. cbv zeta.
  destruct (Z.testbit l0 6) eqn:E6; bits_spec; rewrite ?testbit_0x80 by lia;
    (destruct (Z.ltb_spec n 5);
     [|rewrite (testbit_small w n) by lia]);
    bits_cases; try lia;
    destruct (Z.testbit l0 n), (Z.testbit w n); reflexivity.
Qed.

Lemma returned_psr_cwp (l0 w : Z) :
  0 <= w < 32 -> Z.land (returned_psr l0 w) SPARC_PSR_CWP_MASK = w.
Proof.
  intros Hw. apply Z.bits_inj'. intros n Hn.
  rewrite Z.land_spec, returned_psr_bits, testbit_CWP_MASK by lia.
  destruct (Z.ltb_spec n 5).
  - apply andb_true_r.
  - rewrite andb_false_r. symmetry. apply testbit_small; lia.
Qed.

Lemma returned_psr_et (l0 w : Z) :
  0 <= w < 32 -> psr_et (returned_psr l0 w) = true.
Proof.
  intros Hw. unfold psr_et. rewrite returned_psr_bits by lia. reflexivity.
Qed.

Lemma returned_psr_pil (l0 w : Z) :
  0 <= w < 32 -> psr_pil (returned_psr l0 w) = psr_pil l0.
Proof.
  intros Hw. apply Z.bits_inj'. intros n Hn.
  rewrite !testbit_psr_pil, returned_psr_bits by lia.
  destruct (Z.ltb_spec n 4); [|reflexivity]. cbn [andb].
  destruct (Z.ltb_spec (n + 8) 5), (Z.eqb_spec (n + 8) 5), (Z.eqb_spec (n + 8) 7),
    (Z.ltb_spec (n + 8) 32); try lia. reflexivity.
Qed.

(** Where [common_return_from_trap] resumes, when %l0 designates the
    current window and the window above it is valid. *)
Lemma common_return_from_trap_spec (s : State) :
  2 <= NWINDOWS <= 32 -> window_ok s ->
  Z.testbit (wim_bits NWINDOWS (wim s)) (win_above NWINDOWS (cwp s)) = false ->
  exists s' : State,
    common_return_from_trap NWINDOWS s = Ok s' /\
    pc s' = get_reg NWINDOWS s (L 1) /\
    npc s' = get_reg NWINDOWS s (L 2) /\
    psr s' = returned_psr (get_reg NWINDOWS s (L 0)) (win_above NWINDOWS (cwp s)) /\
    cwp s' = win_above NWINDOWS (cwp s) /\
    gregs s' = gregs s /\ lregs s' = lregs s /\ iregs s' = iregs s /\
    mem s' = mem s /\ wim s' = wim s /\ yreg s' = yreg s /\
    system_in_interrupt_context s' = system_in_interrupt_context s /\
    active_thread_context_stack_pointer s' = active_thread_context_stack_pointer s /\
    detected_sparc_register_windows s' = detected_sparc_register_windows s.
Proof.
  intros HN (_ & Hw & H0) Hvalid.
  pose proof (win_above_range (cwp s) ltac:(lia)) as Har.
  unfold common_return_from_trap. cbv zeta.
  destruct s. mach_obs_in H0. mach_obs_in Hw. mach_obs_in Hvalid. mach_obs_in Har.
  mach_obs. rewrite H0, Hvalid.
  eexists. split; [reflexivity|].
  mach_obs. unfold returned_psr, moved_psr. cbv zeta.
  repeat split; try reflexivity.
  fold (moved_psr (lregs0 (Z.land psr0 SPARC_PSR_CWP_MASK) 0%nat)
          (win_above NWINDOWS (Z.land psr0 SPARC_PSR_CWP_MASK))).
  fold (returned_psr (lregs0 (Z.land psr0 SPARC_PSR_CWP_MASK) 0%nat)
          (win_above NWINDOWS (Z.land psr0 SPARC_PSR_CWP_MASK))).
  apply returned_psr_cwp. lia.
Qed.

(** *** Restoring a saved context *)

(** A status word restored partially: each of its 32 bits is the bit of the
    current PSR where the bit is designated non-restorable, and the bit of
    the archived word elsewhere. *)
Definition partially_restored (current archived restored : Z) : Prop :=
  forall i, 0 <= i < 32 ->
    Z.testbit restored i =
    if Z.testbit SPARC_NON_RESTORABLE_BITS_IN_PSR i
    then Z.testbit current i else Z.testbit archived i.

(** C2: both restores leave in %l0 a status word restored partially, made
    of the designated bits of the PSR at restore time and of the other bits
    of the archived word, and recover %g1-%g7, %i0-%i7, Y, PC and nPC
    verbatim from the record.  The PSR at restore time is %l0, which the
    first instruction after the call has just written to it.  The outermost
    restore computes the word with the mask.  The nested restore reloads
    %l0 with the archived word as it is, which is that same word whenever
    the designated bits of the archived word are those of the PSR at
    restore time; they are for the record the nested save wrote, when the
    collaborator returns with the record and %l0 as they were.
    [common_return_from_trap] then installs %l0 as the PSR, but for the
    window pointer, the trap-enable bit and the supervisor bit that RETT
    sets.  So restoring after saving gives back every archived field, and
    a status word with the designated bits of the PSR at restore time and
    the other bits of the value saved. *)
Theorem context_restore :
  (forall s : State,
      window_ok s ->
      let s' := outermost_restore s in
      let ctx := active_thread_context_stack_pointer s in
      psr s' = get_reg NWINDOWS s (L 0) /\
      partially_restored (psr s') (mem s (wrap32 (ctx + 0))) (get_reg NWINDOWS s' (L 0)) /\
      restored_fields s' = map (mem s) (tl (context_words ctx))) /\
  (forall s : State,
      window_ok s ->
      let s' := nested_restore s in
      let rec := wrap32 (get_reg NWINDOWS s sp +
                         SPARC_STACK_BARE_MINIMUM_STACK_FRAME_RESERVATION_SIZE) in
      Z.land (mem s (wrap32 (rec + 0))) SPARC_NON_RESTORABLE_BITS_IN_PSR =
      Z.land (get_reg NWINDOWS s (L 0)) SPARC_NON_RESTORABLE_BITS_IN_PSR ->
      psr s' = get_reg NWINDOWS s (L 0) /\
      get_reg NWINDOWS s' (L 0) = mem s (wrap32 (rec + 0)) /\
      partially_restored (psr s') (mem s (wrap32 (rec + 0))) (get_reg NWINDOWS s' (L 0)) /\
      restored_fields s' = map (mem s) (tl (context_words rec))) /\
  (forall s : State,
      2 <= NWINDOWS <= 32 -> window_ok s ->
      psr_et (get_reg NWINDOWS s (L 0)) = false ->
      Z.testbit (wim_bits NWINDOWS (wim s)) (win_above NWINDOWS (cwp s)) = false ->
      exists s' : State,
        common_return_from_trap NWINDOWS s = Ok s' /\
        psr s' = returned_psr (get_reg NWINDOWS s (L 0)) (win_above NWINDOWS (cwp s)) /\
        (forall n, n = 6 \/ 8 <= n < 32 ->
           Z.testbit (psr s') n = Z.testbit (get_reg NWINDOWS s (L 0)) n) /\
        psr_pil (psr s') = psr_pil (get_reg NWINDOWS s (L 0))) /\
  (forall s s2 : State,
      2 <= NWINDOWS -> 0 <= cwp s < NWINDOWS ->
      window_ok s2 ->
      get_reg NWINDOWS s2 sp =
        wrap32 (nested_save_destination s -
                SPARC_STACK_BARE_MINIMUM_STACK_FRAME_RESERVATION_SIZE) ->
      (forall a, In a (context_words (nested_save_destination s)) ->
         mem s2 a =
         mem (run (nested_no_window_overflow NWINDOWS
                     SPARC_STACK_BASE_CONTEXT_RESERVATION_SIZE) s) a) ->
      get_reg NWINDOWS s2 (L 0) = get_reg NWINDOWS s (L 0) ->
      let s' := nested_restore s2 in
      get_reg NWINDOWS s' (L 0) = get_reg NWINDOWS s (L 0) /\
      partially_restored (psr s') (get_reg NWINDOWS s (L 0)) (get_reg NWINDOWS s' (L 0)) /\
      restored_fields s' = restored_fields s) /\
  (forall s s2 : State,
      window_ok s2 ->
      active_thread_context_stack_pointer s2 = outermost_save_destination s ->
      (forall a, In a (context_words (outermost_save_destination s)) ->
         mem s2 a =
         mem (outermost_save_context NWINDOWS
                active_thread_context_stack_pointer_addr
                sparcNullTaskContextData s) a) ->
      let s' := outermost_restore s2 in
      psr s' = get_reg NWINDOWS s2 (L 0) /\
      partially_restored (psr s') (get_reg NWINDOWS s (L 0)) (get_reg NWINDOWS s' (L 0)) /\
      restored_fields s' = tl (outermost_archive s)).
Proof.
  split; [|split; [|split; [|split]]].
  - intros s Hw. cbv zeta.
    destruct (outermost_restore_spec s Hw) as (Hp & H0 & Hf & _).
    split; [exact Hp|]. split; [|exact Hf].
    intros i Hi. rewrite H0. apply filtered_psr_bits. exact Hi.
  - intros s Hw. cbv zeta. intros Hagree.
    destruct (nested_restore_spec s Hw) as (Hp & H0 & Hf & _).
    split; [exact Hp|]. split; [exact H0|]. split; [|exact Hf].
    intros i Hi. rewrite H0, Hp.
    destruct (Z.testbit SPARC_NON_RESTORABLE_BITS_IN_PSR i) eqn:En; [|reflexivity].
    apply (f_equal (fun x => Z.testbit x i)) in Hagree.
    rewrite !Z.land_spec, En, !andb_true_r in Hagree. exact Hagree.
  - intros s HN Hw Het Hvalid.
    destruct (common_return_from_trap_spec s HN Hw Hvalid)
      as (s' & Hrun & _ & _ & Hpsr & _).
    pose proof (win_above_range (cwp s) ltac:(lia)) as Har.
    exists s'. split; [exact Hrun|]. split; [exact Hpsr|]. split.
    + intros n Hn. rewrite Hpsr, returned_psr_bits by lia.
      destruct (Z.ltb_spec n 5), (Z.eqb_spec n 5), (Z.eqb_spec n 7), (Z.ltb_spec n 32);
        try lia; reflexivity.
    + rewrite Hpsr. apply returned_psr_pil. lia.
  - intros s s2 HN Hc Hw Hsp Hmem Hl0. cbv zeta.
    destruct (nested_restore_spec s2 Hw) as (Hp & H0 & Hf & _).
    assert (E : get_reg NWINDOWS (nested_restore s2) (L 0) = get_reg NWINDOWS s (L 0) /\
                restored_fields (nested_restore s2) = restored_fields s).
    { rewrite H0, Hf, Hsp. unfold nested_save_destination at 1 2.
      rewrite wrap32_sub_add. fold (nested_save_destination s).
      destruct (map_tl_context_words _ _ _ Hmem) as [E0 Et].
      rewrite E0, Et, nested_no_window_overflow_archive by assumption.
      pose proof (nested_no_window_overflow_archive s HN Hc) as Ha.
      apply (f_equal (hd 0)) in Ha. cbn [context_words saved_offsets map hd] in Ha.
      rewrite Ha. split; reflexivity. }
    destruct E as [E1 E2]. split; [exact E1|]. split; [|exact E2].
    intros i Hi. rewrite E1, Hp, Hl0.
    destruct (Z.testbit SPARC_NON_RESTORABLE_BITS_IN_PSR i); reflexivity.
  - intros s s2 Hw Hact Hmem. cbv zeta.
    destruct (outermost_restore_spec s2 Hw) as (Hp & H0 & Hf & _).
    destruct (outermost_save_context_spec s) as (_ & Harch & _).
    split; [exact Hp|].
    rewrite H0, Hf, Hact.
    destruct (map_tl_context_words _ _ _ Hmem) as [E0 Et].
    rewrite E0, Et, Harch.
    apply (f_equal (hd 0)) in Harch.
    cbn [context_words saved_offsets map hd] in Harch.
    rewrite Harch. split; [|reflexivity].
    intros i Hi. apply filtered_psr_bits. exact Hi.
Qed.

(** What the interrupted code finds when it resumes: %g1 to %g7, its outs
    (the ins of the trap window), Y, and the two addresses it continues
    at. *)
Definition resumed_fields (s : State) : list Z :=
  [ get_reg NWINDOWS s (G 1); get_reg NWINDOWS s (G 2); get_reg NWINDOWS s (G 3);
    get_reg NWINDOWS s (G 4); get_reg NWINDOWS s (G 5);
    get_reg NWINDOWS s (G 6); get_reg NWINDOWS s (G 7);
    get_reg NWINDOWS s (O 0); get_reg NWINDOWS s (O 1);
    get_reg NWINDOWS s (O 2); get_reg NWINDOWS s (O 3);
    get_reg NWINDOWS s (O 4); get_reg NWINDOWS s (O 5);
    get_reg NWINDOWS s (O 6); get_reg NWINDOWS s (O 7);
    yreg s;
    pc s; npc s ].

(** From the restored fields in the trap window to what the resumed code
    sees one window up. *)
Lemma resumed_after_return (s1 s2 s' : State) :
  2 <= NWINDOWS -> 0 <= cwp s1 < NWINDOWS ->
  psr s2 = psr s1 -> yreg s2 = yreg s1 ->
  (forall n, gregs s2 n = gregs s1 n) ->
  (forall n, (n < 4)%nat -> lregs s2 (cwp s1) n = lregs s1 (cwp s1) n) ->
  (forall n, iregs s2 (cwp s1) n = iregs s1 (cwp s1) n) ->
  pc s' = get_reg NWINDOWS s2 (L 1) -> npc s' = get_reg NWINDOWS s2 (L 2) ->
  cwp s' = win_above NWINDOWS (cwp s2) ->
  gregs s' = gregs s2 -> iregs s' = iregs s2 -> yreg s' = yreg s2 ->
  resumed_fields s' = restored_fields s1.
Proof.
  intros HN Hw Hp Hy Hg Hl Hi Hpc Hnpc Hc Eg Ei Ey.
  assert (Hc2 : cwp s2 = cwp s1) by (unfold cwp; rewrite Hp; reflexivity).
  unfold resumed_fields, restored_fields, get_reg in *.
  rewrite Hpc, Hnpc, Hc, Eg, Ei, Ey, Hc2, win_below_above, Hy by lia.
  rewrite !Hg, !Hi, !Hl by lia. reflexivity.
Qed.

(** The nested exit resumes the interrupted code.  With one invalid window,
    and with the window pointer of the archived PSR that of the trap
    window, the exit half of a nested instance comes back without entering
    an invalid window, continues at the resume pair of its stack record,
    one window up, with traps enabled and the interrupt level of the
    archived PSR, and with the globals, the outs of the resumed window and
    Y as the record has them; it does not write the store or the flag. *)
Lemma nested_exit_spec (s : State) (k v : Z) :
  NWINDOWS = 2 ^ k -> 2 <= k <= 5 -> window_ok s ->
  0 <= get_reg NWINDOWS s (L 0) < 2 ^ 32 ->
  detected_sparc_register_windows s = NWINDOWS ->
  0 <= v < NWINDOWS -> wim_bits NWINDOWS (wim s) = 2 ^ v ->
  let rec := wrap32 (get_reg NWINDOWS s sp +
                     SPARC_STACK_BARE_MINIMUM_STACK_FRAME_RESERVATION_SIZE) in
  Z.land (mem s (wrap32 (rec + 0))) SPARC_PSR_CWP_MASK = cwp s ->
  exists s' : State,
    exit_half Nested s = Ok s' /\
    resumed_fields s' = map (mem s) (tl (context_words rec)) /\
    psr s' = returned_psr (mem s (wrap32 (rec + 0))) (win_above NWINDOWS (cwp s)) /\
    cwp s' = win_above NWINDOWS (cwp s) /\
    psr_et (psr s') = true /\
    psr_pil (psr s') = psr_pil (mem s (wrap32 (rec + 0))) /\
    mem s' = mem s /\ flag s' = flag s.
Proof.
  intros HN Hk Hok Hl0 Hd Hv Hwim. cbv zeta.
  assert (HN4 : 4 <= NWINDOWS <= 32).
  { rewrite HN. split.
    - change 4 with (2 ^ 2). apply Z.pow_le_mono_r; lia.
    - change 32 with (2 ^ 5). apply Z.pow_le_mono_r; lia. }
  destruct (nested_restore_spec s Hok) as (Rp & R0 & Rf & Rflag & Rm & Rw & _ & Rd).
  destruct Hok as (HN2 & Hw & H0).
  unfold exit_half, trap_exit_half, nested_exit. cbv zeta.
  fold (nested_restore s).
  revert Rp R0 Rf Rflag Rm Rw Rd.
  generalize (nested_restore s).
  generalize (wrap32 (get_reg NWINDOWS s sp +
                      SPARC_STACK_BARE_MINIMUM_STACK_FRAME_RESERVATION_SIZE)).
  intros rec s1 Rp R0 Rf Rflag Rm Rw Rd Hrec.
  assert (Hc1 : cwp s1 = cwp s) by (unfold cwp at 1; rewrite Rp; exact H0).
  assert (Hok1 : window_ok s1).
  { split; [exact HN2|]. split; [rewrite Hc1; exact Hw|].
    rewrite R0, Hc1. exact Hrec. }
  assert (Hp1 : 0 <= psr s1 < 2 ^ 32) by (rewrite Rp; exact Hl0).
  assert (Hd1 : detected_sparc_register_windows s1 = NWINDOWS) by congruence.
  pose proof (win_above_range (cwp s1) ltac:(lia)) as Har.
  pose proof (win_above_range (win_above NWINDOWS (cwp s1)) ltac:(lia)) as Haar.
  pose proof (win_above_neq (cwp s1) ltac:(lia) ltac:(rewrite Hc1; exact Hw)) as Ha.
  pose proof (win_above_neq (win_above NWINDOWS (cwp s1)) ltac:(lia) Har) as Haa.
  assert (Hstep : exists s2 : State,
            nested_skip_restoring_invalid_window NWINDOWS
              detected_sparc_register_windows_addr s1 = Ok s2 /\
            refill_step_frame s1 s2 /\
            Z.testbit (wim_bits NWINDOWS (wim s2)) (win_above NWINDOWS (cwp s1)) = false).
  { destruct (Z.eq_dec (wim_bits NWINDOWS (wim s1)) (2 ^ win_above NWINDOWS (cwp s1)))
      as [E|E].
    - destruct (nested_exit_refill s1 k HN Hk Hok1 Hp1 Hd1 E) as (s2 & Hrun & Hw2 & _ & Hf).
      exists s2. split; [exact Hrun|]. split; [exact Hf|].
      rewrite Hw2, wim_bits_window, Z.pow2_bits_eqb by lia.
      apply Z.eqb_neq. exact Haa.
    - destruct (nested_exit_no_refill s1 k HN ltac:(lia) Hok1 Hd1 E)
        as (s2 & Hrun & Hw2 & _ & _ & Hf).
      exists s2. split; [exact Hrun|]. split; [exact Hf|].
      rewrite Hw2, Rw, Hwim, Z.pow2_bits_eqb by lia.
      apply Z.eqb_neq. intros Ev. apply E. rewrite Rw, Hwim, Ev. reflexivity. }
  destruct Hstep as (s2 & Hrun & Hf & Hvalid).
  rewrite Hrun. cbn [bind].
  destruct Hf as (Fp & Fm & Fy & Fg & Fl & _ & Fi & Fflag & _ & _).
  assert (Hc2 : cwp s2 = cwp s1) by (unfold cwp; rewrite Fp; reflexivity).
  assert (E0 : get_reg NWINDOWS s2 (L 0) = mem s (wrap32 (rec + 0))).
  { unfold get_reg. rewrite Hc2, Fl by lia. exact R0. }
  assert (Hok2 : window_ok s2).
  { split; [exact HN2|]. split; [rewrite Hc2, Hc1; exact Hw|].
    rewrite E0, Hc2, Hc1. exact Hrec. }
  rewrite <- Hc2 in Hvalid.
  destruct (common_return_from_trap_spec s2 ltac:(lia) Hok2 Hvalid)
    as (s' & Hret & Epc & Enpc & Epsr & Ec & Eg & _ & Ei & Em & _ & Ey & Eflag & _ & _).
  exists s'. split; [exact Hret|].
  rewrite Hc2, Hc1 in Epsr, Ec. rewrite E0 in Epsr.
  split.
  { rewrite <- Rf.
    apply (resumed_after_return s1 s2 s'); try assumption; try lia.
    - intros n. apply Fi. apply not_eq_sym. exact Ha.
    - rewrite Ec, Hc2, Hc1. reflexivity. }
  split; [exact Epsr|]. split; [exact Ec|].
  pose proof (win_above_range (cwp s) ltac:(lia)) as Har0.
  rewrite Epsr.
  split; [apply returned_psr_et; lia|].
  split; [apply returned_psr_pil; lia|].
  split; congruence.
Qed.

(** The outermost exit resumes the active thread.  Entered after the
    collaborator with the window above the trap window marked invalid (as
    the dump left it) and a filtered status register that still designates
    the trap window, the exit half of the outermost instance clears the
    flag, reloads the window above the trap window from the save area at
    the stack pointer the context record holds, moves WIM one place to the
    left, and continues at the resume pair of the record designated by the
    active context pointer, one window up, with traps enabled, and with the
    globals, the outs of the resumed window and Y as that record has
    them.  It reads the store without writing it. *)
Lemma outermost_exit_spec (s : State) (k : Z) :
  NWINDOWS = 2 ^ k -> 2 <= k <= 5 -> window_ok s ->
  0 <= get_reg NWINDOWS s (L 0) < 2 ^ 32 ->
  detected_sparc_register_windows s = NWINDOWS ->
  wim_bits NWINDOWS (wim s) = 2 ^ win_above NWINDOWS (cwp s) ->
  let ctx := active_thread_context_stack_pointer s in
  let l0 := filtered_psr (get_reg NWINDOWS s (L 0)) (mem s (wrap32 (ctx + 0))) in
  Z.land l0 SPARC_PSR_CWP_MASK = cwp s ->
  exists s' : State,
    exit_half Outermost s = Ok s' /\
    resumed_fields s' = map (mem s) (tl (context_words ctx)) /\
    psr s' = returned_psr l0 (win_above NWINDOWS (cwp s)) /\
    cwp s' = win_above NWINDOWS (cwp s) /\
    psr_et (psr s') = true /\
    psr_pil (psr s') = psr_pil l0 /\
    wim s' = 2 ^ win_above NWINDOWS (win_above NWINDOWS (cwp s)) /\
    window_contents s' (win_above NWINDOWS (cwp s))
    = map (mem s) (window_words (mem s (wrap32 (ctx + 56)))) /\
    mem s' = mem s /\ flag s' = 0.
Proof.
  intros HN Hk Hok Hl0 Hd Hwim. cbv zeta.
  assert (HN4 : 4 <= NWINDOWS <= 32).
  { rewrite HN. split.
    - change 4 with (2 ^ 2). apply Z.pow_le_mono_r; lia.
    - change 32 with (2 ^ 5). apply Z.pow_le_mono_r; lia. }
  destruct (outermost_restore_spec s Hok) as (Rp & R0 & Rf & Rflag & Rm & Rw & _ & Rd).
  destruct Hok as (HN2 & Hw & H0).
  unfold exit_half, trap_exit_half, outermost_exit. cbv zeta.
  fold (outermost_restore s).
  rewrite Rp in R0.
  revert Rp R0 Rf Rflag Rm Rw Rd.
  generalize (outermost_restore s).
  generalize (filtered_psr (get_reg NWINDOWS s (L 0))
                (mem s (wrap32 (active_thread_context_stack_pointer s + 0)))).
  intros l0 s1 Rp R0 Rf Rflag Rm Rw Rd Hctx.
  assert (Hc1 : cwp s1 = cwp s) by (unfold cwp at 1; rewrite Rp; exact H0).
  assert (Hp1 : 0 <= psr s1 < 2 ^ 32) by (rewrite Rp; exact Hl0).
  assert (Hd1 : detected_sparc_register_windows s1 = NWINDOWS) by congruence.
  assert (Hw1 : 0 <= cwp s1 < NWINDOWS) by (rewrite Hc1; exact Hw).
  assert (Hwim1 : wim_bits NWINDOWS (wim s1) = 2 ^ win_above NWINDOWS (cwp s1))
    by (rewrite Rw, Hc1; exact Hwim).
  pose proof (win_above_range (cwp s1) ltac:(lia)) as Har.
  pose proof (win_above_range (win_above NWINDOWS (cwp s1)) ltac:(lia)) as Haar.
  pose proof (win_above_neq (cwp s1) ltac:(lia) Hw1) as Ha.
  pose proof (win_above_neq (win_above NWINDOWS (cwp s1)) ltac:(lia) Har) as Haa.
  pose proof (win_below_neq (cwp s1) ltac:(lia) Hw1) as Hb.
  destruct (outermost_force_window_underflow_spec s1 k HN Hk Hw1 Hp1 Hd1 Hwim1)
    as (s2 & Hrun & Hw2 & Hcont & _ & Hf).
  rewrite Hrun. cbn [bind].
  destruct Hf as (Fp & Fm & Fy & Fg & Fl & _ & Fi & Fflag & _ & _).
  assert (Hc2 : cwp s2 = cwp s1) by (unfold cwp; rewrite Fp; reflexivity).
  assert (E0 : get_reg NWINDOWS s2 (L 0) = l0).
  { rewrite <- R0. unfold get_reg. rewrite Hc2. apply Fl. lia. }
  assert (Hok2 : window_ok s2).
  { split; [exact HN2|]. split; [rewrite Hc2; exact Hw1|].
    rewrite E0, Hc2, Hc1. exact Hctx. }
  assert (Hvalid : Z.testbit (wim_bits NWINDOWS (wim s2)) (win_above NWINDOWS (cwp s2))
                   = false).
  { rewrite Hw2, Hc2, wim_bits_window, Z.pow2_bits_eqb by lia.
    apply Z.eqb_neq. exact Haa. }
  destruct (common_return_from_trap_spec s2 ltac:(lia) Hok2 Hvalid)
    as (s' & Hret & Epc & Enpc & Epsr & Ec & Eg & El & Ei & Em & Ew & Ey & Eflag & _ & _).
  exists s'. split; [exact Hret|].
  rewrite Hc2, Hc1 in Epsr, Ec. rewrite E0 in Epsr.
  split.
  { rewrite <- Rf.
    apply (resumed_after_return s1 s2 s'); try assumption; try lia.
    - intros n. apply Fi; [apply not_eq_sym; exact Ha|].
      left. apply not_eq_sym. exact Hb.
    - rewrite Ec, Hc2, Hc1. reflexivity. }
  split; [exact Epsr|]. split; [exact Ec|].
  pose proof (win_above_range (cwp s) ltac:(lia)) as Har0.
  split; [rewrite Epsr; apply returned_psr_et; lia|].
  split; [rewrite Epsr; apply returned_psr_pil; lia|].
  split; [rewrite Ew, Hw2, Hc1; reflexivity|].
  split.
  { unfold window_contents in *. rewrite El, Ei, <- Hc1, Hcont, Rm.
    apply (f_equal (fun l => nth 13 l 0)) in Rf.
    unfold restored_fields, context_words, saved_offsets in Rf.
    cbn [map tl nth] in Rf. unfold get_reg in Rf. rewrite Rf. reflexivity. }
  split; congruence.
Qed.

(** *** A nested instance from entry to exit *)

(** The stack frame of the collaborator: the nested case lowers the stack
    pointer of the trap window by the bare frame size, and leaves WIM and
    the window count alone. *)
Lemma nested_call_stack (s : State) :
  get_reg NWINDOWS s (L 0) = psr s ->
  let s' := nested_call NWINDOWS SPARC_STACK_BARE_MINIMUM_STACK_FRAME_RESERVATION_SIZE s in
  get_reg NWINDOWS s' sp
  = wrap32 (get_reg NWINDOWS s sp
            - SPARC_STACK_BARE_MINIMUM_STACK_FRAME_RESERVATION_SIZE) /\
  wim s' = wim s /\
  detected_sparc_register_windows s' = detected_sparc_register_windows s.
Proof.
  intros H0. unfold nested_call. cbv zeta.
  destruct (selected_callee _ _);
    unfold nested_set_interrupt_handler_caller_address,
      nested_set_task_context_replacement_handler_address;
    destruct s; mach_obs_in H0;
    mach_with ltac:(rewrite ?raised_psr_cwp_1, ?raised_psr_cwp, ?enabled_psr_cwp, ?H0);
    rewrite ?enabled_psr_cwp, ?raised_psr_cwp_1; mach_reads;
    repeat split; reflexivity.
Qed.

Lemma nested_entry_unfold (s : State) :
  nested_entry NWINDOWS SPARC_STACK_BARE_MINIMUM_STACK_FRAME_RESERVATION_SIZE
    SPARC_STACK_BASE_CONTEXT_RESERVATION_SIZE
    detected_sparc_register_windows_addr s
  = (do s1 <- nested_free_one_window NWINDOWS detected_sparc_register_windows_addr s;
     Ok (nested_call NWINDOWS SPARC_STACK_BARE_MINIMUM_STACK_FRAME_RESERVATION_SIZE
           (run (nested_no_window_overflow NWINDOWS
                   SPARC_STACK_BASE_CONTEXT_RESERVATION_SIZE) s1))).
Proof. reflexivity. Qed.

(** X12: a nested instance is transparent to the code it interrupts.
    Entered in the nested case on a machine whose number of windows is a
    power of two and at least four, and provided the collaborator returns
    in the window it was called in, with the stack pointer and %l0 of that
    window and the nineteen words of the stack record as they were, and
    with one invalid window: the exit half comes back and resumes at the
    resume pair of the entry, one window up, with %g1 to %g7, the outs of
    the resumed window and Y as they were at the entry, and with the PSR of
    the entry but for the window pointer, the trap-enable bit and the
    supervisor bit that the return sets. *)
Theorem nested_trap_is_transparent (s s1 s2 : State) (k v : Z) :
  NWINDOWS = 2 ^ k -> 2 <= k <= 5 -> machine_ok s ->
  nested_entry NWINDOWS SPARC_STACK_BARE_MINIMUM_STACK_FRAME_RESERVATION_SIZE
    SPARC_STACK_BASE_CONTEXT_RESERVATION_SIZE
    detected_sparc_register_windows_addr s = Ok s1 ->
  cwp s2 = cwp s1 ->
  get_reg NWINDOWS s2 sp = get_reg NWINDOWS s1 sp ->
  get_reg NWINDOWS s2 (L 0) = get_reg NWINDOWS s1 (L 0) ->
  (forall a, In a (context_words (nested_save_destination s)) -> mem s2 a = mem s1 a) ->
  detected_sparc_register_windows s2 = NWINDOWS ->
  0 <= v < NWINDOWS -> wim_bits NWINDOWS (wim s2) = 2 ^ v ->
  exists s' : State,
    exit_half Nested s2 = Ok s' /\
    resumed_fields s' = restored_fields s /\
    psr s' = returned_psr (psr s) (win_above NWINDOWS (cwp s)) /\
    cwp s' = win_above NWINDOWS (cwp s) /\
    mem s' = mem s2.
Proof.
  intros HN Hk Hok Hentry Hc2 Hsp2 Hl2 Hmem2 Hd2 Hv Hwim2.
  pose proof Hok as (HN32 & Hp & Hd & Hent).
  pose proof (entry_arrangement_window_ok s Hent) as Hwok.
  destruct Hent as (HN2 & Hw & H0).
  rewrite nested_entry_unfold in Hentry.
  destruct (nested_free_one_window_cases s HN32 Hwok Hp Hd) as (sa & Hfree & Hs & _).
  rewrite Hfree in Hentry. cbn [bind] in Hentry. apply Ok_inj in Hentry.
  destruct Hs as (Fp & Fi & Fy & Fg & _ & Fl & _ & _ & _).
  assert (Eca : cwp sa = cwp s) by (unfold cwp; rewrite Fp; reflexivity).
  assert (Hwa : 0 <= cwp sa < NWINDOWS) by (rewrite Eca; exact Hw).
  assert (Edest : nested_save_destination sa = nested_save_destination s).
  { unfold nested_save_destination, get_reg, fp. rewrite Eca, Fi. reflexivity. }
  assert (Efields : restored_fields sa = restored_fields s).
  { unfold restored_fields, get_reg. rewrite Eca, Fi, Fy, !Fg, !Fl by lia. reflexivity. }
  pose proof (nested_no_window_overflow_archive sa HN2 Hwa) as Harch.
  destruct (nested_no_window_overflow_other sa HN2 Hwa)
    as (Ssp & _ & _ & Sp & _ & _ & _ & Sl & _).
  rewrite Edest in Harch, Ssp.
  revert Harch Ssp Sp Sl Hentry.
  generalize (run (nested_no_window_overflow NWINDOWS
                     SPARC_STACK_BASE_CONTEXT_RESERVATION_SIZE) sa).
  intros sb Harch Ssp Sp Sl Hentry.
  assert (E0b : get_reg NWINDOWS sb (L 0) = psr s).
  { rewrite Sl by discriminate. unfold get_reg. rewrite Eca, Fl by lia. exact H0. }
  assert (H0b : get_reg NWINDOWS sb (L 0) = psr sb) by congruence.
  destruct (nested_call_stack sb H0b) as (Csp & _ & _).
  destruct (nested_call_state sb H0b) as (_ & _ & Cc & Cl & _ & _).
  pose proof (proj2 (nested_call_keeps sb)) as Cm.
  rewrite Hentry in Csp, Cc, Cl, Cm.
  assert (Ec2 : cwp s2 = cwp s).
  { rewrite Hc2, Cc. unfold cwp. rewrite Sp, Fp. reflexivity. }
  assert (El2 : get_reg NWINDOWS s2 (L 0) = psr s) by congruence.
  assert (Erec : wrap32 (get_reg NWINDOWS s2 sp +
                         SPARC_STACK_BARE_MINIMUM_STACK_FRAME_RESERVATION_SIZE)
                 = nested_save_destination s).
  { rewrite Hsp2, Csp, Ssp. unfold nested_save_destination.
    rewrite wrap32_sub_add. reflexivity. }
  assert (Hmem : forall a, In a (context_words (nested_save_destination s)) ->
                           mem s2 a = mem sb a).
  { intros a Ha. rewrite Hmem2, Cm by exact Ha. reflexivity. }
  destruct (map_tl_context_words (mem s2) (mem sb) (nested_save_destination s) Hmem)
    as (Eword0 & Etl).
  rewrite Harch in Etl.
  assert (Eword : mem s2 (wrap32 (nested_save_destination s + 0)) = psr s).
  { rewrite Eword0.
    apply (f_equal (hd 0)) in Harch.
    cbn [context_words saved_offsets map hd nested_archive] in Harch.
    rewrite Harch. unfold get_reg. rewrite Eca, Fl by lia. exact H0. }
  assert (Hok2 : window_ok s2).
  { split; [exact HN2|]. split; [rewrite Ec2; exact Hw|].
    rewrite El2, Ec2. reflexivity. }
  pose proof (nested_exit_spec s2 k v HN Hk Hok2 ltac:(rewrite El2; exact Hp)
                Hd2 Hv Hwim2) as Hexit.
  cbv zeta in Hexit. rewrite Erec, Eword, Ec2 in Hexit.
  destruct (Hexit eq_refl) as (s' & Hrun & Hres & Hpsr & Hcwp & _ & _ & Hm & _).
  exists s'. split; [exact Hrun|].
  split; [rewrite Hres, Etl, <- Efields; reflexivity|].
  split; [exact Hpsr|]. split; [exact Hcwp|exact Hm].
Qed.

(** *** An entry half runs to the call *)

(** The stack frame of the collaborator in the outermost case: WIM, the
    window count and the active context pointer are as the save left
    them. *)
Lemma outermost_call_stack (s : State) :
  get_reg NWINDOWS s (L 0) = psr s ->
  let s' := outermost_call NWINDOWS
              SPARC_STACK_BARE_MINIMUM_STACK_FRAME_RESERVATION_SIZE s in
  wim s' = wim s /\
  detected_sparc_register_windows s' = detected_sparc_register_windows s /\
  active_thread_context_stack_pointer s' = active_thread_context_stack_pointer s.
Proof.
  intros H0. unfold outermost_call. cbv zeta.
  destruct (selected_callee _ _);
    unfold outermost_set_interrupt_handler_caller_address,
      outermost_set_task_context_replacement_handler_address;
    destruct s; mach_obs_in H0;
    mach_with ltac:(rewrite ?raised_psr_cwp_1, ?raised_psr_cwp, ?enabled_psr_cwp, ?H0);
    repeat split; reflexivity.
Qed.

(** What the outermost entry hands to the collaborator, when it comes
    back from the dump. *)
Lemma outermost_entry_call (s s1 : State) (k : Z) :
  NWINDOWS = 2 ^ k -> 1 <= k <= 5 -> machine_ok s ->
  outermost_entry NWINDOWS SPARC_STACK_BARE_MINIMUM_STACK_FRAME_RESERVATION_SIZE
    detected_sparc_register_windows_addr active_thread_context_stack_pointer_addr
    sparcNullTaskContextData s = Ok s1 ->
  cwp s1 = cwp s /\
  get_reg NWINDOWS s1 (L 0) = psr s /\
  wim s1 = 2 ^ win_above NWINDOWS (cwp s) /\
  flag s1 = flag s /\
  map (mem s1) (context_words (active_thread_context_stack_pointer s1))
  = nested_archive s.
Proof.
  intros HN Hk Hok. pose proof Hok as (_ & _ & _ & Hent).
  rewrite outermost_entry_unfold.
  destruct (outermost_dump s) as [s3| |] eqn:Hdump; cbn [bind]; try discriminate.
  intros H. apply Ok_inj in H.
  pose proof (outermost_dump_wim s s3 k HN Hk Hok Hdump) as Hw3.
  pose proof (outermost_dump_spec s s3 Hent Hdump) as Hd.
  pose proof (dumped_archive s s3 Hd) as Harch.
  destruct Hd as (Dp & _ & _ & Df & _ & _ & Dl & _).
  destruct (outermost_save_context_spec s3)
    as (_ & Sarch & Sact & Sf & Sp & Sw & _ & Sl).
  destruct Hent as (_ & _ & H0).
  revert Sarch Sact Sf Sp Sw Sl H.
  generalize (outermost_save_context NWINDOWS active_thread_context_stack_pointer_addr
                sparcNullTaskContextData s3).
  intros s4 Sarch Sact Sf Sp Sw Sl H.
  assert (E0 : get_reg NWINDOWS s4 (L 0) = psr s).
  { rewrite Sl by discriminate. rewrite (Dl 0%nat) by lia. exact H0. }
  assert (H04 : get_reg NWINDOWS s4 (L 0) = psr s4) by congruence.
  destruct (outermost_call_stack s4 H04) as (Cw & _ & Ca).
  destruct (outermost_call_state s4 H04) as (_ & _ & Cc & Cl & _ & _).
  destruct (outermost_call_keeps s4) as (Cf & Cm).
  rewrite H in Cw, Ca, Cc, Cl, Cf, Cm.
  split; [rewrite Cc; unfold cwp; rewrite Sp, Dp; reflexivity|].
  split; [congruence|].
  split; [congruence|].
  split; [congruence|].
  rewrite Cm, Ca, Sact, Sarch. exact Harch.
Qed.

(** The addresses an entry half goes through are aligned: the three
    kernel variables on a word; and on a double word the stack pointer kept
    in %i6 of every window (the dump and the spill store a window at it),
    the record of the active context and the null task context (the
    outermost save), and the stack record of the nested save. *)
Definition entry_addresses_aligned (s : State) : Prop :=
  system_in_interrupt_context_addr mod 4 = 0 /\
  detected_sparc_register_windows_addr mod 4 = 0 /\
  active_thread_context_stack_pointer_addr mod 4 = 0 /\
  (forall w, 0 <= w < NWINDOWS -> iregs s w 6%nat mod 8 = 0) /\
  active_thread_context_stack_pointer s mod 8 = 0 /\
  sparcNullTaskContextData mod 8 = 0 /\
  nested_save_destination s mod 8 = 0.

(** X9: an entry half runs to the call.  On a machine whose number of
    windows is a power of two, entered in the register arrangement of the
    entry with the addresses it goes through aligned and with exactly one
    invalid window, which in the outermost case is not the window above the
    trap window: the entry half comes back with the flag set.  In the
    outermost case the dump loop has ended within NWINDOWS turns without
    entering the invalid window, and the window above the trap window is
    now the invalid one; the nested case needs no condition on the invalid
    window. *)
Theorem entry_half_completes (s : State) (k v : Z) :
  NWINDOWS = 2 ^ k -> 1 <= k <= 5 -> machine_ok s ->
  entry_addresses_aligned s ->
  0 <= v < NWINDOWS -> wim_bits NWINDOWS (wim s) = 2 ^ v ->
  (flag s = 0 -> v <> win_above NWINDOWS (cwp s)) ->
  exists s' : State,
    entry_half s = Ok s' /\
    flag s' = 1 /\
    (flag s = 0 -> wim s' = 2 ^ win_above NWINDOWS (cwp s)).
Proof.
  intros HN Hk Hok _ Hv Hwim Hout.
  pose proof (common_entry_machine_ok s Hok) as Hok1.
  destruct (common_entry_spec s) as (Hp & _ & _ & _ & Hw & _).
  pose proof (common_entry_selected_path s) as Hpath.
  pose proof (common_entry_sets_flag s) as Hflag.
  assert (Heq : entry_half s =
                match selected_path NWINDOWS
                        (common_entry NWINDOWS system_in_interrupt_context_addr s) with
                | Outermost =>
                    outermost_entry NWINDOWS
                      SPARC_STACK_BARE_MINIMUM_STACK_FRAME_RESERVATION_SIZE
                      detected_sparc_register_windows_addr
                      active_thread_context_stack_pointer_addr sparcNullTaskContextData
                      (common_entry NWINDOWS system_in_interrupt_context_addr s)
                | Nested =>
                    nested_entry NWINDOWS
                      SPARC_STACK_BARE_MINIMUM_STACK_FRAME_RESERVATION_SIZE
                      SPARC_STACK_BASE_CONTEXT_RESERVATION_SIZE
                      detected_sparc_register_windows_addr
                      (common_entry NWINDOWS system_in_interrupt_context_addr s)
                end) by reflexivity.
  rewrite Heq, Hpath. clear Heq Hpath.
  assert (Hc1 : cwp (common_entry NWINDOWS system_in_interrupt_context_addr s) = cwp s)
    by (unfold cwp; rewrite Hp; reflexivity).
  revert Hok1 Hp Hw Hflag Hc1.
  generalize (common_entry NWINDOWS system_in_interrupt_context_addr s).
  intros s1 Hok1 Hp Hw Hflag Hc1.
  destruct (Z.eqb_spec (flag s) 0) as [Hf|Hf].
  - assert (Hne : v <> win_above NWINDOWS (cwp s1)) by (rewrite Hc1; auto).
    assert (Hwim1 : wim_bits NWINDOWS (wim s1) = 2 ^ v) by (rewrite Hw; exact Hwim).
    destruct (outermost_dump_runs s1 k v HN Hk Hok1 Hv Hwim1 Hne) as (s3 & Hdump & _ & _).
    assert (Hrun : exists s', outermost_entry NWINDOWS
                     SPARC_STACK_BARE_MINIMUM_STACK_FRAME_RESERVATION_SIZE
                     detected_sparc_register_windows_addr
                     active_thread_context_stack_pointer_addr sparcNullTaskContextData
                     s1 = Ok s').
    { rewrite outermost_entry_unfold, Hdump. cbn [bind]. eexists. reflexivity. }
    destruct Hrun as (s' & Hrun).
    destruct (outermost_entry_call s1 s' k HN Hk Hok1 Hrun) as (_ & _ & Ew & Ef & _).
    exists s'. split; [exact Hrun|]. split; [congruence|].
    intros _. rewrite Ew, Hc1. reflexivity.
  - pose proof Hok1 as (HN32 & Hp1 & Hd1 & Hent1).
    destruct (nested_free_one_window_cases s1 HN32
                (entry_arrangement_window_ok s1 Hent1) Hp1 Hd1) as (sa & Hfree & Hs & _).
    rewrite nested_entry_unfold, Hfree. cbn [bind].
    eexists. split; [reflexivity|].
    split; [|intros E; contradiction].
    rewrite (proj1 (nested_call_keeps _)).
    rewrite run_keeps_flag by (unfold nested_no_window_overflow; keeps_block).
    destruct Hs as (_ & _ & _ & _ & _ & _ & Ff & _). congruence.
Qed.

(** *** The outermost instance from entry to exit *)

Lemma filtered_psr_same (x : Z) : 0 <= x < 2 ^ 32 -> filtered_psr x x = x.
Proof.
  intros Hx. unfold filtered_psr. apply Z.bits_inj'. intros n Hn.
  rewrite Z.lor_spec, !Z.land_spec, Z.lxor_spec, testbit_0xffffffff by lia.
  destruct (Z.ltb_spec n 32).
  - destruct (Z.testbit x n), (Z.testbit SPARC_NON_RESTORABLE_BITS_IN_PSR n); reflexivity.
  - assert (E : Z.testbit x n = false).
    { destruct (Z.eq_dec x 0) as [->|Hz]; [apply Z.bits_0|].
      apply Z.bits_above_log2; [lia|].
      assert (Z.log2 x < 32) by (apply Z.log2_lt_pow2; lia). lia. }
    rewrite E. reflexivity.
Qed.

(** X11: the outermost instance is transparent to the thread it
    interrupts, when no other context is activated meanwhile.  Entered in
    the outermost case on a machine whose number of windows is a power of
    two and at least four, and provided the collaborator returns in the
    window it was called in, with %l0 of that window, the active context
    pointer and the nineteen words of the record it designates as they
    were, and with the window above the trap window still the invalid one:
    the exit half comes back, clears the flag, and resumes at the resume
    pair of the entry, one window up, with %g1 to %g7, the outs of the
    resumed window and Y as they were at the entry, and with the PSR of the
    entry but for the window pointer, the trap-enable bit and the
    supervisor bit that the return sets.  The window it resumes in has been
    reloaded from the save area at the thread's stack pointer, and WIM has
    moved one place to the left.  This holds whether the record is the
    thread's own or, for a frozen context, the null task context. *)
Theorem outermost_trap_is_transparent (s s1 s2 : State) (k : Z) :
  NWINDOWS = 2 ^ k -> 2 <= k <= 5 -> machine_ok s ->
  outermost_entry NWINDOWS SPARC_STACK_BARE_MINIMUM_STACK_FRAME_RESERVATION_SIZE
    detected_sparc_register_windows_addr active_thread_context_stack_pointer_addr
    sparcNullTaskContextData s = Ok s1 ->
  cwp s2 = cwp s1 ->
  get_reg NWINDOWS s2 (L 0) = get_reg NWINDOWS s1 (L 0) ->
  active_thread_context_stack_pointer s2 = active_thread_context_stack_pointer s1 ->
  (forall a, In a (context_words (active_thread_context_stack_pointer s1)) ->
             mem s2 a = mem s1 a) ->
  detected_sparc_register_windows s2 = NWINDOWS ->
  wim_bits NWINDOWS (wim s2) = 2 ^ win_above NWINDOWS (cwp s) ->
  exists s' : State,
    exit_half Outermost s2 = Ok s' /\
    resumed_fields s' = restored_fields s /\
    psr s' = returned_psr (psr s) (win_above NWINDOWS (cwp s)) /\
    cwp s' = win_above NWINDOWS (cwp s) /\
    wim s' = 2 ^ win_above NWINDOWS (win_above NWINDOWS (cwp s)) /\
    window_contents s' (win_above NWINDOWS (cwp s))
    = map (mem s2) (window_words (iregs s (cwp s) 6%nat)) /\
    mem s' = mem s2 /\ flag s' = 0.
Proof.
  intros HN Hk Hok Hentry Hc2 Hl2 Ha2 Hmem2 Hd2 Hwim2.
  pose proof Hok as (HN32 & Hp & Hd & Hent).
  destruct Hent as (HN2 & Hw & H0).
  destruct (outermost_entry_call s s1 k HN ltac:(lia) Hok Hentry)
    as (Ec1 & El1 & _ & _ & Harch).
  assert (Ec2 : cwp s2 = cwp s) by congruence.
  assert (El2 : get_reg NWINDOWS s2 (L 0) = psr s) by congruence.
  rewrite <- Ha2 in Harch, Hmem2.
  destruct (map_tl_context_words (mem s2) (mem s1)
              (active_thread_context_stack_pointer s2) Hmem2) as (Eword0 & Etl).
  rewrite Harch in Etl.
  assert (Eword : mem s2 (wrap32 (active_thread_context_stack_pointer s2 + 0)) = psr s).
  { rewrite Eword0.
    apply (f_equal (hd 0)) in Harch.
    cbn [context_words saved_offsets map hd nested_archive] in Harch.
    rewrite Harch. exact H0. }
  assert (Esp : mem s2 (wrap32 (active_thread_context_stack_pointer s2 + 56))
                = iregs s (cwp s) 6%nat).
  { rewrite Hmem2.
    - apply (f_equal (fun l => nth 14 l 0)) in Harch.
      cbn [context_words saved_offsets map nth nested_archive] in Harch.
      exact Harch.
    - unfold context_words, saved_offsets. cbn [map In]. tauto. }
  assert (Hok2 : window_ok s2).
  { split; [exact HN2|]. split; [rewrite Ec2; exact Hw|].
    rewrite El2, Ec2. reflexivity. }
  pose proof (outermost_exit_spec s2 k HN Hk Hok2 ltac:(rewrite El2; exact Hp)
                Hd2 ltac:(rewrite Ec2; exact Hwim2)) as Hexit.
  cbv zeta in Hexit.
  rewrite El2, Eword, filtered_psr_same, Ec2, Esp in Hexit by exact Hp.
  destruct (Hexit eq_refl)
    as (s' & Hrun & Hres & Hpsr & Hcwp & _ & _ & Hwim & Hcont & Hm & Hflag).
  exists s'. split; [exact Hrun|].
  split; [rewrite Hres, Etl; reflexivity|].
  split; [exact Hpsr|]. split; [exact Hcwp|].
  split; [exact Hwim|]. split; [exact Hcont|]. split; [exact Hm|exact Hflag].
Qed.

End Properties.

(** ** A concrete machine: eight windows *)

Module Leon3.

Definition NWINDOWS : Z := 8.
(** An example value for the mask that sparcassembly.h defines: the window
    pointer, the trap-enable bit and the interrupt level. *)
Definition NON_RESTORABLE : Z := 0xf3f.
Definition BARE : Z := 96.
Definition BASE_CONTEXT : Z := 80.
Definition flag_addr : Z := 0x40001000.
Definition windows_addr : Z := 0x40001004.
Definition active_addr : Z := 0x40001008.
Definition null_context : Z := 0x40002000.
Definition task_context : Z := 0x40003000.
Definition other_context : Z := 0x40004000.

Local Abbreviation entry :=
  (entry_half NWINDOWS BARE BASE_CONTEXT flag_addr windows_addr active_addr
     null_context).
Local Abbreviation reach :=
  (reachable NWINDOWS NON_RESTORABLE BARE BASE_CONTEXT flag_addr windows_addr
     active_addr null_context).
Local Abbreviation free_one_window :=
  (nested_free_one_window NWINDOWS windows_addr).

Definition is_ok (o : outcome) : bool :=
  match o with
  | Ok _ => true
  | ErrorMode => false
  | OutOfFuel => false
  end.

Definition state_of (o : outcome) (default : State) : State :=
  match o with
  | Ok s => s
  | ErrorMode => default
  | OutOfFuel => default
  end.

Lemma is_ok_state_of (o : outcome) (d : State) :
  is_ok o = true -> o = Ok (state_of o d).
Proof. destruct o; intros H; try discriminate H; reflexivity. Defined.

(** A thread in supervisor mode with traps enabled, running in window 3;
    every window has its own stack area. *)
Definition thread (pc0 wim0 frozen in_interrupt : Z) : State :=
  mkState pc0 (pc0 + 4) 0xa3 wim0 77
    (fun n => 100 + Z.of_nat n)
    (fun w n => 1000 + 10 * (w mod 8) + Z.of_nat n)
    (fun w n => if Nat.eqb n 6 then 0x40010000 + 0x100 * (w mod 8)
                else 2000 + 10 * (w mod 8) + Z.of_nat n)
    (fun a => if a =? task_context + 76 then frozen else 0)
    in_interrupt task_context 8.

(** Window 5 is the invalid one, no trap is in progress. *)
Definition thread_state : State := thread 0x40000100 0x20 0 0.
Definition frozen_state : State := thread 0x40000100 0x20 1 0.

(** The thread taking interrupt 3, and software trap 1 issued by the
    instruction before the one interrupt 3 hit. *)
Local Abbreviation irq3_entry := (trap_entry NWINDOWS 3 thread_state).
Definition swtrap_entry : State :=
  trap_entry NWINDOWS 0x21 (thread 0x400000fc 0x20 0 0).

(** The collaborator's start state for interrupt 3. *)
Definition irq3_called : State := state_of (entry irq3_entry) irq3_entry.

(** Interrupt 5 taken while a trap is in progress, by code that runs in
    window 3: the trap window is window 2.  Once WIM marks the trap window
    itself, once the window above it. *)
Definition nested_trap_window_invalid : State :=
  trap_entry NWINDOWS 5 (thread 0x40000200 0x04 0 1).
Definition nested_window_above_invalid : State :=
  trap_entry NWINDOWS 5 (thread 0x40000200 0x08 0 1).

Ltac decide_by_computation :=
  vm_compute; repeat split; try reflexivity; try discriminate;
  intros; discriminate.

Lemma frozen_context_redirect_witness :
  frozen_flag frozen_state <> 0 /\
  (forall a, In a (record_words (active_thread_context_stack_pointer frozen_state)) ->
             ~ In a (context_words null_context)) /\
  (forall a, In a (record_words (active_thread_context_stack_pointer frozen_state)) ->
             mem (outermost_save_context NWINDOWS active_addr null_context frozen_state) a
             = mem frozen_state a) /\
  active_thread_context_stack_pointer
    (outermost_save_context NWINDOWS active_addr null_context frozen_state)
  = null_context.
Proof.
  assert (H1 : frozen_flag frozen_state <> 0) by (vm_compute; discriminate).
  assert (H2 : forall a,
             In a (record_words (active_thread_context_stack_pointer frozen_state)) ->
             ~ In a (context_words null_context))
    by (intros a Ha Hb; vm_compute in Ha, Hb; lia).
  split; [exact H1|]. split; [exact H2|].
  destruct (frozen_context_redirect NWINDOWS active_addr null_context frozen_state H1 H2)
    as (A & _ & _ & D).
  split; [exact A|exact D].
Defined.

Lemma irq3_entry_ok : entry irq3_entry = Ok irq3_called.
Proof. apply is_ok_state_of. vm_compute. reflexivity. Defined.

Lemma interrupt_nesting_flag_witness :
  system_in_interrupt_context thread_state = 0 /\
  reach (thread_state, []) (irq3_called, [Outermost]) /\
  system_in_interrupt_context irq3_called = 1.
Proof.
  assert (H0 : system_in_interrupt_context thread_state = 0) by reflexivity.
  assert (Hp : entered_path NWINDOWS flag_addr (trap_entry NWINDOWS 3 thread_state)
               = Outermost) by (vm_compute; reflexivity).
  assert (Hr : reach (thread_state, []) (irq3_called, [Outermost])).
  { eapply reachable_step; [apply reachable_start|].
    rewrite <- Hp.
    apply (step_trap NWINDOWS NON_RESTORABLE BARE BASE_CONTEXT flag_addr
             windows_addr active_addr null_context thread_state irq3_called [] 3).
    - vm_compute. reflexivity.
    - exact irq3_entry_ok. }
  split; [exact H0|]. split; [exact Hr|].
  apply (proj1 (proj2 (proj2 (proj2 (proj2 (proj2
           (interrupt_nesting_flag NWINDOWS NON_RESTORABLE BARE BASE_CONTEXT
              flag_addr windows_addr active_addr null_context)))))
           thread_state irq3_called [Outermost] H0 Hr)).
  discriminate.
Defined.

Lemma nested_entry_frees_one_window_witness :
  2 <= NWINDOWS <= 32 /\
  window_ok NWINDOWS nested_trap_window_invalid /\
  0 <= psr nested_trap_window_invalid < 2 ^ 32 /\
  detected_sparc_register_windows nested_trap_window_invalid = NWINDOWS /\
  iregs nested_trap_window_invalid 0 6%nat mod 8 = 0 /\
  exists s', free_one_window nested_trap_window_invalid = Ok s' /\
             scratch_locals_only nested_trap_window_invalid s' /\
             wim s' = 0x02.
Proof.
  assert (HN : 2 <= NWINDOWS <= 32) by (unfold NWINDOWS; lia).
  assert (Hw : window_ok NWINDOWS nested_trap_window_invalid)
    by decide_by_computation.
  assert (Hp : 0 <= psr nested_trap_window_invalid < 2 ^ 32)
    by decide_by_computation.
  assert (Hd : detected_sparc_register_windows nested_trap_window_invalid = NWINDOWS)
    by reflexivity.
  assert (Hal : iregs nested_trap_window_invalid 0 6%nat mod 8 = 0) by reflexivity.
  assert (Hwim : wim_bits NWINDOWS (wim nested_trap_window_invalid)
                 = 2 ^ cwp nested_trap_window_invalid) by reflexivity.
  split; [exact HN|]. split; [exact Hw|]. split; [exact Hp|]. split; [exact Hd|].
  split; [exact Hal|].
  destruct (nested_entry_frees_one_window NWINDOWS windows_addr
              nested_trap_window_invalid HN Hw Hp Hd (fun _ => Hal))
    as (s' & Hrun & Hs & Hspill & _).
  exists s'. split; [exact Hrun|]. split; [exact Hs|].
  exact (proj1 (Hspill Hwim)).
Defined.

(** Against C4 as stated.  With WIM on the trap window and not on the
    window above it, the routine spills: it moves the invalid marker and
    writes the save area of the window below.  With WIM on the window above
    the trap window, it spills nothing, and still overwrites the scratch
    local %l5 of the trap window. *)
Lemma spill_test_is_on_the_trap_window :
  (let s := nested_trap_window_invalid in
   let s' := state_of (free_one_window s) s in
   wim_bits NWINDOWS (wim s) <> 2 ^ win_above NWINDOWS (cwp s) /\
   is_ok (free_one_window s) = true /\
   wim s = 0x04 /\ wim s' = 0x02 /\
   mem s 0x40010000 = 0 /\ mem s' 0x40010000 = 1010) /\
  (let s := nested_window_above_invalid in
   let s' := state_of (free_one_window s) s in
   wim_bits NWINDOWS (wim s) = 2 ^ win_above NWINDOWS (cwp s) /\
   is_ok (free_one_window s) = true /\
   wim s' = wim s /\
   map (mem s') (window_words 0x40010000) = map (mem s) (window_words 0x40010000) /\
   lregs s 2 5%nat = 1025 /\ lregs s' 2 5%nat = 8).
Proof. decide_by_computation. Qed.

Lemma priority_during_handler_caller_witness :
  machine_ok NWINDOWS irq3_entry /\
  entry irq3_entry = Ok irq3_called /\
  Z.testbit (get_reg NWINDOWS irq3_entry (L 3)) 5 = false /\
  Z.land (get_reg NWINDOWS irq3_entry (L 3)) 0x1f <= 15 /\
  get_reg NWINDOWS irq3_called (O 0) = 3 /\
  psr_pil (psr irq3_called) >= get_reg NWINDOWS irq3_called (O 0).
Proof.
  assert (Hok : machine_ok NWINDOWS irq3_entry) by decide_by_computation.
  assert (H5 : Z.testbit (get_reg NWINDOWS irq3_entry (L 3)) 5 = false) by reflexivity.
  assert (Hle : Z.land (get_reg NWINDOWS irq3_entry (L 3)) 0x1f <= 15)
    by decide_by_computation.
  split; [exact Hok|]. split; [exact irq3_entry_ok|]. split; [exact H5|].
  split; [exact Hle|].
  destruct (priority_during_handler_caller NWINDOWS BARE BASE_CONTEXT flag_addr
              windows_addr active_addr null_context irq3_entry irq3_called
              Hok irq3_entry_ok (fun _ => Hle)) as (Ho & _ & Hirq & _).
  split; [rewrite Ho; reflexivity|].
  exact (proj2 (proj2 (Hirq H5))).
Defined.

Lemma unified_resume_pair_witness :
  Z.testbit (get_reg NWINDOWS irq3_entry (L 3)) 5 = false /\
  Z.testbit (get_reg NWINDOWS swtrap_entry (L 3)) 5 = true /\
  get_reg NWINDOWS irq3_entry (L 1) = 0x40000100 /\
  get_reg NWINDOWS irq3_entry (L 2) = wrap32 (0x40000100 + 4) /\
  get_reg NWINDOWS swtrap_entry (L 2) = 0x40000100 /\
  resume_pair NWINDOWS (sparcTaskContextAwareTrapHandler NWINDOWS irq3_entry) =
  resume_pair NWINDOWS (sparcTaskContextAwareTrapHandler NWINDOWS swtrap_entry).
Proof.
  assert (Hi : Z.testbit (get_reg NWINDOWS irq3_entry (L 3)) 5 = false) by reflexivity.
  assert (Hs : Z.testbit (get_reg NWINDOWS swtrap_entry (L 3)) 5 = true) by reflexivity.
  assert (H1 : get_reg NWINDOWS irq3_entry (L 1) = 0x40000100) by reflexivity.
  assert (H2 : get_reg NWINDOWS irq3_entry (L 2) = wrap32 (0x40000100 + 4)) by reflexivity.
  assert (H3 : get_reg NWINDOWS swtrap_entry (L 2) = 0x40000100) by reflexivity.
  repeat (split; [assumption|]).
  exact (proj2 (unified_resume_pair NWINDOWS) irq3_entry swtrap_entry 0x40000100
           Hi Hs H1 H2 H3).
Defined.

Lemma psr_rewritten_after_collaborator_witness :
  machine_ok NWINDOWS irq3_entry /\
  psr_et (psr irq3_entry) = false /\
  entry irq3_entry = Ok irq3_called /\
  psr (run (outermost_disable_traps NWINDOWS BARE flag_addr) irq3_called)
  = psr irq3_entry.
Proof.
  assert (Hok : machine_ok NWINDOWS irq3_entry) by decide_by_computation.
  assert (Het : psr_et (psr irq3_entry) = false) by reflexivity.
  split; [exact Hok|]. split; [exact Het|]. split; [exact irq3_entry_ok|].
  exact (proj1 (psr_rewritten_after_collaborator NWINDOWS BARE BASE_CONTEXT flag_addr
                  windows_addr active_addr null_context
                  irq3_entry irq3_called irq3_called Hok Het irq3_entry_ok
                  eq_refl eq_refl _ (or_introl eq_refl))).
Defined.

Lemma frozen_flag_never_written_witness :
  ~ In (wrap32 (other_context + frozen_offset))
       (context_words (outermost_save_destination null_context thread_state)) /\
  mem (outermost_save_context NWINDOWS active_addr null_context thread_state)
      (wrap32 (other_context + frozen_offset))
  = mem thread_state (wrap32 (other_context + frozen_offset)).
Proof.
  assert (H : ~ In (wrap32 (other_context + frozen_offset))
                   (context_words (outermost_save_destination null_context thread_state)))
    by (vm_compute; lia).
  split; [exact H|].
  exact (proj1 (frozen_flag_never_written NWINDOWS NON_RESTORABLE BARE BASE_CONTEXT
                  flag_addr windows_addr active_addr null_context)
           thread_state _ H).
Defined.

(** ** Further runs on the concrete machine *)

Local Abbreviation dump := (outermost_dump NWINDOWS windows_addr).
Local Abbreviation exit :=
  (exit_half NWINDOWS NON_RESTORABLE BARE flag_addr windows_addr active_addr).
Local Abbreviation outermost_enter :=
  (outermost_entry NWINDOWS BARE windows_addr active_addr null_context).
Local Abbreviation nested_enter :=
  (nested_entry NWINDOWS BARE BASE_CONTEXT windows_addr).

(** The trap window of interrupt 3 after the dump, and the collaborator's
    start state of interrupt 5 taken in the nested case with the window
    above the trap window invalid. *)
Definition irq3_dumped : State := state_of (dump irq3_entry) irq3_entry.
Definition irq5_called : State :=
  state_of (nested_enter nested_window_above_invalid) nested_window_above_invalid.

(** Interrupt 3 after the common entry, and the collaborator's start state
    the outermost entry reaches from there. *)
Definition irq3_dispatched : State := common_entry NWINDOWS flag_addr irq3_entry.
Definition irq3_outermost_called : State :=
  state_of (outermost_enter irq3_dispatched) irq3_dispatched.

Lemma irq3_dump_ok : dump irq3_entry = Ok irq3_dumped.
Proof. apply is_ok_state_of. vm_compute. reflexivity. Defined.

Lemma irq3_outermost_entry_ok :
  outermost_enter irq3_dispatched = Ok irq3_outermost_called.
Proof. apply is_ok_state_of. vm_compute. reflexivity. Defined.

Lemma irq5_entry_ok : nested_enter nested_window_above_invalid = Ok irq5_called.
Proof. apply is_ok_state_of. vm_compute. reflexivity. Defined.

Lemma swap_g3_l0_exchanges_witness :
  1%nat <> 3%nat /\
  get_reg NWINDOWS (run (swap_g3_l0 NWINDOWS) thread_state) (G 3)
  = get_reg NWINDOWS thread_state (L 0) /\
  gregs (run (swap_g3_l0 NWINDOWS) thread_state) 1%nat = gregs thread_state 1%nat.
Proof.
  assert (H : 1%nat <> 3%nat) by discriminate.
  split; [exact H|].
  destruct (swap_g3_l0_exchanges NWINDOWS thread_state) as (E3 & _ & Eg & _).
  split; [exact E3|exact (Eg 1%nat H)].
Defined.

Lemma entry_dispatches_on_old_flag_witness :
  system_in_interrupt_context irq3_entry = 0 /\
  entered_path NWINDOWS flag_addr irq3_entry = Outermost.
Proof.
  assert (H : system_in_interrupt_context irq3_entry = 0) by reflexivity.
  split; [exact H|].
  destruct (entry_dispatches_on_old_flag NWINDOWS BARE BASE_CONTEXT flag_addr
              windows_addr active_addr null_context irq3_entry) as (_ & Hout & _).
  exact (proj2 Hout H).
Defined.

Lemma both_saves_archive_the_entry_state_witness :
  entry_arrangement NWINDOWS irq3_entry /\
  dump irq3_entry = Ok irq3_dumped /\
  map (mem (outermost_save_context NWINDOWS active_addr null_context irq3_dumped))
      (context_words (outermost_save_destination null_context irq3_dumped))
  = nested_archive NWINDOWS irq3_entry.
Proof.
  assert (He : entry_arrangement NWINDOWS irq3_entry) by decide_by_computation.
  split; [exact He|]. split; [exact irq3_dump_ok|].
  exact (proj1 (both_saves_archive_the_entry_state NWINDOWS BASE_CONTEXT windows_addr
                  active_addr null_context irq3_entry irq3_dumped He irq3_dump_ok)).
Defined.

Lemma entry_half_completes_witness :
  NWINDOWS = 2 ^ 3 /\
  machine_ok NWINDOWS irq3_entry /\
  entry_addresses_aligned NWINDOWS BASE_CONTEXT flag_addr windows_addr active_addr
    null_context irq3_entry /\
  wim_bits NWINDOWS (wim irq3_entry) = 2 ^ 5 /\
  5 <> win_above NWINDOWS (cwp irq3_entry) /\
  exists s' : State,
    entry irq3_entry = Ok s' /\
    system_in_interrupt_context s' = 1 /\
    wim s' = 2 ^ win_above NWINDOWS (cwp irq3_entry).
Proof.
  assert (HN : NWINDOWS = 2 ^ 3) by reflexivity.
  assert (Hk : 1 <= 3 <= 5) by lia.
  assert (Hok : machine_ok NWINDOWS irq3_entry) by decide_by_computation.
  assert (Hal : entry_addresses_aligned NWINDOWS BASE_CONTEXT flag_addr windows_addr
                  active_addr null_context irq3_entry).
  { split; [reflexivity|]. split; [reflexivity|]. split; [reflexivity|].
    split; [|split; [reflexivity|split; reflexivity]].
    intros w Hw. unfold NWINDOWS in Hw.
    assert (Hc : w = 0 \/ w = 1 \/ w = 2 \/ w = 3 \/ w = 4 \/ w = 5 \/ w = 6 \/ w = 7)
      by lia.
    repeat (destruct Hc as [->|Hc]; [reflexivity|]). subst w. reflexivity. }
  assert (Hv : 0 <= 5 < NWINDOWS) by (unfold NWINDOWS; lia).
  assert (Hwim : wim_bits NWINDOWS (wim irq3_entry) = 2 ^ 5) by (vm_compute; reflexivity).
  assert (Hne : 5 <> win_above NWINDOWS (cwp irq3_entry)) by (vm_compute; discriminate).
  assert (Hf : system_in_interrupt_context irq3_entry = 0) by reflexivity.
  split; [exact HN|]. split; [exact Hok|]. split; [exact Hal|].
  split; [exact Hwim|]. split; [exact Hne|].
  destruct (entry_half_completes NWINDOWS BARE BASE_CONTEXT flag_addr windows_addr
              active_addr null_context irq3_entry 3 5 HN Hk Hok Hal Hv Hwim
              (fun _ => Hne))
    as (s' & Hrun & Hflag & Hw).
  exists s'. split; [exact Hrun|]. split; [exact Hflag|exact (Hw Hf)].
Defined.

Lemma nested_exit_refills_one_window_witness :
  NWINDOWS = 2 ^ 3 /\
  window_ok NWINDOWS nested_window_above_invalid /\
  0 <= psr nested_window_above_invalid < 2 ^ 32 /\
  detected_sparc_register_windows nested_window_above_invalid = NWINDOWS /\
  iregs nested_window_above_invalid (cwp nested_window_above_invalid) 6%nat mod 8 = 0 /\
  exists s' : State,
    nested_skip_restoring_invalid_window NWINDOWS windows_addr nested_window_above_invalid
    = Ok s' /\
    refill_frame NWINDOWS nested_window_above_invalid s' /\
    wim s' = 2 ^ 4.
Proof.
  assert (HN : NWINDOWS = 2 ^ 3) by reflexivity.
  assert (Hk : 2 <= 3 <= 5) by lia.
  assert (Hw : window_ok NWINDOWS nested_window_above_invalid) by decide_by_computation.
  assert (Hp : 0 <= psr nested_window_above_invalid < 2 ^ 32) by decide_by_computation.
  assert (Hd : detected_sparc_register_windows nested_window_above_invalid = NWINDOWS)
    by reflexivity.
  assert (Hal : iregs nested_window_above_invalid (cwp nested_window_above_invalid) 6%nat
                mod 8 = 0) by reflexivity.
  assert (Hwim : wim_bits NWINDOWS (wim nested_window_above_invalid)
                 = 2 ^ win_above NWINDOWS (cwp nested_window_above_invalid))
    by reflexivity.
  split; [exact HN|]. split; [exact Hw|]. split; [exact Hp|]. split; [exact Hd|].
  split; [exact Hal|].
  destruct (nested_exit_refills_one_window NWINDOWS windows_addr
              nested_window_above_invalid 3 HN Hk Hw Hp Hd (fun _ => Hal))
    as (s' & Hrun & Hf & Hrefill & _).
  exists s'. split; [exact Hrun|]. split; [exact Hf|].
  exact (proj1 (Hrefill Hwim)).
Defined.

Lemma outermost_trap_is_transparent_witness :
  NWINDOWS = 2 ^ 3 /\
  machine_ok NWINDOWS irq3_dispatched /\
  outermost_enter irq3_dispatched = Ok irq3_outermost_called /\
  detected_sparc_register_windows irq3_outermost_called = NWINDOWS /\
  wim_bits NWINDOWS (wim irq3_outermost_called)
  = 2 ^ win_above NWINDOWS (cwp irq3_dispatched) /\
  exists s' : State,
    exit Outermost irq3_outermost_called = Ok s' /\
    resumed_fields NWINDOWS s' = restored_fields NWINDOWS irq3_dispatched /\
    system_in_interrupt_context s' = 0.
Proof.
  assert (HN : NWINDOWS = 2 ^ 3) by reflexivity.
  assert (Hk : 2 <= 3 <= 5) by lia.
  assert (Hok : machine_ok NWINDOWS irq3_dispatched) by decide_by_computation.
  assert (Hd : detected_sparc_register_windows irq3_outermost_called = NWINDOWS)
    by (vm_compute; reflexivity).
  assert (Hwim : wim_bits NWINDOWS (wim irq3_outermost_called)
                 = 2 ^ win_above NWINDOWS (cwp irq3_dispatched))
    by (vm_compute; reflexivity).
  split; [exact HN|]. split; [exact Hok|]. split; [exact irq3_outermost_entry_ok|].
  split; [exact Hd|]. split; [exact Hwim|].
  destruct (outermost_trap_is_transparent NWINDOWS NON_RESTORABLE BARE flag_addr
              windows_addr active_addr null_context
              irq3_dispatched irq3_outermost_called irq3_outermost_called 3
              HN Hk Hok irq3_outermost_entry_ok eq_refl eq_refl eq_refl
              (fun a _ => eq_refl) Hd Hwim)
    as (s' & Hrun & Hres & _ & _ & _ & _ & _ & Hflag).
  exists s'. split; [exact Hrun|]. split; [exact Hres|exact Hflag].
Defined.

Lemma nested_trap_is_transparent_witness :
  NWINDOWS = 2 ^ 3 /\
  machine_ok NWINDOWS nested_window_above_invalid /\
  nested_enter nested_window_above_invalid = Ok irq5_called /\
  detected_sparc_register_windows irq5_called = NWINDOWS /\
  wim_bits NWINDOWS (wim irq5_called) = 2 ^ 3 /\
  exists s' : State,
    exit Nested irq5_called = Ok s' /\
    resumed_fields NWINDOWS s' = restored_fields NWINDOWS nested_window_above_invalid.
Proof.
  assert (HN : NWINDOWS = 2 ^ 3) by reflexivity.
  assert (Hk : 2 <= 3 <= 5) by lia.
  assert (Hok : machine_ok NWINDOWS nested_window_above_invalid) by decide_by_computation.
  assert (Hd : detected_sparc_register_windows irq5_called = NWINDOWS)
    by (vm_compute; reflexivity).
  assert (Hv : 0 <= 3 < NWINDOWS) by (unfold NWINDOWS; lia).
  assert (Hwim : wim_bits NWINDOWS (wim irq5_called) = 2 ^ 3) by (vm_compute; reflexivity).
  split; [exact HN|]. split; [exact Hok|]. split; [exact irq5_entry_ok|].
  split; [exact Hd|]. split; [exact Hwim|].
  destruct (nested_trap_is_transparent NWINDOWS NON_RESTORABLE BARE BASE_CONTEXT flag_addr
              windows_addr active_addr
              nested_window_above_invalid irq5_called irq5_called 3 3
              HN Hk Hok irq5_entry_ok eq_refl eq_refl eq_refl (fun a _ => eq_refl)
              Hd Hv Hwim) as (s' & Hrun & Hres & _).
  exists s'. split; [exact Hrun|exact Hres].
Defined.

Lemma context_restore_witness :
  window_ok NWINDOWS irq5_called /\
  Z.land (mem irq5_called (wrap32 (wrap32 (get_reg NWINDOWS irq5_called sp + BARE) + 0)))
         NON_RESTORABLE
  = Z.land (get_reg NWINDOWS irq5_called (L 0)) NON_RESTORABLE /\
  get_reg NWINDOWS (nested_restore NWINDOWS BARE irq5_called) (L 0)
  = mem irq5_called (wrap32 (wrap32 (get_reg NWINDOWS irq5_called sp + BARE) + 0)) /\
  window_ok NWINDOWS irq3_outermost_called /\
  psr (outermost_restore NWINDOWS NON_RESTORABLE BARE flag_addr active_addr
         irq3_outermost_called)
  = get_reg NWINDOWS irq3_outermost_called (L 0).
Proof.
  assert (Hn : window_ok NWINDOWS irq5_called) by decide_by_computation.
  assert (Ha : Z.land (mem irq5_called
                         (wrap32 (wrap32 (get_reg NWINDOWS irq5_called sp + BARE) + 0)))
                      NON_RESTORABLE
               = Z.land (get_reg NWINDOWS irq5_called (L 0)) NON_RESTORABLE)
    by (vm_compute; reflexivity).
  assert (Ho : window_ok NWINDOWS irq3_outermost_called) by decide_by_computation.
  split; [exact Hn|]. split; [exact Ha|].
  split; [|split; [exact Ho|]].
  - exact (proj1 (proj2 (proj1 (proj2 (context_restore NWINDOWS NON_RESTORABLE BARE
                                         BASE_CONTEXT flag_addr active_addr null_context))
                           irq5_called Hn Ha))).
  - exact (proj1 (proj1 (context_restore NWINDOWS NON_RESTORABLE BARE BASE_CONTEXT
                           flag_addr active_addr null_context)
                    irq3_outermost_called Ho)).
Defined.

End Leon3.

End TrapHandler.

(** * sparc/Os_Internal_Arch.c: the interrupt mask controller *)

Module OsInternalArch.

Definition uint32_max : Z := 0xffffffff.
Definition wrap32 (x : Z) : Z := x mod 2 ^ 32.
(** [~x] on a 32-bit unsigned value. *)
Definition not32 (x : Z) : Z := Z.lxor x uint32_max.

(** Modelled from the spec: grlib.h is not among the sources.  The two
    register names that the file passes to [grRegisterWrite], and
    [grRegisterWrite] as an append to the list of the calls made, each with
    its three arguments. *)
Inductive irqmp_register : Type :=
| IRQMP_INTERRUPT_CLEAR_REGISTER
| IRQMP_MP_INTERRUPT_MASK_REGISTER (cpu : Z).

(** The first argument of a [grRegisterWrite] call, as the source writes
    it.  The two registrations pass the variable [grIRQMBaseAddress]; the
    four mask operations pass [grDeviceAddress], the name the file uses as
    the type of that variable, and the file declares no object of that
    name.  Which device address a call of the second kind reaches, if any,
    is not settled by the file. *)
Inductive base_argument : Type :=
| grIRQMBaseAddress
| grDeviceAddress.

Record IrqState := mkIrqState {
  sparcISR1HandlersMask : Z;
  sparcISR2HandlersMask : Z;
  sparcCurrentInterruptMask : Z;
  sparcIRQHandlersTable : list Z;
  device_writes : list (base_argument * irqmp_register * Z)
}.

(** The definitions of the file: all masks zero, fifteen null handlers. *)
Definition initial_state : IrqState :=
  mkIrqState 0x00 0x00 0x0 (repeat 0x00 15) [].

Definition grRegisterWrite (b : base_argument) (r : irqmp_register) (v : Z)
    (s : IrqState) : IrqState :=
  mkIrqState (sparcISR1HandlersMask s) (sparcISR2HandlersMask s)
    (sparcCurrentInterruptMask s) (sparcIRQHandlersTable s)
    (device_writes s ++ [(b, r, v)]).

Definition set_sparcISR1HandlersMask (v : Z) (s : IrqState) : IrqState :=
  mkIrqState v (sparcISR2HandlersMask s) (sparcCurrentInterruptMask s)
    (sparcIRQHandlersTable s) (device_writes s).
Definition set_sparcISR2HandlersMask (v : Z) (s : IrqState) : IrqState :=
  mkIrqState (sparcISR1HandlersMask s) v (sparcCurrentInterruptMask s)
    (sparcIRQHandlersTable s) (device_writes s).
Definition set_sparcCurrentInterruptMask (v : Z) (s : IrqState) : IrqState :=
  mkIrqState (sparcISR1HandlersMask s) (sparcISR2HandlersMask s) v
    (sparcIRQHandlersTable s) (device_writes s).
Definition set_sparcIRQHandlersTable (l : list Z) (s : IrqState) : IrqState :=
  mkIrqState (sparcISR1HandlersMask s) (sparcISR2HandlersMask s)
    (sparcCurrentInterruptMask s) l (device_writes s).

(** [table[index] = v]: defined only inside the array. *)
Fixpoint list_set (l : list Z) (n : nat) (v : Z) : list Z :=
  match l, n with
  | [], _ => []
  | _ :: l', O => v :: l'
  | x :: l', S n' => x :: list_set l' n' v
  end.

Definition table_store (l : list Z) (index : Z) (v : Z) : option (list Z) :=
  if (0 <=? index) && (index <? Z.of_nat (length l))
  then Some (list_set l (Z.to_nat index) v)
  else None.

(** [irq - 1] as the array subscript: computed in [int] when the IRQ number
    type is narrower than [int], and wrapping to 2^32 - 1 at zero when it is
    a 32-bit unsigned type.  The signed reading is used below. *)
Definition table_index (irq : Z) : Z := irq - 1.
Definition table_index_unsigned (irq : Z) : Z := wrap32 (irq - 1).

Definition sparcRegisterISR1Handler (newHandler irq : Z) (s : IrqState)
  : option IrqState :=
  let newInterruptMask := wrap32 (Z.shiftl 1 irq) in
  let s1 := grRegisterWrite grIRQMBaseAddress IRQMP_INTERRUPT_CLEAR_REGISTER
              newInterruptMask s in
  let s2 := set_sparcISR1HandlersMask
              (Z.lor (sparcISR1HandlersMask s1) newInterruptMask) s1 in
  match table_store (sparcIRQHandlersTable s2) (table_index irq) newHandler with
  | Some l => Some (set_sparcIRQHandlersTable l s2)
  | None => None
  end.

Definition sparcRegisterISR2Handler (newHandler irq : Z) (s : IrqState)
  : option IrqState :=
  let newInterruptMask := wrap32 (Z.shiftl 1 irq) in
  let s1 := grRegisterWrite grIRQMBaseAddress IRQMP_INTERRUPT_CLEAR_REGISTER
              newInterruptMask s in
  let s2 := set_sparcISR2HandlersMask
              (Z.lor (sparcISR2HandlersMask s1) newInterruptMask) s1 in
  match table_store (sparcIRQHandlersTable s2) (table_index irq) newHandler with
  | Some l => Some (set_sparcIRQHandlersTable l s2)
  | None => None
  end.

Definition sparcEnableAllInterrupts (s : IrqState) : IrqState :=
  let s1 := set_sparcCurrentInterruptMask
              (Z.lor (sparcCurrentInterruptMask s)
                     (Z.lor (sparcISR1HandlersMask s) (sparcISR2HandlersMask s))) s in
  grRegisterWrite grDeviceAddress (IRQMP_MP_INTERRUPT_MASK_REGISTER 0)
    (sparcCurrentInterruptMask s1) s1.

Definition sparcDisableAllInterrupts (s : IrqState) : IrqState :=
  let s1 := set_sparcCurrentInterruptMask
              (Z.land (sparcCurrentInterruptMask s)
                      (not32 (Z.lor (sparcISR1HandlersMask s) (sparcISR2HandlersMask s)))) s in
  grRegisterWrite grDeviceAddress (IRQMP_MP_INTERRUPT_MASK_REGISTER 0)
    (sparcCurrentInterruptMask s1) s1.

Definition sparcEnableISR2Interrupts (s : IrqState) : IrqState :=
  let s1 := set_sparcCurrentInterruptMask
              (Z.lor (sparcCurrentInterruptMask s) (sparcISR2HandlersMask s)) s in
  grRegisterWrite grDeviceAddress (IRQMP_MP_INTERRUPT_MASK_REGISTER 0)
    (sparcCurrentInterruptMask s1) s1.

Definition sparcDisableISR2Interrupts (s : IrqState) : IrqState :=
  let s1 := set_sparcCurrentInterruptMask
              (Z.land (sparcCurrentInterruptMask s)
                      (not32 (sparcISR2HandlersMask s))) s in
  grRegisterWrite grDeviceAddress (IRQMP_MP_INTERRUPT_MASK_REGISTER 0)
    (sparcCurrentInterruptMask s1) s1.

(** ** Properties *)

Lemma testbit_uint32_max (i : Z) :
  0 <= i -> Z.testbit uint32_max i = (i <? 32).
Proof.
  intros Hi. change uint32_max with (Z.ones 32).
  apply Z.testbit_ones_nonneg; lia.
Qed.

Lemma testbit_not32 (x i : Z) :
  0 <= i < 32 -> Z.testbit (not32 x) i = negb (Z.testbit x i).
Proof.
  intros Hi. unfold not32. rewrite Z.lxor_spec, testbit_uint32_max by lia.
  destruct (Z.ltb_spec i 32); [|lia]. apply xorb_true_r.
Qed.

(** The two class masks are the same in both states. *)
Definition same_class_masks (s s' : IrqState) : Prop :=
  sparcISR1HandlersMask s' = sparcISR1HandlersMask s /\
  sparcISR2HandlersMask s' = sparcISR2HandlersMask s.

(** C8: enabling ORs the class masks into the current mask, disabling ANDs
    it with their 32-bit complement, the "all" operations using the union
    of the two class masks and the ISR2 operations the ISR2 mask alone;
    none of the four changes a class mask. *)
Theorem mask_operations (s : IrqState) :
  let cur := sparcCurrentInterruptMask s in
  let m1 := sparcISR1HandlersMask s in
  let m2 := sparcISR2HandlersMask s in
  (sparcCurrentInterruptMask (sparcEnableAllInterrupts s) = Z.lor cur (Z.lor m1 m2) /\
   same_class_masks s (sparcEnableAllInterrupts s)) /\
  (sparcCurrentInterruptMask (sparcDisableAllInterrupts s)
     = Z.land cur (not32 (Z.lor m1 m2)) /\
   same_class_masks s (sparcDisableAllInterrupts s)) /\
  (sparcCurrentInterruptMask (sparcEnableISR2Interrupts s) = Z.lor cur m2 /\
   same_class_masks s (sparcEnableISR2Interrupts s)) /\
  (sparcCurrentInterruptMask (sparcDisableISR2Interrupts s) = Z.land cur (not32 m2) /\
   same_class_masks s (sparcDisableISR2Interrupts s)) /\
  (forall i, 0 <= i < 32 ->
     Z.testbit (sparcCurrentInterruptMask (sparcEnableAllInterrupts s)) i
       = Z.testbit cur i || (Z.testbit m1 i || Z.testbit m2 i) /\
     Z.testbit (sparcCurrentInterruptMask (sparcDisableAllInterrupts s)) i
       = Z.testbit cur i && negb (Z.testbit m1 i || Z.testbit m2 i) /\
     Z.testbit (sparcCurrentInterruptMask (sparcEnableISR2Interrupts s)) i
       = Z.testbit cur i || Z.testbit m2 i /\
     Z.testbit (sparcCurrentInterruptMask (sparcDisableISR2Interrupts s)) i
       = Z.testbit cur i && negb (Z.testbit m2 i)).
Proof.
  cbv zeta. unfold same_class_masks. cbn.
  repeat split; try reflexivity.
  - now rewrite !Z.lor_spec.
  - now rewrite Z.land_spec, testbit_not32, Z.lor_spec by lia.
  - now rewrite Z.lor_spec.
  - now rewrite Z.land_spec, testbit_not32 by lia.
Qed.

Lemma table_store_in_bounds (l : list Z) (index v : Z) :
  (exists l', table_store l index v = Some l') <-> 0 <= index < Z.of_nat (length l).
Proof.
  unfold table_store.
  destruct (Z.leb_spec 0 index), (Z.ltb_spec index (Z.of_nat (length l)));
    cbn [andb]; split; intros H'; try lia; try (destruct H' as [l' H']; discriminate).
  eexists. reflexivity.
Qed.

(** C9: with the table at its declared size of fifteen entries, each of
    the two registration functions stores inside the table exactly when
    1 <= irq <= 15, whichever way the subscript irq - 1 is computed; with
    irq = 0 or irq > 15 the store is outside the table, and nothing in the
    functions checks for it. *)
Theorem register_handler_bounds (s : IrqState) (newHandler irq : Z) :
  length (sparcIRQHandlersTable s) = 15%nat ->
  0 <= irq < 2 ^ 32 ->
  ((exists s', sparcRegisterISR1Handler newHandler irq s = Some s') <-> 1 <= irq <= 15) /\
  ((exists s', sparcRegisterISR2Handler newHandler irq s = Some s') <-> 1 <= irq <= 15) /\
  (0 <= table_index irq < 15 <-> 1 <= irq <= 15) /\
  (0 <= table_index_unsigned irq < 15 <-> 1 <= irq <= 15) /\
  (sparcRegisterISR1Handler newHandler 0 s = None) /\
  (sparcRegisterISR2Handler newHandler 0 s = None) /\
  (15 < irq -> sparcRegisterISR1Handler newHandler irq s = None /\
               sparcRegisterISR2Handler newHandler irq s = None).
Proof.
  intros Hlen Hirq.
  assert (Hstore : forall m, table_store (sparcIRQHandlersTable s) (table_index m) newHandler
                             = None <-> ~ (1 <= m <= 15)).
  { intros m. unfold table_store, table_index. rewrite Hlen.
    destruct (Z.leb_spec 0 (m - 1)), (Z.ltb_spec (m - 1) (Z.of_nat 15));
      cbn [andb]; split; intros H'; try lia; try discriminate; try reflexivity. }
  assert (H1 : forall m, (exists s', sparcRegisterISR1Handler newHandler m s = Some s')
                         <-> 1 <= m <= 15).
  { intros m. unfold sparcRegisterISR1Handler. cbn.
    specialize (Hstore m).
    destruct (table_store (sparcIRQHandlersTable s) (table_index m) newHandler) as [l|].
    - split; [|intros _; eexists; reflexivity].
      intros _. destruct (Z_le_dec 1 m), (Z_le_dec m 15); try lia;
        exfalso; assert (Some l = None) by (apply Hstore; lia); discriminate.
    - split; [intros [s' H']; discriminate|].
      intros Hm. exfalso. apply (proj1 Hstore); [reflexivity|exact Hm]. }
  assert (H2 : forall m, (exists s', sparcRegisterISR2Handler newHandler m s = Some s')
                         <-> 1 <= m <= 15).
  { intros m. unfold sparcRegisterISR2Handler. cbn.
    specialize (Hstore m).
    destruct (table_store (sparcIRQHandlersTable s) (table_index m) newHandler) as [l|].
    - split; [|intros _; eexists; reflexivity].
      intros _. destruct (Z_le_dec 1 m), (Z_le_dec m 15); try lia;
        exfalso; assert (Some l = None) by (apply Hstore; lia); discriminate.
    - split; [intros [s' H']; discriminate|].
      intros Hm. exfalso. apply (proj1 Hstore); [reflexivity|exact Hm]. }
  assert (Hnone : forall m, ~ (1 <= m <= 15) ->
            sparcRegisterISR1Handler newHandler m s = None /\
            sparcRegisterISR2Handler newHandler m s = None).
  { intros m Hm. split.
    - destruct (sparcRegisterISR1Handler newHandler m s) as [s'|] eqn:E; [|reflexivity].
      exfalso. apply Hm. apply H1. exists s'. exact E.
    - destruct (sparcRegisterISR2Handler newHandler m s) as [s'|] eqn:E; [|reflexivity].
      exfalso. apply Hm. apply H2. exists s'. exact E. }
  split; [apply H1|]. split; [apply H2|].
  split; [unfold table_index; lia|].
  split.
  - unfold table_index_unsigned, wrap32.
    destruct (Z.eq_dec irq 0) as [->|Hz].
    + change ((0 - 1) mod 2 ^ 32) with 4294967295. lia.
    + rewrite Z.mod_small by lia. lia.
  - split; [apply Hnone; lia|]. split; [apply Hnone; lia|].
    intros Hbig. apply Hnone. lia.
Qed.

(** ** A concrete controller *)

(** IRQ 3 registered as ISR1, IRQ 4 as ISR2, IRQ 1 enabled by hand. *)
Definition example_state : IrqState :=
  mkIrqState 0x08 0x10 0x02 (repeat 0x00 15) [].

Lemma mask_operations_witness :
  0 <= 3 < 32 /\
  Z.testbit (sparcCurrentInterruptMask (sparcEnableAllInterrupts example_state)) 3 = true /\
  Z.testbit (sparcCurrentInterruptMask (sparcDisableAllInterrupts example_state)) 3 = false.
Proof.
  assert (H : 0 <= 3 < 32) by lia.
  split; [exact H|].
  destruct (proj2 (proj2 (proj2 (proj2 (mask_operations example_state)))) 3 H)
    as (E1 & E2 & _).
  split; [rewrite E1|rewrite E2]; reflexivity.
Defined.

Lemma register_handler_bounds_witness :
  length (sparcIRQHandlersTable initial_state) = 15%nat /\
  0 <= 3 < 2 ^ 32 /\
  exists s', sparcRegisterISR1Handler 0x40005000 3 initial_state = Some s'.
Proof.
  assert (H1 : length (sparcIRQHandlersTable initial_state) = 15%nat) by reflexivity.
  assert (H2 : 0 <= 3 < 2 ^ 32) by lia.
  split; [exact H1|]. split; [exact H2|].
  apply (proj1 (register_handler_bounds initial_state 0x40005000 3 H1 H2)). lia.
Defined.

(** ** Registration, and sequences of calls *)

Lemma list_set_length (l : list Z) (n : nat) (v : Z) :
  length (list_set l n v) = length l.
Proof.
  revert n. induction l as [|x l IH]; intros [|n]; cbn; try reflexivity.
  rewrite IH. reflexivity.
Qed.

Lemma list_set_nth_same (l : list Z) (n : nat) (v d : Z) :
  (n < length l)%nat -> nth n (list_set l n v) d = v.
Proof.
  revert n. induction l as [|x l IH]; intros [|n] H; cbn in *; try lia; try reflexivity.
  apply IH. lia.
Qed.

Lemma list_set_nth_other (l : list Z) (n m : nat) (v d : Z) :
  m <> n -> nth m (list_set l n v) d = nth m l d.
Proof.
  revert n m. induction l as [|x l IH]; intros [|n] [|m] H; cbn; try reflexivity.
  - contradiction.
  - apply IH. congruence.
Qed.

Lemma interrupt_bit (irq : Z) :
  0 <= irq < 32 -> wrap32 (Z.shiftl 1 irq) = 2 ^ irq.
Proof.
  intros H. rewrite Z.shiftl_1_l. unfold wrap32. apply Z.mod_small.
  split; [apply Z.pow_nonneg; lia|apply Z.pow_lt_mono_r; lia].
Qed.

Lemma table_store_inside (l : list Z) (index v : Z) :
  0 <= index < Z.of_nat (length l) ->
  table_store l index v = Some (list_set l (Z.to_nat index) v).
Proof.
  intros H. unfold table_store.
  destruct (Z.leb_spec 0 index), (Z.ltb_spec index (Z.of_nat (length l)));
    try lia. reflexivity.
Qed.

(** The calls a client of the file can make, and a sequence of them; a
    registration whose table store falls outside the table ends the
    sequence. *)
Inductive operation : Type :=
| RegisterISR1 (newHandler irq : Z)
| RegisterISR2 (newHandler irq : Z)
| EnableAll
| DisableAll
| EnableISR2
| DisableISR2.

Definition perform (op : operation) (s : IrqState) : option IrqState :=
  match op with
  | RegisterISR1 newHandler irq => sparcRegisterISR1Handler newHandler irq s
  | RegisterISR2 newHandler irq => sparcRegisterISR2Handler newHandler irq s
  | EnableAll => Some (sparcEnableAllInterrupts s)
  | DisableAll => Some (sparcDisableAllInterrupts s)
  | EnableISR2 => Some (sparcEnableISR2Interrupts s)
  | DisableISR2 => Some (sparcDisableISR2Interrupts s)
  end.

Fixpoint perform_all (ops : list operation) (s : IrqState) : option IrqState :=
  match ops with
  | [] => Some s
  | op :: rest =>
      match perform op s with
      | Some s1 => perform_all rest s1
      | None => None
      end
  end.

(** The value argument of the last call so far that names the mask
    register of processor 0, if there was one. *)
Definition mask_argument_after (old : option Z)
    (w : base_argument * irqmp_register * Z) : option Z :=
  match snd (fst w) with
  | IRQMP_MP_INTERRUPT_MASK_REGISTER cpu => if cpu =? 0 then Some (snd w) else old
  | IRQMP_INTERRUPT_CLEAR_REGISTER => old
  end.

Definition last_mask_argument (s : IrqState) : option Z :=
  fold_left mask_argument_after (device_writes s) None.

(** The pairs of base and register that the calls of the file name: the
    variable with the clear register, the name [grDeviceAddress] with the
    mask register of processor 0. *)
Definition call_as_written (w : base_argument * irqmp_register * Z) : bool :=
  match fst (fst w), snd (fst w) with
  | grIRQMBaseAddress, IRQMP_INTERRUPT_CLEAR_REGISTER => true
  | grDeviceAddress, IRQMP_MP_INTERRUPT_MASK_REGISTER cpu => cpu =? 0
  | _, _ => false
  end.

(** The interrupts a mask names, and the masks of a state that are 32-bit
    values. *)
Definition registered (s : IrqState) (i : Z) : bool :=
  Z.testbit (sparcISR1HandlersMask s) i || Z.testbit (sparcISR2HandlersMask s) i.

Definition masks_are_uint32 (s : IrqState) : Prop :=
  0 <= sparcISR1HandlersMask s < 2 ^ 32 /\
  0 <= sparcISR2HandlersMask s < 2 ^ 32 /\
  0 <= sparcCurrentInterruptMask s < 2 ^ 32.

Definition controller_invariant (s : IrqState) : Prop :=
  length (sparcIRQHandlersTable s) = 15%nat /\
  (forall i, Z.testbit (sparcCurrentInterruptMask s) i = true -> registered s i = true) /\
  (forall i, registered s i = true -> 1 <= i <= 15) /\
  (last_mask_argument s = Some (sparcCurrentInterruptMask s) \/
   last_mask_argument s = None /\ sparcCurrentInterruptMask s = 0) /\
  forallb call_as_written (device_writes s) = true.

Lemma last_mask_argument_mask (b : base_argument) (s : IrqState) (v : Z) :
  last_mask_argument (grRegisterWrite b (IRQMP_MP_INTERRUPT_MASK_REGISTER 0) v s)
  = Some v.
Proof.
  unfold last_mask_argument, grRegisterWrite. cbn [device_writes].
  rewrite fold_left_app. reflexivity.
Qed.

Lemma calls_as_written_app (l : list (base_argument * irqmp_register * Z))
    (w : base_argument * irqmp_register * Z) :
  forallb call_as_written l = true -> call_as_written w = true ->
  forallb call_as_written (l ++ [w]) = true.
Proof.
  intros Hl Hw. rewrite forallb_app, Hl. cbn. rewrite Hw. reflexivity.
Qed.

Lemma registerISR1_inside (s : IrqState) (newHandler irq : Z) :
  length (sparcIRQHandlersTable s) = 15%nat -> 1 <= irq <= 15 ->
  sparcRegisterISR1Handler newHandler irq s =
  Some (mkIrqState (Z.lor (sparcISR1HandlersMask s) (2 ^ irq))
          (sparcISR2HandlersMask s) (sparcCurrentInterruptMask s)
          (list_set (sparcIRQHandlersTable s) (Z.to_nat (irq - 1)) newHandler)
          (device_writes s ++
             [(grIRQMBaseAddress, IRQMP_INTERRUPT_CLEAR_REGISTER, 2 ^ irq)])).
Proof.
  intros Hlen Hirq. unfold sparcRegisterISR1Handler. cbn.
  rewrite table_store_inside by (unfold table_index; rewrite Hlen; lia).
  rewrite interrupt_bit by lia. reflexivity.
Qed.

Lemma registerISR2_inside (s : IrqState) (newHandler irq : Z) :
  length (sparcIRQHandlersTable s) = 15%nat -> 1 <= irq <= 15 ->
  sparcRegisterISR2Handler newHandler irq s =
  Some (mkIrqState (sparcISR1HandlersMask s)
          (Z.lor (sparcISR2HandlersMask s) (2 ^ irq)) (sparcCurrentInterruptMask s)
          (list_set (sparcIRQHandlersTable s) (Z.to_nat (irq - 1)) newHandler)
          (device_writes s ++
             [(grIRQMBaseAddress, IRQMP_INTERRUPT_CLEAR_REGISTER, 2 ^ irq)])).
Proof.
  intros Hlen Hirq. unfold sparcRegisterISR2Handler. cbn.
  rewrite table_store_inside by (unfold table_index; rewrite Hlen; lia).
  rewrite interrupt_bit by lia. reflexivity.
Qed.

Lemma register_inside_range (s s' : IrqState) (newHandler irq : Z) :
  length (sparcIRQHandlersTable s) = 15%nat ->
  sparcRegisterISR1Handler newHandler irq s = Some s' \/
  sparcRegisterISR2Handler newHandler irq s = Some s' ->
  1 <= irq <= 15.
Proof.
  intros Hlen H.
  assert (Hs : table_store (sparcIRQHandlersTable s) (table_index irq) newHandler <> None).
  { destruct H as [H|H]; revert H;
      unfold sparcRegisterISR1Handler, sparcRegisterISR2Handler; cbn;
      destruct (table_store _ _ _); congruence. }
  unfold table_store, table_index in Hs. rewrite Hlen in Hs.
  destruct (Z.leb_spec 0 (irq - 1)), (Z.ltb_spec (irq - 1) (Z.of_nat 15));
    cbn [andb] in Hs; try congruence. lia.
Qed.

Lemma testbit_interrupt_bit (irq i : Z) :
  0 <= irq -> Z.testbit (2 ^ irq) i = (irq =? i).
Proof.
  intros H. destruct (Z.ltb_spec i 0).
  - rewrite Z.testbit_neg_r by lia. symmetry. apply Z.eqb_neq. lia.
  - apply Z.pow2_bits_eqb. lia.
Qed.

Lemma perform_keeps_invariant (op : operation) (s s' : IrqState) :
  controller_invariant s -> perform op s = Some s' -> controller_invariant s'.
Proof.
  intros (Hlen & Hcur & Hreg & Hdev & Hcalls) H.
  destruct op as [h irq|h irq| | | | ]; cbn [perform] in H.
  - pose proof (register_inside_range s s' h irq Hlen (or_introl H)) as Hirq.
    rewrite registerISR1_inside in H by assumption.
    injection H as <-. unfold controller_invariant, registered in *. cbn.
    split; [rewrite list_set_length; exact Hlen|].
    split; [|split; [|split]].
    + intros i Hi. apply Hcur in Hi. rewrite Z.lor_spec.
      destruct (Z.testbit (sparcISR1HandlersMask s) i),
        (Z.testbit (sparcISR2HandlersMask s) i), (Z.testbit (2 ^ irq) i);
        cbn in *; congruence.
    + intros i. rewrite Z.lor_spec, testbit_interrupt_bit by lia.
      destruct (Z.eqb_spec irq i); [lia|]. rewrite orb_false_r. apply Hreg.
    + unfold last_mask_argument in *. cbn [device_writes].
      rewrite fold_left_app. exact Hdev.
    + apply calls_as_written_app; [exact Hcalls|reflexivity].
  - pose proof (register_inside_range s s' h irq Hlen (or_intror H)) as Hirq.
    rewrite registerISR2_inside in H by assumption.
    injection H as <-. unfold controller_invariant, registered in *. cbn.
    split; [rewrite list_set_length; exact Hlen|].
    split; [|split; [|split]].
    + intros i Hi. apply Hcur in Hi. rewrite Z.lor_spec.
      destruct (Z.testbit (sparcISR1HandlersMask s) i),
        (Z.testbit (sparcISR2HandlersMask s) i), (Z.testbit (2 ^ irq) i);
        cbn in *; congruence.
    + intros i. rewrite Z.lor_spec, testbit_interrupt_bit by lia.
      destruct (Z.eqb_spec irq i); [lia|]. rewrite orb_false_r. apply Hreg.
    + unfold last_mask_argument in *. cbn [device_writes].
      rewrite fold_left_app. exact Hdev.
    + apply calls_as_written_app; [exact Hcalls|reflexivity].
  - injection H as <-. unfold sparcEnableAllInterrupts. cbv zeta.
    unfold controller_invariant. rewrite last_mask_argument_mask.
    unfold registered in *. cbn.
    split; [exact Hlen|].
    split; [|split; [exact Hreg|split; [left; reflexivity|]]].
    + intros i. rewrite !Z.lor_spec. intros Hi.
      apply orb_true_iff in Hi. destruct Hi as [Hi|Hi]; [apply Hcur; exact Hi|exact Hi].
    + apply calls_as_written_app; [exact Hcalls|reflexivity].
  - injection H as <-. unfold sparcDisableAllInterrupts. cbv zeta.
    unfold controller_invariant. rewrite last_mask_argument_mask.
    unfold registered in *. cbn.
    split; [exact Hlen|].
    split; [|split; [exact Hreg|split; [left; reflexivity|]]].
    + intros i. rewrite Z.land_spec. intros Hi.
      apply andb_true_iff in Hi. apply Hcur. apply Hi.
    + apply calls_as_written_app; [exact Hcalls|reflexivity].
  - injection H as <-. unfold sparcEnableISR2Interrupts. cbv zeta.
    unfold controller_invariant. rewrite last_mask_argument_mask.
    unfold registered in *. cbn.
    split; [exact Hlen|].
    split; [|split; [exact Hreg|split; [left; reflexivity|]]].
    + intros i. rewrite Z.lor_spec. intros Hi.
      apply orb_true_iff in Hi. destruct Hi as [Hi|Hi]; [apply Hcur; exact Hi|].
      rewrite Hi. apply orb_true_r.
    + apply calls_as_written_app; [exact Hcalls|reflexivity].
  - injection H as <-. unfold sparcDisableISR2Interrupts. cbv zeta.
    unfold controller_invariant. rewrite last_mask_argument_mask.
    unfold registered in *. cbn.
    split; [exact Hlen|].
    split; [|split; [exact Hreg|split; [left; reflexivity|]]].
    + intros i. rewrite Z.land_spec. intros Hi.
      apply andb_true_iff in Hi. apply Hcur. apply Hi.
    + apply calls_as_written_app; [exact Hcalls|reflexivity].
Qed.

Lemma initial_state_invariant : controller_invariant initial_state.
Proof.
  unfold controller_invariant, registered. cbn.
  split; [reflexivity|]. split; [|split; [|split]].
  - intros i. rewrite Z.bits_0. discriminate.
  - intros i. rewrite Z.bits_0. discriminate.
  - right. split; reflexivity.
  - reflexivity.
Qed.

Lemma perform_all_keeps_invariant (ops : list operation) (s s' : IrqState) :
  controller_invariant s -> perform_all ops s = Some s' -> controller_invariant s'.
Proof.
  revert s. induction ops as [|op ops IH]; intros s Hinv; cbn [perform_all].
  - intros H. injection H as <-. exact Hinv.
  - destruct (perform op s) as [s1|] eqn:E; [|discriminate].
    apply IH. eapply perform_keeps_invariant; eassumption.
Qed.

Lemma perform_all_app (ops1 ops2 : list operation) (s : IrqState) :
  perform_all (ops1 ++ ops2) s =
  match perform_all ops1 s with
  | Some s1 => perform_all ops2 s1
  | None => None
  end.
Proof.
  revert s. induction ops1 as [|op ops1 IH]; intros s; cbn [perform_all app].
  - reflexivity.
  - destruct (perform op s); [apply IH|reflexivity].
Qed.

Lemma bits_below_32 (x i : Z) : 0 <= x < 2 ^ 32 -> 32 <= i -> Z.testbit x i = false.
Proof.
  intros Hx Hi. destruct (Z.eq_dec x 0) as [->|Hz]; [apply Z.bits_0|].
  apply Z.bits_above_log2; [lia|].
  assert (Z.log2 x < 32) by (apply Z.log2_lt_pow2; lia). lia.
Qed.

Lemma testbit_not32_high (x i : Z) :
  32 <= i -> Z.testbit (not32 x) i = Z.testbit x i.
Proof.
  intros Hi. unfold not32. rewrite Z.lxor_spec, testbit_uint32_max by lia.
  destruct (Z.ltb_spec i 32); [lia|]. apply xorb_false_r.
Qed.

(** X1: a registration with 1 <= irq <= 15 ORs bit irq into the handlers
    mask of its own class, leaves the mask of the other class and the
    current interrupt mask as they were (so it enables nothing), stores the
    handler at entry irq - 1 of the table and changes no other entry, and
    writes the bit of irq to the interrupt clear register at
    [grIRQMBaseAddress] as its one device write.  The two functions differ
    only in the class mask. *)
Theorem register_handler_effect (s : IrqState) (newHandler irq : Z) :
  length (sparcIRQHandlersTable s) = 15%nat -> 1 <= irq <= 15 ->
  exists s1 s2 : IrqState,
    sparcRegisterISR1Handler newHandler irq s = Some s1 /\
    sparcRegisterISR2Handler newHandler irq s = Some s2 /\
    sparcISR1HandlersMask s1 = Z.lor (sparcISR1HandlersMask s) (2 ^ irq) /\
    sparcISR2HandlersMask s1 = sparcISR2HandlersMask s /\
    sparcISR2HandlersMask s2 = Z.lor (sparcISR2HandlersMask s) (2 ^ irq) /\
    sparcISR1HandlersMask s2 = sparcISR1HandlersMask s /\
    sparcCurrentInterruptMask s1 = sparcCurrentInterruptMask s /\
    sparcCurrentInterruptMask s2 = sparcCurrentInterruptMask s /\
    sparcIRQHandlersTable s2 = sparcIRQHandlersTable s1 /\
    length (sparcIRQHandlersTable s1) = 15%nat /\
    nth (Z.to_nat (irq - 1)) (sparcIRQHandlersTable s1) 0 = newHandler /\
    (forall n, n <> Z.to_nat (irq - 1) ->
       nth n (sparcIRQHandlersTable s1) 0 = nth n (sparcIRQHandlersTable s) 0) /\
    device_writes s1 =
      device_writes s ++ [(grIRQMBaseAddress, IRQMP_INTERRUPT_CLEAR_REGISTER, 2 ^ irq)] /\
    device_writes s2 = device_writes s1.
Proof.
  intros Hlen Hirq.
  eexists. eexists.
  split; [apply registerISR1_inside; assumption|].
  split; [apply registerISR2_inside; assumption|].
  cbn. repeat split.
  - rewrite list_set_length. exact Hlen.
  - apply list_set_nth_same. rewrite Hlen. lia.
  - intros n Hn. apply list_set_nth_other. exact Hn.
Qed.

(** X2: whatever sequence of registrations and mask operations is run from
    the initial values of the file, as long as every registration stores
    inside the table: the table keeps its fifteen entries, every interrupt
    enabled in the current mask is registered in one of the two class
    masks, and only interrupts 1 to 15 are ever registered. *)
Theorem enabled_interrupts_are_registered (ops : list operation) (s : IrqState) :
  perform_all ops initial_state = Some s ->
  length (sparcIRQHandlersTable s) = 15%nat /\
  (forall i, Z.testbit (sparcCurrentInterruptMask s) i = true -> registered s i = true) /\
  (forall i, registered s i = true -> 1 <= i <= 15).
Proof.
  intros H.
  destruct (perform_all_keeps_invariant ops initial_state s initial_state_invariant H)
    as (Hlen & Hcur & Hreg & _ & _).
  split; [exact Hlen|]. split; [exact Hcur|exact Hreg].
Qed.

(** X3: what the calls of [grRegisterWrite] carry.  After any sequence of
    calls from the initial values, every call made so far names either the
    variable [grIRQMBaseAddress] with the interrupt clear register (the
    registrations) or the name [grDeviceAddress] with the mask register of
    processor 0 (the mask operations), so no call names the mask register
    at [grIRQMBaseAddress]; and either no mask operation has run yet and the
    current mask is still 0, or the value argument of the last call that
    names the mask register is the current interrupt mask. *)
Theorem mask_calls_carry_current_mask (ops : list operation) (s : IrqState) :
  perform_all ops initial_state = Some s ->
  forallb call_as_written (device_writes s) = true /\
  (forall r v, ~ In (grIRQMBaseAddress, IRQMP_MP_INTERRUPT_MASK_REGISTER r, v)
                    (device_writes s)) /\
  (last_mask_argument s = Some (sparcCurrentInterruptMask s) \/
   last_mask_argument s = None /\ sparcCurrentInterruptMask s = 0).
Proof.
  intros H.
  destruct (perform_all_keeps_invariant ops initial_state s initial_state_invariant H)
    as (_ & _ & _ & Hdev & Hcalls).
  split; [exact Hcalls|]. split; [|exact Hdev].
  intros r v Hin.
  rewrite forallb_forall in Hcalls. apply Hcalls in Hin. discriminate Hin.
Qed.

(** X4: after any such sequence, disabling all interrupts leaves the
    current interrupt mask at 0, and the call it makes passes
    [grDeviceAddress], the mask register of processor 0 and the value 0. *)
Theorem disable_all_clears_current_mask (ops : list operation) (s : IrqState) :
  perform_all (ops ++ [DisableAll]) initial_state = Some s ->
  sparcCurrentInterruptMask s = 0 /\
  exists calls,
    device_writes s =
    calls ++ [(grDeviceAddress, IRQMP_MP_INTERRUPT_MASK_REGISTER 0, 0)].
Proof.
  rewrite perform_all_app.
  destruct (perform_all ops initial_state) as [s1|] eqn:E; [|discriminate].
  cbn [perform_all perform]. intros H. injection H as <-.
  destruct (perform_all_keeps_invariant ops initial_state s1 initial_state_invariant E)
    as (_ & Hcur & Hreg & _).
  assert (Hz : sparcCurrentInterruptMask (sparcDisableAllInterrupts s1) = 0).
  { unfold sparcDisableAllInterrupts. cbn.
    apply Z.bits_inj'. intros i Hi. rewrite Z.bits_0, Z.land_spec.
    destruct (Z.testbit (sparcCurrentInterruptMask s1) i) eqn:Ec; [|reflexivity].
    pose proof (Hcur i Ec) as Hr. pose proof (Hreg i Hr) as Hi15.
    rewrite testbit_not32, Z.lor_spec by lia.
    unfold registered in Hr. rewrite Hr. reflexivity. }
  split; [exact Hz|].
  exists (device_writes s1).
  unfold sparcDisableAllInterrupts in *. cbn in *. rewrite Hz. reflexivity.
Qed.

(** X5: how the mask operations compose on 32-bit masks.  Enabling is
    idempotent; disabling after enabling gives what disabling alone gives,
    and enabling after disabling what enabling alone gives, so neither
    order gives back a current mask that had class bits partly set; after
    enabling all and disabling the ISR2 class, the interrupts enabled are
    those that were enabled or of the ISR1 class, less the ISR2 class. *)
Theorem mask_operations_compose (s : IrqState) :
  masks_are_uint32 s ->
  let cur := sparcCurrentInterruptMask in
  cur (sparcEnableAllInterrupts (sparcEnableAllInterrupts s))
    = cur (sparcEnableAllInterrupts s) /\
  cur (sparcDisableAllInterrupts (sparcEnableAllInterrupts s))
    = cur (sparcDisableAllInterrupts s) /\
  cur (sparcEnableAllInterrupts (sparcDisableAllInterrupts s))
    = cur (sparcEnableAllInterrupts s) /\
  cur (sparcDisableISR2Interrupts (sparcEnableAllInterrupts s))
    = Z.land (Z.lor (cur s) (sparcISR1HandlersMask s)) (not32 (sparcISR2HandlersMask s)) /\
  masks_are_uint32 (sparcEnableAllInterrupts s) /\
  masks_are_uint32 (sparcDisableAllInterrupts s) /\
  masks_are_uint32 (sparcEnableISR2Interrupts s) /\
  masks_are_uint32 (sparcDisableISR2Interrupts s).
Proof.
  intros (H1 & H2 & Hc). cbv zeta.
  assert (Hbits : forall x, 0 <= x ->
            (forall i, 32 <= i -> Z.testbit x i = false) -> 0 <= x < 2 ^ 32).
  { intros x Hx Hhigh. split; [exact Hx|].
    destruct (Z.eq_dec x 0) as [->|Hz]; [reflexivity|].
    apply Z.log2_lt_pow2; [lia|].
    destruct (Z.lt_ge_cases (Z.log2 x) 32) as [Hl|Hl]; [exact Hl|].
    pose proof (Z.bit_log2 x ltac:(lia)) as Hb. rewrite Hhigh in Hb by exact Hl.
    discriminate. }
  assert (Hlor : forall a b, 0 <= a < 2 ^ 32 -> 0 <= b < 2 ^ 32 -> 0 <= Z.lor a b < 2 ^ 32).
  { intros a b Ha Hb. apply Hbits; [apply Z.lor_nonneg; lia|].
    intros i Hi. rewrite Z.lor_spec, !bits_below_32 by assumption. reflexivity. }
  assert (Hland : forall a b, 0 <= a < 2 ^ 32 -> 0 <= Z.land a b < 2 ^ 32).
  { intros a b Ha.
    assert (Hn : 0 <= Z.land a b) by (apply Z.land_nonneg; lia).
    apply Hbits; [exact Hn|].
    intros i Hi. rewrite Z.land_spec, (bits_below_32 a) by assumption. reflexivity. }
  unfold masks_are_uint32, sparcEnableAllInterrupts, sparcDisableAllInterrupts,
    sparcEnableISR2Interrupts, sparcDisableISR2Interrupts. cbn.
  assert (Hhigh : forall i, 32 <= i ->
            Z.testbit (sparcCurrentInterruptMask s) i = false /\
            Z.testbit (sparcISR1HandlersMask s) i = false /\
            Z.testbit (sparcISR2HandlersMask s) i = false).
  { intros i Hi. rewrite !bits_below_32 by assumption. repeat split. }
  repeat split; try lia;
    try (apply Hlor; try apply Hlor; assumption);
    try (apply Hland; assumption);
    apply Z.bits_inj'; intros i Hi;
    repeat rewrite ?Z.land_spec, ?Z.lor_spec;
    (destruct (Z.lt_ge_cases i 32) as [Hlt|Hge];
     [ repeat rewrite testbit_not32 by lia
     | repeat rewrite testbit_not32_high by lia;
       destruct (Hhigh i Hge) as (E1 & E2 & E3) ]);
    repeat rewrite ?Z.land_spec, ?Z.lor_spec;
    rewrite ?E1, ?E2, ?E3;
    destruct (Z.testbit (sparcCurrentInterruptMask s) i),
      (Z.testbit (sparcISR1HandlersMask s) i),
      (Z.testbit (sparcISR2HandlersMask s) i); reflexivity.
Qed.

Lemma register_handler_effect_witness :
  length (sparcIRQHandlersTable initial_state) = 15%nat /\
  1 <= 3 <= 15 /\
  exists s1 : IrqState,
    sparcRegisterISR1Handler 0x40005000 3 initial_state = Some s1 /\
    sparcISR1HandlersMask s1 = 8 /\
    sparcCurrentInterruptMask s1 = 0.
Proof.
  assert (H1 : length (sparcIRQHandlersTable initial_state) = 15%nat) by reflexivity.
  assert (H2 : 1 <= 3 <= 15) by lia.
  split; [exact H1|]. split; [exact H2|].
  destruct (register_handler_effect initial_state 0x40005000 3 H1 H2)
    as (s1 & s2 & E1 & _ & Em & _ & _ & _ & Ec & _).
  exists s1. split; [exact E1|]. split; [rewrite Em|rewrite Ec]; reflexivity.
Defined.

(** Interrupt 3 registered as ISR1 and interrupt 4 as ISR2, then all
    enabled. *)
Definition example_calls : list operation :=
  [ RegisterISR1 0x40005000 3; RegisterISR2 0x40005100 4; EnableAll ].

Lemma enabled_interrupts_are_registered_witness :
  exists s, perform_all example_calls initial_state = Some s /\
            length (sparcIRQHandlersTable s) = 15%nat /\
            registered s 3 = true.
Proof.
  eexists. split; [vm_compute; reflexivity|].
  split; [|reflexivity].
  apply (enabled_interrupts_are_registered example_calls). vm_compute. reflexivity.
Defined.

Lemma mask_calls_carry_current_mask_witness :
  exists s, perform_all example_calls initial_state = Some s /\
            sparcCurrentInterruptMask s = 24 /\
            last_mask_argument s = Some 24 /\
            forallb call_as_written (device_writes s) = true.
Proof.
  eexists. split; [vm_compute; reflexivity|]. split; [reflexivity|].
  split; [reflexivity|].
  apply (mask_calls_carry_current_mask example_calls). vm_compute. reflexivity.
Defined.

Lemma disable_all_clears_current_mask_witness :
  exists s, perform_all (example_calls ++ [DisableAll]) initial_state = Some s /\
            sparcCurrentInterruptMask s = 0.
Proof.
  eexists. split; [vm_compute; reflexivity|].
  apply (disable_all_clears_current_mask example_calls). vm_compute. reflexivity.
Defined.

Lemma mask_operations_compose_witness :
  masks_are_uint32 example_state /\
  sparcCurrentInterruptMask (sparcDisableAllInterrupts (sparcEnableAllInterrupts example_state))
  = sparcCurrentInterruptMask (sparcDisableAllInterrupts example_state).
Proof.
  assert (H : masks_are_uint32 example_state)
    by (unfold masks_are_uint32; cbn; lia).
  split; [exact H|].
  exact (proj1 (proj2 (mask_operations_compose example_state H))).
Defined.

End OsInternalArch.
